(** * Para wallet connector: the provider bridging adapter

    A shallow embedding of [src/app/components/orderlyProvider/paraConnector.tsx]
    (component [ParaWalletBridge]) and the properties of its contract:
    chain selection and persistence, wallet-state derivation, the stable
    EIP-1193 provider shim, signature normalisation, event emission and
    disconnect.

    React's reactive cells are made explicit: a [useState] cell and the
    [useRef] cells are fields of the record [Bridge]; a render is a function
    from the props, the SDK inputs and a [Bridge] to a result and a new
    [Bridge]; renders and the calls made between them are separate events;
    a rejected promise is the [Throw] case of [outcome]. *)

From Stdlib Require Import ZArith String Ascii List Bool Lia.
From Stdlib Require Import HexadecimalString DecimalString.
From Stdlib Require DecimalPos HexadecimalPos.
From stdpp Require Import gmap strings list.

Local Open Scope Z_scope.

(** ** JavaScript primitives used by the connector *)

Module Js.

(** Strings.  A string of the model is a JavaScript string whose code
    units are all below 256, one [ascii] per code unit; on these, length,
    [slice], [padStart], [split] and the comparisons are those of
    JavaScript.  Strings with other code units are outside the model.

    Numbers.  The connector only ever produces numbers with [parseInt]
    or receives chain ids, so the model keeps the integer-valued numbers
    and [NaN]; fractions and infinities are left out.  The integers are
    kept exactly, as [Z], where JavaScript has doubles: the two agree on
    the safe integers ([isSafeInteger] below), on which [parseInt],
    [toString] and the arithmetic used here are exact.  Beyond them
    JavaScript rounds what [parseInt] reads, and [toString()] leaves plain
    decimal notation; a property that depends on this is stated for safe
    integers. *)
Inductive number : Type :=
| Num (z : Z)
| NaN.

#[global] Instance number_eq_dec : EqDecision number.
Proof. solve_decision. Defined.

(** [Array.prototype.includes] and React's dependency comparison use
    SameValueZero / [Object.is]: unlike [===], they equate NaN with NaN. *)
Definition sameValueZero (a b : number) : bool := bool_decide (a = b).

(** [a !== b] *)
Definition strict_neq (a b : number) : bool :=
  match a, b with
  | Num x, Num y => negb (x =? y)
  | _, _ => true
  end.

(** [a < b] *)
Definition lt (a b : number) : bool :=
  match a, b with
  | Num x, Num y => x <? y
  | _, _ => false
  end.

(** [a + b] *)
Definition add (a b : number) : number :=
  match a, b with
  | Num x, Num y => Num (x + y)
  | _, _ => NaN
  end.

(** [Number.isSafeInteger(n)] *)
Definition isSafeInteger (n : number) : bool :=
  match n with
  | Num z => Z.abs z <=? 2 ^ 53 - 1
  | NaN => false
  end.

(** Truthiness of a number: 0 and NaN are falsy. *)
Definition truthy (n : number) : bool :=
  match n with
  | Num z => negb (z =? 0)
  | NaN => false
  end.

(** Truthiness of a string: the empty string is falsy. *)
Definition truthy_string (s : string) : bool :=
  match s with
  | EmptyString => false
  | String _ _ => true
  end.

(** Truthiness of an optional string ([undefined] is falsy). *)
Definition truthy_opt (o : option string) : bool :=
  match o with
  | Some s => truthy_string s
  | None => false
  end.

(** [arr.includes(x)] *)
Definition includes (arr : list number) (x : number) : bool :=
  existsb (sameValueZero x) arr.

(** White space and line terminators, skipped by [trim] and by [parseInt]:
    among the code units below 256 these are tab, line feed, vertical tab,
    form feed, carriage return, space and the no-break space U+00A0. *)
Definition is_whitespace (c : ascii) : bool :=
  let n := nat_of_ascii c in
  ((n =? 32) || ((9 <=? n) && (n <=? 13)) || (n =? 160))%nat.

Fixpoint trimStart (s : string) : string :=
  match s with
  | EmptyString => EmptyString
  | String c r => if is_whitespace c then trimStart r else s
  end.

Definition trim (s : string) : string :=
  String.rev (trimStart (String.rev (trimStart s))).

(** Value of a character read as a digit, up to base 16. *)
Definition digit_value (c : ascii) : option Z :=
  let n := Z.of_nat (nat_of_ascii c) in
  if (48 <=? n) && (n <=? 57) then Some (n - 48)
  else if (97 <=? n) && (n <=? 102) then Some (n - 87)
  else if (65 <=? n) && (n <=? 70) then Some (n - 55)
  else None.

(** The longest prefix of digits valid in [radix], read most significant
    digit first; [None] when that prefix is empty. *)
Fixpoint read_digits (radix : Z) (acc : option Z) (s : string) : option Z :=
  match s with
  | EmptyString => acc
  | String c r =>
      match digit_value c with
      | Some d =>
          if d <? radix
          then read_digits radix (Some (radix * default 0 acc + d)) r
          else acc
      | None => acc
      end
  end.

Definition strip_hex_prefix (s : string) : string :=
  match s with
  | String "0" (String "x" r) => r
  | String "0" (String "X" r) => r
  | _ => s
  end.

(** [parseInt(s, radix)] for the two radices the connector uses.  The
    value read is kept exactly; JavaScript rounds it to the nearest double,
    which changes nothing when it is a safe integer. *)
Definition parseInt (s : string) (radix : Z) : number :=
  let s1 := trimStart s in
  let '(sign, s2) :=
    match s1 with
    | String "-" r => (-1, r)
    | String "+" r => (1, r)
    | _ => (1, s1)
    end in
  let s3 := if radix =? 16 then strip_hex_prefix s2 else s2 in
  match read_digits radix None s3 with
  | Some n => Num (sign * n)
  | None => NaN
  end.

(** [n.toString(16)] and [n.toString()].  The decimal form is the one
    JavaScript prints for a safe integer; it prints other digits for some
    larger numbers, and exponent notation from 1e21 on. *)
Definition toString16 (n : number) : string :=
  match n with
  | Num z => HexadecimalString.NilZero.string_of_int (Z.to_hex_int z)
  | NaN => "NaN"
  end.

Definition toString10 (n : number) : string :=
  match n with
  | Num z => DecimalString.NilZero.string_of_int (Z.to_int z)
  | NaN => "NaN"
  end.

Fixpoint string_drop (n : nat) (s : string) : string :=
  match n, s with
  | O, _ => s
  | S k, String _ r => string_drop k r
  | S _, EmptyString => EmptyString
  end.

Fixpoint string_take (n : nat) (s : string) : string :=
  match n, s with
  | O, _ => EmptyString
  | S k, String c r => String c (string_take k r)
  | S _, EmptyString => EmptyString
  end.

(** [s.slice(start, end)]; a negative index counts from the end. *)
Definition slice (s : string) (start : Z) (end_ : option Z) : string :=
  let len := Z.of_nat (String.length s) in
  let clamp i := if i <? 0 then Z.max (len + i) 0 else Z.min i len in
  let from := clamp start in
  let to := match end_ with Some e => clamp e | None => len end in
  string_take (Z.to_nat (to - from)) (string_drop (Z.to_nat from) s).

Fixpoint repeat_char (n : nat) (c : ascii) : string :=
  match n with
  | O => EmptyString
  | S k => String c (repeat_char k c)
  end.

(** [s.padStart(n, c)] with a one-character filler. *)
Definition padStart (n : nat) (c : ascii) (s : string) : string :=
  repeat_char (n - String.length s) c +:+ s.

(** [s.split(sep)] with a one-character separator. *)
Fixpoint split_go (sep : ascii) (cur : string) (s : string) : list string :=
  match s with
  | EmptyString => [String.rev cur]
  | String c r =>
      if Ascii.eqb c sep
      then String.rev cur :: split_go sep EmptyString r
      else split_go sep (String c cur) r
  end.

Definition split (s : string) (sep : ascii) : list string :=
  split_go sep EmptyString s.

(** [arr.join(sep)] *)
Fixpoint join (sep : string) (l : list string) : string :=
  match l with
  | [] => ""
  | [x] => x
  | x :: r => x +:+ sep +:+ join sep r
  end.

(** Values that cross the provider boundary (request parameters, results). *)
#[local] Unset Elimination Schemes.
Inductive value : Type :=
| VUndefined
| VNull
| VBool (b : bool)
| VNumber (n : number)
| VString (s : string)
| VArray (l : list value)
| VObject (fields : list (string * value)).
#[local] Set Elimination Schemes.

(** [o.k] on a value already known not to be nullish. *)
Definition get_field (k : string) (v : value) : value :=
  match v with
  | VObject fields =>
      match List.find (fun kv => String.eqb (fst kv) k) fields with
      | Some kv => snd kv
      | None => VUndefined
      end
  | _ => VUndefined
  end.

(** [arr[i]] for a parameter array that may be absent ([params || []]). *)
Definition param (params : option (list value)) (i : nat) : value :=
  nth i (default [] params) VUndefined.

End Js.

Import Js.

(** ** Data model *)

(** A promise that settles: fulfilled with a value, or rejected with an
    error (an exception thrown by synchronous code is the same case). *)
Inductive outcome (A : Type) : Type :=
| Ok (a : A)
| Throw (message : string).
Arguments Ok {A} a.
Arguments Throw {A} message.

Inductive NetworkId : Type := mainnet | testnet.

Inductive ChainNamespace : Type := evm | solana.

Inductive ChainType : Type := EVM | SOLANA.

#[global] Instance ChainType_eq_dec : EqDecision ChainType.
Proof. solve_decision. Defined.

(** [interface ParaWallet]; an absent optional field is [None]. *)
Record ParaWallet : Type := {
  chainType : option ChainType;
  type : option ChainType;
  wallet_address : option string;
}.

(** [interface ParaEmbedded] *)
Record ParaEmbedded : Type := {
  isConnected : option bool;
  isGuestMode : option bool;
  wallets : option (list ParaWallet);
  embedded_address : option string;
}.

(** [account.external.evm] of the SDK's [useAccount()]. *)
Record ExternalEvm : Type := {
  evm_address : option string;
  connector_name : option (option string);
  evm_chainId : option number;
}.

(** A Solana public key: an object, whose [toString()] is all the code uses. *)
Record PublicKey : Type := { toString : string }.

Record ExternalSolana : Type := {
  publicKey : option PublicKey;
  solana_name : option string;
}.

Record External : Type := {
  external_evm : option ExternalEvm;
  external_solana : option ExternalSolana;
}.

Record Account : Type := {
  external : option External;
  embedded : option ParaEmbedded;
  account_isConnected : bool;
}.

(** The SDK client; [logout] is [None] when the client has no such
    function, and otherwise holds how the call settles. *)
Record ParaClient : Type := {
  client_id : nat;
  logout : option (outcome unit);
}.

(** What a render reads from the SDK hooks. *)
Record Inputs : Type := {
  account : Account;
  walletQuery_data : option ParaWallet;
  paraClient : option ParaClient;
}.

(** [new ethers.JsonRpcProvider(rpcUrl, chainId)]: an opaque client,
    identified by the arguments it was built from. *)
Record JsonRpcProvider : Type := {
  provider_url : string;
  provider_network : number;
}.

(** [new ParaEthersSigner(paraClient, ethersProvider)] *)
Record ParaEthersSigner : Type := {
  signer_client : ParaClient;
  signer_provider : JsonRpcProvider;
}.

(** The value held by [providerStateRef]. *)
Record ProviderState : Type := {
  chainId : number;
  rpcUrl : string;
  signer : option ParaEthersSigner;
  ethersProvider : JsonRpcProvider;
}.

(** The object held by [stableProviderRef].  Its identity is [handle];
    [closure_address] is the variable [address] of the render that built
    it, which the [request] closure captured. *)
Record Provider : Type := {
  handle : nat;
  closure_address : string;
}.

(** A chain id as it appears in [WalletState.chains]: number or string. *)
Inductive ChainRef : Type :=
| ChainNumber (n : number)
| ChainName (s : string).

Record WalletState : Type := {
  label : string;
  icon : string;
  provider : Provider;
  accounts : list string;
  chains : list (ChainRef * ChainNamespace);
}.

(** Listener callbacks are compared by identity in a JS [Set]. *)
Definition Listener : Type := nat.

(** Observable calls the bridge makes on its collaborators, in order. *)
Inductive Effect : Type :=
| ListenerCalled (l : Listener) (args : list value)
| LogoutCalled (c : nat).

(** [window.localStorage]: the stored items, and whether reading or
    writing raises (storage disabled, quota exceeded). *)
Record Storage : Type := {
  items : gmap string string;
  read_fails : bool;
  write_fails : bool;
}.

Definition getItem (ls : Storage) (key : string) : outcome (option string) :=
  if read_fails ls then Throw "SecurityError" else Ok (items ls !! key).

Definition setItem (ls : Storage) (key value : string) : outcome Storage :=
  if write_fails ls then Throw "QuotaExceededError"
  else Ok {| items := <[key := value]> (items ls);
             read_fails := read_fails ls;
             write_fails := write_fails ls |}.

Record TransactionReceipt : Type := { hash : string }.

Record TransactionResponse : Type := {
  wait : outcome (option TransactionReceipt);
}.

(** Code outside this repository that the connector calls. *)
Record Externals : Type := {
  getRuntimeConfig : string -> option string;
  getBytes : value -> outcome (list Byte.byte);
  JSON_parse : string -> outcome value;
  signMessage : ParaEthersSigner -> list Byte.byte -> outcome string;
  signTypedData : ParaEthersSigner -> value -> list (string * value) -> value -> outcome string;
  sendTransaction : ParaEthersSigner -> value -> outcome TransactionResponse;
  send : JsonRpcProvider -> string -> list value -> outcome value;
  call_listener : Listener -> list value -> outcome unit;
}.

(** The state of one mounted [ParaWalletBridge].  [selectedChainId] is the
    state cell with the updates queued so far applied: the value the next
    render reads. *)
Record Bridge : Type := {
  selectedChainId : number;
  settingChain : bool;
  eventListenersRef : gmap string (list Listener);
  prevChainIdRef : number;
  providerStateRef : option ProviderState;
  stableProviderRef : option Provider;
  localStorage : Storage;
  (** the dependency [selectedChainId] of the last run of the
      chain-changed effect; [None] before the first commit *)
  effect_deps : option number;
  (** how many provider objects in all have been created *)
  allocated : nat;
  trace : list Effect;
}.

(** Field updates of [Bridge]. *)
Definition set_selectedChainId (v : number) (b : Bridge) : Bridge :=
  {| selectedChainId := v; settingChain := settingChain b;
     eventListenersRef := eventListenersRef b; prevChainIdRef := prevChainIdRef b;
     providerStateRef := providerStateRef b; stableProviderRef := stableProviderRef b;
     localStorage := localStorage b; effect_deps := effect_deps b;
     allocated := allocated b; trace := trace b |}.

Definition set_settingChain (v : bool) (b : Bridge) : Bridge :=
  {| selectedChainId := selectedChainId b; settingChain := v;
     eventListenersRef := eventListenersRef b; prevChainIdRef := prevChainIdRef b;
     providerStateRef := providerStateRef b; stableProviderRef := stableProviderRef b;
     localStorage := localStorage b; effect_deps := effect_deps b;
     allocated := allocated b; trace := trace b |}.

Definition set_eventListenersRef (v : gmap string (list Listener)) (b : Bridge) : Bridge :=
  {| selectedChainId := selectedChainId b; settingChain := settingChain b;
     eventListenersRef := v; prevChainIdRef := prevChainIdRef b;
     providerStateRef := providerStateRef b; stableProviderRef := stableProviderRef b;
     localStorage := localStorage b; effect_deps := effect_deps b;
     allocated := allocated b; trace := trace b |}.

Definition set_prevChainIdRef (v : number) (b : Bridge) : Bridge :=
  {| selectedChainId := selectedChainId b; settingChain := settingChain b;
     eventListenersRef := eventListenersRef b; prevChainIdRef := v;
     providerStateRef := providerStateRef b; stableProviderRef := stableProviderRef b;
     localStorage := localStorage b; effect_deps := effect_deps b;
     allocated := allocated b; trace := trace b |}.

Definition set_providerStateRef (v : option ProviderState) (b : Bridge) : Bridge :=
  {| selectedChainId := selectedChainId b; settingChain := settingChain b;
     eventListenersRef := eventListenersRef b; prevChainIdRef := prevChainIdRef b;
     providerStateRef := v; stableProviderRef := stableProviderRef b;
     localStorage := localStorage b; effect_deps := effect_deps b;
     allocated := allocated b; trace := trace b |}.

Definition set_stableProviderRef (v : option Provider) (b : Bridge) : Bridge :=
  {| selectedChainId := selectedChainId b; settingChain := settingChain b;
     eventListenersRef := eventListenersRef b; prevChainIdRef := prevChainIdRef b;
     providerStateRef := providerStateRef b; stableProviderRef := v;
     localStorage := localStorage b; effect_deps := effect_deps b;
     allocated := allocated b; trace := trace b |}.

Definition set_localStorage (v : Storage) (b : Bridge) : Bridge :=
  {| selectedChainId := selectedChainId b; settingChain := settingChain b;
     eventListenersRef := eventListenersRef b; prevChainIdRef := prevChainIdRef b;
     providerStateRef := providerStateRef b; stableProviderRef := stableProviderRef b;
     localStorage := v; effect_deps := effect_deps b;
     allocated := allocated b; trace := trace b |}.

Definition set_effect_deps (v : option number) (b : Bridge) : Bridge :=
  {| selectedChainId := selectedChainId b; settingChain := settingChain b;
     eventListenersRef := eventListenersRef b; prevChainIdRef := prevChainIdRef b;
     providerStateRef := providerStateRef b; stableProviderRef := stableProviderRef b;
     localStorage := localStorage b; effect_deps := v;
     allocated := allocated b; trace := trace b |}.

Definition set_allocated (v : nat) (b : Bridge) : Bridge :=
  {| selectedChainId := selectedChainId b; settingChain := settingChain b;
     eventListenersRef := eventListenersRef b; prevChainIdRef := prevChainIdRef b;
     providerStateRef := providerStateRef b; stableProviderRef := stableProviderRef b;
     localStorage := localStorage b; effect_deps := effect_deps b;
     allocated := v; trace := trace b |}.

Definition set_trace (v : list Effect) (b : Bridge) : Bridge :=
  {| selectedChainId := selectedChainId b; settingChain := settingChain b;
     eventListenersRef := eventListenersRef b; prevChainIdRef := prevChainIdRef b;
     providerStateRef := providerStateRef b; stableProviderRef := stableProviderRef b;
     localStorage := localStorage b; effect_deps := effect_deps b;
     allocated := allocated b; trace := v |}.

(** ** The component [ParaWalletBridge] *)

(** The body of the component for one value of its [networkId] prop: the
    memos of a render with that prop and the closures that render creates.
    The prop may differ from one render to the next; the events below give
    it per render. *)
Section ParaWalletBridge.

Variable ext : Externals.
Variable networkId : NetworkId.

Definition networkId_name : string :=
  match networkId with
  | mainnet => "mainnet"
  | testnet => "testnet"
  end.

(** [chainsConfig?.split(',').map(id => parseInt(id.trim(), 10)) || []] *)
Definition availableChainIds : list number :=
  let chainsConfig :=
    match networkId with
    | mainnet => getRuntimeConfig ext "VITE_ORDERLY_MAINNET_CHAINS"
    | testnet => getRuntimeConfig ext "VITE_ORDERLY_TESTNET_CHAINS"
    end in
  match chainsConfig with
  | Some c => List.map (fun id => parseInt (trim id) 10) (split c ",")
  | None => []
  end.

Definition defaultChainId : number :=
  let configured :=
    match getRuntimeConfig ext "VITE_DEFAULT_CHAIN" with
    | Some s => if truthy_string s then s else "1329"
    | None => "1329"
    end in
  let configDefault := parseInt configured 10 in
  if includes availableChainIds configDefault then configDefault
  else match availableChainIds with
       | first :: _ => if truthy first then first else configDefault
       | [] => configDefault
       end.

(** [`para_selected_chain_${networkId}`] *)
Definition storage_key : string := "para_selected_chain_" +:+ networkId_name.

Definition getInitialChainId (ls : Storage) : number :=
  match getItem ls storage_key with
  | Ok (Some stored) =>
      if truthy_string stored then
        let chainId := parseInt stored 10 in
        if includes availableChainIds chainId then chainId
        else defaultChainId
      else defaultChainId
  | Ok None => defaultChainId
  | Throw _ => (* caught and logged *) defaultChainId
  end.

(** The cells of a bridge that has just been mounted, before its first
    render has finished. *)
Definition mount (ls : Storage) : Bridge :=
  {| selectedChainId := getInitialChainId ls;
     settingChain := false;
     eventListenersRef := ∅;
     prevChainIdRef := defaultChainId;
     providerStateRef := None;
     stableProviderRef := None;
     localStorage := ls;
     effect_deps := None;
     allocated := 0%nat;
     trace := [] |}.

Definition setAndPersistChainId (chainId : number) (b : Bridge) : Bridge :=
  let b1 := set_selectedChainId chainId b in
  match setItem (localStorage b1) storage_key (toString10 chainId) with
  | Ok ls => set_localStorage ls b1
  | Throw _ => (* caught and logged *) b1
  end.

(** [listeners.forEach(listener => { try { listener(...args) } catch {..} })]:
    a listener that throws does not stop the iteration. *)
Fixpoint forEach_listener (listeners : list Listener) (args : list value)
    (tr : list Effect) : list Effect :=
  match listeners with
  | [] => tr
  | listener :: rest =>
      let tr1 := tr ++ [ListenerCalled listener args] in
      match call_listener ext listener args with
      | Ok _ => forEach_listener rest args tr1
      | Throw _ => (* caught and logged *) forEach_listener rest args tr1
      end
  end.

(** Body of the effect "Emit chainChanged event when chain changes". *)
Definition chainChanged_effect (b : Bridge) : Bridge :=
  if strict_neq (selectedChainId b) (prevChainIdRef b) then
    let hexChainId := "0x" +:+ toString16 (selectedChainId b) in
    let b1 :=
      match eventListenersRef b !! "chainChanged" with
      | Some listeners =>
          if (0 <? length listeners)%nat
          then set_trace (forEach_listener listeners [VString hexChainId] (trace b)) b
          else b
      | None => b
      end in
    set_prevChainIdRef (selectedChainId b) b1
  else b.

(** [useEffect(chainChanged_effect, [selectedChainId])]: run after the
    first render and after every render in which the dependency differs
    ([Object.is]) from the one of the last run. *)
Definition useEffect_chainChanged (b : Bridge) : Bridge :=
  let run := set_effect_deps (Some (selectedChainId b)) (chainChanged_effect b) in
  match effect_deps b with
  | Some previous => if sameValueZero previous (selectedChainId b) then b else run
  | None => run
  end.

Definition mainnetRpcUrls (chainId : number) : option string :=
  match chainId with
  | Num 1 => Some "https://ethereum-rpc.publicnode.com"
  | Num 1329 => Some "https://evm-rpc.sei-apis.com"
  | Num 80094 => Some "https://berachain.drpc.org"
  | Num 8453 => Some "https://mainnet.base.org"
  | Num 56 => Some "https://bsc-dataseed1.binance.org"
  | _ => None
  end.

Definition testnetRpcUrls (chainId : number) : option string :=
  match chainId with
  | Num 421614 => Some "https://sepolia-rollup.arbitrum.io/rpc"
  | Num 97 => Some "https://data-seed-prebsc-1-s1.binance.org:8545"
  | Num 10143 => Some "https://sepolia.base.org"
  | Num 11124 => Some "https://rpc.test.abs.xyz"
  | Num 901901901 => Some "https://rpc.test.abs.xyz"
  | _ => None
  end.

Definition getRpcUrl (chainId : number) : string :=
  let rpcUrls := match networkId with
                 | mainnet => mainnetRpcUrls
                 | testnet => testnetRpcUrls
                 end in
  match rpcUrls chainId with
  | Some url => url
  | None => match mainnetRpcUrls chainId with
            | Some url => url
            | None => "https://ethereum-rpc.publicnode.com"
            end
  end.

(** *** Wallet state derivation (the [walletState] memo) *)

(** The four variables the derivation assigns: [address], [namespace],
    [walletName], [chainId]. *)
Record Resolution : Type := {
  res_address : option string;
  res_namespace : ChainNamespace;
  res_walletName : string;
  res_chainId : ChainRef;
}.

Definition unresolved : Resolution :=
  {| res_address := None; res_namespace := evm;
     res_walletName := "Para Wallet"; res_chainId := ChainNumber (Num 1) |}.

(** [account.external?.evm?.address] *)
Definition account_evm (a : Account) : option ExternalEvm :=
  match external a with
  | Some ex => external_evm ex
  | None => None
  end.

Definition account_solana (a : Account) : option ExternalSolana :=
  match external a with
  | Some ex => external_solana ex
  | None => None
  end.

Definition hasEvm (a : Account) : option string :=
  match account_evm a with
  | Some ev => evm_address ev
  | None => None
  end.

(** [account.external?.solana?.publicKey] *)
Definition hasSolana (a : Account) : option PublicKey :=
  match account_solana a with
  | Some so => publicKey so
  | None => None
  end.

(** [account.embedded?.isConnected && !account.embedded?.isGuestMode] *)
Definition hasEmbedded (a : Account) : bool :=
  match embedded a with
  | Some e => default false (isConnected e) && negb (default false (isGuestMode e))
  | None => false
  end.

(** [w.chainType === 'EVM' || w.type === 'EVM'] *)
Definition is_evm_wallet (w : ParaWallet) : bool :=
  bool_decide (chainType w = Some EVM) || bool_decide (type w = Some EVM).

(** [embedded.wallets?.length], as a condition *)
Definition has_wallets (e : ParaEmbedded) : bool :=
  match wallets e with
  | Some (_ :: _) => true
  | _ => false
  end.

(** Approach 1: the first EVM entry of [embedded.wallets]. *)
Definition approach1 (e : ParaEmbedded) (selected : number) (r : Resolution) : Resolution :=
  if has_wallets e then
    match List.find is_evm_wallet (default [] (wallets e)) with
    | Some evmWallet =>
        match wallet_address evmWallet with
        | Some a =>
            if truthy_string a then
              {| res_address := Some a; res_namespace := evm;
                 res_walletName := "Para Embedded";
                 res_chainId := ChainNumber selected |}
            else r
        | None => r
        end
    | None => r
    end
  else r.

(** Approach 2: [walletQuery.data]. *)
Definition approach2 (data : option ParaWallet) (selected : number) (r : Resolution) : Resolution :=
  if negb (truthy_opt (res_address r)) then
    match data with
    | Some wallet =>
        match wallet_address wallet with
        | Some a =>
            if truthy_string a then
              {| res_address := Some a;
                 res_namespace :=
                   if bool_decide (chainType wallet = Some SOLANA) then solana else evm;
                 res_walletName := "Para Embedded";
                 res_chainId := ChainNumber selected |}
            else r
        | None => r
        end
    | None => r
    end
  else r.

(** Approach 3: [embedded.address]. *)
Definition approach3 (e : ParaEmbedded) (selected : number) (r : Resolution) : Resolution :=
  if negb (truthy_opt (res_address r)) then
    match embedded_address e with
    | Some a =>
        if truthy_string a then
          {| res_address := Some a; res_namespace := evm;
             res_walletName := "Para Embedded";
             res_chainId := ChainNumber selected |}
        else r
    | None => r
    end
  else r.

(** [x || fallback] on an optional string *)
Definition or_string (x : option string) (fallback : string) : string :=
  match x with
  | Some s => if truthy_string s then s else fallback
  | None => fallback
  end.

(** The [if / else if / else if] chain that fills in the four variables. *)
Definition resolve (i : Inputs) (selected : number) : Resolution :=
  let a := account i in
  if truthy_opt (hasEvm a) then
    {| res_address := hasEvm a;
       res_namespace := evm;
       res_walletName :=
         or_string (match account_evm a with
                    | Some ev => match connector_name ev with
                                 | Some name => name
                                 | None => None
                                 end
                    | None => None
                    end) "Para EVM";
       res_chainId :=
         ChainNumber (match account_evm a with
                      | Some ev => match evm_chainId ev with
                                   | Some n => if truthy n then n else Num 1
                                   | None => Num 1
                                   end
                      | None => Num 1
                      end) |}
  else
    match hasSolana a with
    | Some pk =>
        {| res_address := Some (toString pk);
           res_namespace := solana;
           res_walletName :=
             or_string (match account_solana a with
                        | Some so => solana_name so
                        | None => None
                        end) "Para Solana";
           res_chainId := ChainName "solana-mainnet" |}
    | None =>
        if hasEmbedded a then
          match embedded a with
          | Some e =>
              approach3 e selected
                (approach2 (walletQuery_data i) selected
                   (approach1 e selected unresolved))
          | None => unresolved
          end
        else unresolved
    end.

(** The values written to [providerStateRef]: the RPC client and the
    signer are built for the chain id that was just resolved. *)
Definition snapshot (i : Inputs) (r : Resolution) : ProviderState :=
  let actualChainId :=
    match res_chainId r with
    | ChainNumber n => n
    | ChainName _ => defaultChainId
    end in
  let rpcUrl := getRpcUrl actualChainId in
  let ethersProvider :=
    {| provider_url := rpcUrl; provider_network := actualChainId |} in
  let signer :=
    match paraClient i with
    | Some client =>
        if account_isConnected (account i)
           && match embedded (account i) with
              | Some e => has_wallets e
              | None => false
              end
        then Some {| signer_client := client; signer_provider := ethersProvider |}
        else None
    | None => None
    end in
  {| chainId := actualChainId; rpcUrl := rpcUrl;
     signer := signer; ethersProvider := ethersProvider |}.

(** The memo body: returns the wallet state (or [null]) and leaves the
    refs as the render wrote them. *)
Definition walletState (i : Inputs) (b : Bridge) : option WalletState * Bridge :=
  let a := account i in
  if negb (truthy_opt (hasEvm a)) && negb (bool_decide (is_Some (hasSolana a)))
     && negb (hasEmbedded a) && negb (bool_decide (is_Some (walletQuery_data i)))
  then (None, b)
  else
    let r := resolve i (selectedChainId b) in
    match res_address r with
    | None => (None, b)
    | Some address =>
        if negb (truthy_string address) then (None, b)
        else
          let b1 := set_providerStateRef (Some (snapshot i r)) b in
          let '(provider, b2) :=
            match stableProviderRef b1 with
            | None =>
                let created := {| handle := allocated b1; closure_address := address |} in
                (created,
                 set_allocated (S (allocated b1))
                   (set_stableProviderRef (Some created) b1))
            | Some existing => (existing, b1)
            end in
          (Some {| label := res_walletName r; icon := ""; provider := provider;
                   accounts := [address];
                   chains := [(res_chainId r, res_namespace r)] |}, b2)
    end.

(** *** The EIP-1193 provider shim *)

(** The block shared by both signing cases: "Normalize V value". *)
Definition normalize_v (signature : string) : string :=
  let v := parseInt (slice signature (-2) None) 16 in
  if lt v (Num 27) then
    let normalizedV := padStart 2 "0" (toString16 (add v (Num 27))) in
    slice signature 0 (Some (-2)) +:+ normalizedV
  else signature.

(** Index-th own keys, as the spread of a string or an array yields them. *)
Fixpoint indexed {A : Type} (i : nat) (l : list A) : list (string * A) :=
  match l with
  | [] => []
  | x :: r => (toString10 (Num (Z.of_nat i)), x) :: indexed (S i) r
  end.

(** [{ ...types }] *)
Definition spread (v : value) : list (string * value) :=
  match v with
  | VObject fields => fields
  | VArray l => indexed 0 l
  | VString s =>
      indexed 0 (List.map (fun c => VString (String c EmptyString))
                          (list_ascii_of_string s))
  | _ => []
  end.

(** [delete o[k]] *)
Definition delete_field (k : string) (fields : list (string * value))
    : list (string * value) :=
  List.filter (fun kv => negb (String.eqb (fst kv) k)) fields.

Definition is_method (m : string) (names : list string) : bool :=
  existsb (String.eqb m) names.

(** [typeof typedData === 'string' ? JSON.parse(typedData) : typedData] *)
Definition parse_typedData (typedData : value) : outcome value :=
  match typedData with
  | VString s => JSON_parse ext s
  | v => Ok v
  end.

(** [provider.request({ method, params })] on the provider object [p]. *)
Definition request (p : Provider) (method : string)
    (params : option (list value)) (b : Bridge) : outcome value :=
  match providerStateRef b with
  | None => Throw "Provider state not initialized"
  | Some currentState =>
      match signer currentState with
      | None => Throw "Para signer not available. Please connect your wallet."
      | Some currentSigner =>
          if is_method method ["personal_sign"; "eth_sign"] then
            let message := param params 0 in
            match getBytes ext message with
            | Throw e => Throw e
            | Ok bytes =>
                match signMessage ext currentSigner bytes with
                | Throw e => Throw e
                | Ok signature => Ok (VString (normalize_v signature))
                end
            end
          else if is_method method ["eth_signTypedData"; "eth_signTypedData_v4"] then
            let typedData := param params 1 in
            match parse_typedData typedData with
            | Throw e => Throw e
            | Ok VUndefined | Ok VNull =>
                Throw "TypeError: Cannot destructure property 'domain'"
            | Ok parsedData =>
                let domain := get_field "domain" parsedData in
                let types := get_field "types" parsedData in
                let typedMessage := get_field "message" parsedData in
                let filteredTypes := delete_field "EIP712Domain" (spread types) in
                match signTypedData ext currentSigner domain filteredTypes typedMessage with
                | Throw e => Throw e
                | Ok signature => Ok (VString (normalize_v signature))
                end
            end
          else if is_method method ["eth_sendTransaction"] then
            let transaction := param params 0 in
            match sendTransaction ext currentSigner transaction with
            | Throw e => Throw e
            | Ok tx =>
                match wait tx with
                | Throw e => Throw e
                | Ok (Some receipt) => Ok (VString (hash receipt))
                | Ok None => Ok VUndefined
                end
            end
          else if is_method method ["eth_accounts"; "eth_requestAccounts"] then
            Ok (VArray [VString (closure_address p)])
          else if is_method method ["eth_chainId"] then
            Ok (VString ("0x" +:+ toString16 (chainId currentState)))
          else
            (* the diagnostic [fetch] made for eth_call only logs *)
            match send ext (ethersProvider currentState) method (default [] params) with
            | Throw e => Throw e
            | Ok result => Ok result
            end
      end
  end.

(** [Set.prototype.add] and [Set.prototype.delete], insertion-ordered. *)
Definition set_add (x : Listener) (s : list Listener) : list Listener :=
  if bool_decide (x ∈ s) then s else s ++ [x].

Definition set_delete (x : Listener) (s : list Listener) : list Listener :=
  List.filter (fun y => negb (bool_decide (y = x))) s.

(** [provider.on(eventName, listener)] *)
Definition on (eventName : string) (listener : Listener) (b : Bridge) : Bridge :=
  let m := eventListenersRef b in
  let m1 := match m !! eventName with
            | Some _ => m
            | None => <[eventName := []]> m
            end in
  set_eventListenersRef (alter (set_add listener) eventName m1) b.

(** [provider.removeListener(eventName, listener)] *)
Definition removeListener (eventName : string) (listener : Listener) (b : Bridge) : Bridge :=
  match eventListenersRef b !! eventName with
  | Some _ =>
      set_eventListenersRef (alter (set_delete listener) eventName (eventListenersRef b)) b
  | None => b
  end.

(** *** The operations of the connector context *)

Definition disconnect (client : option ParaClient) (b : Bridge)
    : outcome (list value) * Bridge :=
  let '(logged_out, b1) :=
    match client with
    | Some c =>
        match logout c with
        | Some settled => (settled, set_trace (trace b ++ [LogoutCalled (client_id c)]) b)
        | None => (Ok tt, b)
        end
    | None => (Ok tt, b)
    end in
  match logged_out with
  | Throw e => (* logged and rethrown *) (Throw e, b1)
  | Ok _ => (Ok [], set_providerStateRef None (set_stableProviderRef None b1))
  end.

(** The argument [options.chainId : string | number]. *)
Inductive ChainIdOption : Type :=
| ChainIdString (s : string)
| ChainIdNumber (n : number).

Definition setChain (chainId : ChainIdOption) (b : Bridge) : outcome value * Bridge :=
  let b0 := set_settingChain true b in
  let requestedChainId :=
    match chainId with
    | ChainIdString s => parseInt s 16
    | ChainIdNumber n => n
    end in
  if negb (includes availableChainIds requestedChainId) then
    (Throw ("Chain " +:+ toString10 requestedChainId +:+ " is not available for "
            +:+ networkId_name +:+ " network. Available chains: "
            +:+ join ", " (List.map toString10 availableChainIds)),
     set_settingChain false b0)
  else
    (* the warning for externally connected wallets changes nothing *)
    (Ok (VObject [("success", VBool true)]),
     set_settingChain false (setAndPersistChainId requestedChainId b0)).

(** *** A render *)

(** A render with the prop [networkId] and the hook values [i]: the memo
    is recomputed, then the effects run.  (The memo is taken to recompute
    at every render, which covers every recomputation React performs.) *)
Definition render (i : Inputs) (b : Bridge) : Bridge :=
  useEffect_chainChanged (snd (walletState i b)).

(** The listeners currently registered for an event. *)
Definition registered (eventName : string) (b : Bridge) : list Listener :=
  default [] (eventListenersRef b !! eventName).

End ParaWalletBridge.

(** ** The life of a mounted bridge *)

(** What can happen to a mounted bridge, one thing at a time.

    - [Render]: React renders the component, with the [networkId] prop the
      parent passes at that render (the parent reads it from local storage
      every time it renders, and the bridge stays mounted when it changes)
      and the values of the SDK hooks.
    - [SetChain]: a caller invokes the [setChain] closure that a render
      with that [networkId] put into the context.  The state update it
      queues is seen by the next render, whenever React performs it: two
      calls may well come before one render.
    - [On], [RemoveListener]: calls on the provider shim.
    - [Disconnect]: a call of [disconnect].

    None but [Render] runs the memo or an effect. *)
Inductive Event : Type :=
| Render (networkId : NetworkId) (i : Inputs)
| SetChain (networkId : NetworkId) (chainId : ChainIdOption)
| On (eventName : string) (listener : Listener)
| RemoveListener (eventName : string) (listener : Listener)
| Disconnect (client : option ParaClient).

Definition step (ext : Externals) (e : Event) (b : Bridge) : Bridge :=
  match e with
  | Render networkId i => render ext networkId i b
  | SetChain networkId chainId => snd (setChain ext networkId chainId b)
  | On eventName listener => on eventName listener b
  | RemoveListener eventName listener => removeListener eventName listener b
  | Disconnect client => snd (disconnect client b)
  end.

Definition run (ext : Externals) (events : list Event) (b : Bridge) : Bridge :=
  fold_left (fun acc e => step ext e acc) events b.

(** Bridge states that occur: the mount with its first render, then
    events. *)
Definition started (ext : Externals) (networkId : NetworkId) (ls : Storage)
    (i : Inputs) (events : list Event) : Bridge :=
  run ext events (render ext networkId i (mount ext networkId ls)).

(** ** Concrete configurations and inputs used in examples *)

(** The scenario of the specification: mainnet offers chains 1 and 8453,
    the default chain is 1. *)
Definition scenario_config (key : string) : option string :=
  if String.eqb key "VITE_ORDERLY_MAINNET_CHAINS" then Some "1,8453"
  else if String.eqb key "VITE_DEFAULT_CHAIN" then Some "1"
  else None.

(** The same scenario with a trailing comma in the chain list. *)
Definition trailing_comma_config (key : string) : option string :=
  if String.eqb key "VITE_ORDERLY_MAINNET_CHAINS" then Some "1,8453,"
  else if String.eqb key "VITE_DEFAULT_CHAIN" then Some "1"
  else None.

(** Collaborators that always succeed; the signer answers with a
    low-form recovery byte. *)
Definition externals_with (config : string -> option string) : Externals :=
  {| getRuntimeConfig := config;
     getBytes := fun _ => Ok [];
     JSON_parse := fun _ => Throw "SyntaxError";
     signMessage := fun _ _ => Ok "0x5e1f00";
     signTypedData := fun _ _ _ _ => Ok "0x7a2c01";
     sendTransaction := fun _ _ => Ok {| wait := Ok (Some {| hash := "0xfeed" |}) |};
     send := fun _ m _ => Ok (VString m);
     call_listener := fun _ _ => Ok tt |}.

Definition scenario : Externals := externals_with scenario_config.

Definition trailing_comma : Externals := externals_with trailing_comma_config.

Definition empty_storage : Storage :=
  {| items := ∅; read_fails := false; write_fails := false |}.

(** Storage that can be read but refuses every write. *)
Definition full_storage : Storage :=
  {| items := ∅; read_fails := false; write_fails := true |}.

(** Storage whose entry for mainnet is not a number. *)
Definition garbage_storage : Storage :=
  {| items := {[ "para_selected_chain_mainnet" := "abc" ]};
     read_fails := false; write_fails := false |}.

Definition client0 : ParaClient := {| client_id := 0; logout := Some (Ok tt) |}.

(** A connected embedded account holding one EVM wallet with [address]. *)
Definition embedded_inputs (address : string) : Inputs :=
  {| account :=
       {| external := None;
          embedded :=
            Some {| isConnected := Some true; isGuestMode := Some false;
                    wallets := Some [ {| chainType := Some EVM; type := None;
                                         wallet_address := Some address |} ];
                    embedded_address := None |};
          account_isConnected := true |};
     walletQuery_data := None;
     paraClient := Some client0 |}.

(** An externally connected EVM wallet on chain 5, with no embedded wallet. *)
Definition external_evm_inputs (address : string) : Inputs :=
  {| account :=
       {| external :=
            Some {| external_evm :=
                      Some {| evm_address := Some address;
                              connector_name := Some (Some "MetaMask");
                              evm_chainId := Some (Num 5) |};
                    external_solana := None |};
          embedded := None;
          account_isConnected := true |};
     walletQuery_data := None;
     paraClient := Some client0 |}.

(** An external EVM wallet next to a connected embedded account. *)
Definition both_inputs (external_address embedded_wallet : string) : Inputs :=
  {| account :=
       {| external := external (account (external_evm_inputs external_address));
          embedded := embedded (account (embedded_inputs embedded_wallet));
          account_isConnected := true |};
     walletQuery_data :=
       Some {| chainType := Some SOLANA; type := None;
               wallet_address := Some "So1anaQueryWa11et" |};
     paraClient := Some client0 |}.

(** An embedded account that is connected in guest mode and holds one EVM
    wallet with [address]. *)
Definition guest_inputs (address : string) : Inputs :=
  {| account :=
       {| external := None;
          embedded :=
            Some {| isConnected := Some true; isGuestMode := Some true;
                    wallets := Some [ {| chainType := Some EVM; type := None;
                                         wallet_address := Some address |} ];
                    embedded_address := None |};
          account_isConnected := true |};
     walletQuery_data := None;
     paraClient := Some client0 |}.

(** An embedded account object that is not connected, still carrying
    an EVM wallet with [address]. *)
Definition signed_out_inputs (address : string) : Inputs :=
  {| account :=
       {| external := None;
          embedded :=
            Some {| isConnected := Some false; isGuestMode := Some false;
                    wallets := Some [ {| chainType := Some EVM; type := None;
                                         wallet_address := Some address |} ];
                    embedded_address := None |};
          account_isConnected := false |};
     walletQuery_data := None;
     paraClient := Some client0 |}.

(** Chains configured for both networks. *)
Definition two_network_config (key : string) : option string :=
  if String.eqb key "VITE_ORDERLY_MAINNET_CHAINS" then Some "1,8453"
  else if String.eqb key "VITE_ORDERLY_TESTNET_CHAINS" then Some "421614"
  else if String.eqb key "VITE_DEFAULT_CHAIN" then Some "1"
  else None.

Definition two_networks : Externals := externals_with two_network_config.

Definition no_wallet_inputs : Inputs :=
  {| account := {| external := None; embedded := None; account_isConnected := false |};
     walletQuery_data := None;
     paraClient := None |}.

(** ** Vocabulary of the properties *)

(** The signer, called the way the shim calls it for this request,
    answered with the raw signature [raw]. *)
Inductive signer_returns (ext : Externals) (sg : ParaEthersSigner)
    (method : string) (params : option (list value)) (raw : string) : Prop :=
| returns_message (bytes : list Byte.byte) :
    is_method method ["personal_sign"; "eth_sign"] = true ->
    getBytes ext (param params 0) = Ok bytes ->
    signMessage ext sg bytes = Ok raw ->
    signer_returns ext sg method params raw
| returns_typed (parsedData : value) :
    is_method method ["eth_signTypedData"; "eth_signTypedData_v4"] = true ->
    parse_typedData ext (param params 1) = Ok parsedData ->
    parsedData <> VUndefined ->
    parsedData <> VNull ->
    signTypedData ext sg (get_field "domain" parsedData)
      (delete_field "EIP712Domain" (spread (get_field "types" parsedData)))
      (get_field "message" parsedData) = Ok raw ->
    signer_returns ext sg method params raw.

(** The SDK's session-termination call is absent, or present and fulfilled. *)
Definition logout_succeeds (client : option ParaClient) : Prop :=
  match client with
  | Some c => logout c = None \/ logout c = Some (Ok tt)
  | None => True
  end.

(** The effect entry a disconnect leaves: one logout call when the client
    has the function. *)
Definition logout_call (client : option ParaClient) : list Effect :=
  match client with
  | Some c => match logout c with
              | Some _ => [LogoutCalled (client_id c)]
              | None => []
              end
  | None => []
  end.

(** The chain id a [setChain] argument stands for. *)
Definition requested_chain (chainId : ChainIdOption) : number :=
  match chainId with
  | ChainIdString s => parseInt s 16
  | ChainIdNumber n => n
  end.

(** One [chainChanged] delivery per listener, in registration order. *)
Definition chainChanged_deliveries (listeners : list Listener) (id : number)
    : list Effect :=
  List.map (fun l => ListenerCalled l [VString ("0x" +:+ toString16 id)]) listeners.

(** *** The derivation order, in the words of the specification

    These definitions follow the specification's text, not the code; the
    derivation theorem compares them with [walletState]. *)

Definition spec_present (o : option string) : option string :=
  match o with
  | Some s => if truthy_string s then Some s else None
  | None => None
  end.

Fixpoint spec_first_match {A : Type} (candidates : list (option A)) : option A :=
  match candidates with
  | [] => None
  | Some x :: _ => Some x
  | None :: rest => spec_first_match rest
  end.

(** (1) an externally connected EVM account *)
Definition spec_external_evm (a : Account) : option (string * ChainNamespace) :=
  match external a with
  | Some ex =>
      match external_evm ex with
      | Some ev => match spec_present (evm_address ev) with
                   | Some addr => Some (addr, evm)
                   | None => None
                   end
      | None => None
      end
  | None => None
  end.

(** (2) an externally connected Solana account *)
Definition spec_external_solana (a : Account) : option (string * ChainNamespace) :=
  match external a with
  | Some ex =>
      match external_solana ex with
      | Some so => match publicKey so with
                   | Some pk => Some (toString pk, solana)
                   | None => None
                   end
      | None => None
      end
  | None => None
  end.

(** (3a) the wallets-array lookup *)
Definition spec_wallets_lookup (e : ParaEmbedded) : option (string * ChainNamespace) :=
  match List.find (fun w => bool_decide (chainType w = Some EVM \/ type w = Some EVM))
                  (default [] (wallets e)) with
  | Some w => match spec_present (wallet_address w) with
              | Some addr => Some (addr, evm)
              | None => None
              end
  | None => None
  end.

(** (3b) the separate wallet-query result *)
Definition spec_wallet_query (data : option ParaWallet) : option (string * ChainNamespace) :=
  match data with
  | Some w => match spec_present (wallet_address w) with
              | Some addr =>
                  Some (addr, match chainType w with Some SOLANA => solana | _ => evm end)
              | None => None
              end
  | None => None
  end.

(** (3c) a direct address field on the embedded account object *)
Definition spec_direct_address (e : ParaEmbedded) : option (string * ChainNamespace) :=
  match spec_present (embedded_address e) with
  | Some addr => Some (addr, evm)
  | None => None
  end.

(** (3) an embedded account, itself resolved by trying (3a), (3b), (3c)
    in order *)
Definition spec_embedded (i : Inputs) : option (string * ChainNamespace) :=
  match embedded (account i) with
  | Some e =>
      spec_first_match
        [spec_wallets_lookup e; spec_wallet_query (walletQuery_data i);
         spec_direct_address e]
  | None => None
  end.

(** First match wins; a match whose address is empty resolves no wallet. *)
Definition spec_derivation (i : Inputs) : option (string * ChainNamespace) :=
  match spec_first_match
          [spec_external_evm (account i); spec_external_solana (account i);
           spec_embedded i] with
  | Some (addr, ns) => if truthy_string addr then Some (addr, ns) else None
  | None => None
  end.

(** *** The derivation order as amended

    Candidate (3) as the amended claim has it: the embedded account counts
    only when it is connected and not in guest mode.  The rest is the
    specification's text as above. *)

Definition amended_embedded (i : Inputs) : option (string * ChainNamespace) :=
  match embedded (account i) with
  | Some e =>
      match isConnected e, isGuestMode e with
      | Some true, Some true => None
      | Some true, _ => spec_embedded i
      | _, _ => None
      end
  | None => None
  end.

Definition amended_derivation (i : Inputs) : option (string * ChainNamespace) :=
  match spec_first_match
          [spec_external_evm (account i); spec_external_solana (account i);
           amended_embedded i] with
  | Some (addr, ns) => if truthy_string addr then Some (addr, ns) else None
  | None => None
  end.

(** The address and namespace a wallet state reports. *)
Definition reported (w : WalletState) : list string * list ChainNamespace :=
  (accounts w, List.map snd (chains w)).

(** What a resolution amounts to: its address, if not empty, and namespace. *)
Definition resolved (r : Resolution) : option (string * ChainNamespace) :=
  match res_address r with
  | Some a => if truthy_string a then Some (a, res_namespace r) else None
  | None => None
  end.

(** A bridge right after a commit: the chain-changed effect has run for
    the present selection. *)
Definition settled (b : Bridge) : Prop :=
  effect_deps b = Some (selectedChainId b) /\ prevChainIdRef b = selectedChainId b.

(** The chain-changed effect has run, and [prevChainIdRef] holds the
    selection of the render it ran in last. *)
Definition announced (b : Bridge) : Prop :=
  effect_deps b = Some (prevChainIdRef b).

Definition is_render (e : Event) : bool :=
  match e with
  | Render _ _ => true
  | _ => false
  end.

(** The events end with a render (or there are none, and the last render
    is the first one of the mount). *)
Definition after_render (events : list Event) : bool :=
  match last events with
  | Some e => is_render e
  | None => true
  end.

(** The [networkId] an event was rendered with or closes over. *)
Definition event_network (e : Event) : option NetworkId :=
  match e with
  | Render networkId _ => Some networkId
  | SetChain networkId _ => Some networkId
  | _ => None
  end.

(** The [networkId] prop is [net] throughout. *)
Definition same_network (net : NetworkId) (events : list Event) : Prop :=
  forall e, In e events -> event_network e = None \/ event_network e = Some net.

(** Every provider object in use has been counted as allocated. *)
Definition handle_allocated (b : Bridge) : Prop :=
  forall p, stableProviderRef b = Some p -> (handle p < allocated b)%nat.

(** ** The rest of the connector context *)

(** The [connectedChain] memo. *)
Definition connectedChain (a : Account) (selected : number)
    : option (ChainRef * ChainNamespace) :=
  if truthy_opt (hasEvm a) then
    Some (ChainNumber (match account_evm a with
                       | Some ev => match evm_chainId ev with
                                    | Some n => if truthy n then n else Num 1
                                    | None => Num 1
                                    end
                       | None => Num 1
                       end), evm)
  else
    match hasSolana a with
    | Some _ => Some (ChainName "solana-mainnet", solana)
    | None =>
        match embedded a with
        | Some e =>
            if default false (isConnected e) && has_wallets e then
              match List.find is_evm_wallet (default [] (wallets e)) with
              | Some _ => Some (ChainNumber selected, evm)
              | None => None
              end
            else None
        | None => None
        end
    end.

(** The [namespace] memo. *)
Definition namespace (a : Account) : option ChainNamespace :=
  if truthy_opt (hasEvm a) then Some evm
  else
    match hasSolana a with
    | Some _ => Some solana
    | None =>
        match embedded a with
        | Some e =>
            if default false (isConnected e) && has_wallets e then
              match List.find is_evm_wallet (default [] (wallets e)) with
              | Some _ => Some evm
              | None => None
              end
            else None
        | None => None
        end
    end.

(** ** The chain registry ([app/utils/chains/chain.tsx]) *)

(** [s.endsWith(suffix)] *)
Definition endsWith (s suffix : string) : bool :=
  let n := String.length suffix in
  (n <=? String.length s)%nat
  && String.eqb (string_drop (String.length s - n) s) suffix.

Module ChainRegistry.

(** [chain.blockExplorers.default] *)
Record BlockExplorer : Type := { url : string }.

(** The part of a viem [Chain] the registry reads. *)
Record Chain : Type := {
  id : number;
  name : string;
  blockExplorers : option BlockExplorer;
}.

(** [class Network]; [chain] is [None] for an instance built without one. *)
Record Network : Type := {
  isActive : bool;
  iconUrl : string;
  displayName : option string;
  chain : option Chain;
}.

(** [get chainId()] *)
Definition chainId (n : Network) : outcome number :=
  match chain n with
  | Some c => Ok (id c)
  | None => Throw "TypeError: Cannot read properties of undefined (reading 'id')"
  end.

Definition getBaseExplorerUrl (n : Network) : option string :=
  match chain n with
  | Some c =>
      match blockExplorers c with
      | Some explorer =>
          Some (if endsWith (url explorer) "/"
                then slice (url explorer) 0 (Some (-1))
                else url explorer)
      | None => None
      end
  | None => None
  end.

Definition getAddressExplorerUrl (n : Network) (address : string) : string :=
  match getBaseExplorerUrl n with
  | Some baseUrl =>
      if truthy_string baseUrl then baseUrl +:+ "/address/" +:+ address else "#"
  | None => "#"
  end.

Definition getTransactionExplorerUrl (n : Network) (txHash : string) : string :=
  match getBaseExplorerUrl n with
  | Some baseUrl =>
      if truthy_string baseUrl then baseUrl +:+ "/tx/" +:+ txHash else "#"
  | None => "#"
  end.

(** [this.displayName || this.chain?.name || `Chain ${this.chainId}`] *)
Definition getName (n : Network) : outcome string :=
  if truthy_opt (displayName n) then Ok (default "" (displayName n))
  else
    match chain n with
    | Some c =>
        if truthy_string (name c) then Ok (name c)
        else Ok ("Chain " +:+ toString10 (id c))
    | None => Throw "TypeError: Cannot read properties of undefined (reading 'id')"
    end.

(** [networks.reduce((acc, network) => { acc[network.chainId] = network;
    return acc }, {})]: the keys of the object are the chain ids as
    strings; a later network replaces an earlier one with the same id. *)
Definition register (acc : outcome (gmap string Network)) (network : Network)
    : outcome (gmap string Network) :=
  match acc with
  | Ok m =>
      match chainId network with
      | Ok i => Ok (<[toString10 i := network]> m)
      | Throw e => Throw e
      end
  | Throw e => Throw e
  end.

Definition networksMap (networks : list Network) : outcome (gmap string Network) :=
  fold_left register networks (Ok ∅).

(** The properties every plain object inherits from [Object.prototype]. *)
Definition object_prototype_keys : list string :=
  ["constructor"; "__defineGetter__"; "__defineSetter__"; "hasOwnProperty";
   "__lookupGetter__"; "__lookupSetter__"; "isPrototypeOf";
   "propertyIsEnumerable"; "toString"; "valueOf"; "__proto__"; "toLocaleString"].

(** What [networksMap[chainId]] evaluates to. *)
Inductive Entry : Type :=
| Own (n : Network)
| Inherited
| Absent.

(** The property key a chain id (number or string) is converted to. *)
Definition property_key (chainId : ChainRef) : string :=
  match chainId with
  | ChainNumber n => toString10 n
  | ChainName s => s
  end.

(** [getNetworkByChainId]: [networksMap[chainId]] *)
Definition getNetworkByChainId (m : gmap string Network) (chainId : ChainRef) : Entry :=
  match m !! property_key chainId with
  | Some n => Own n
  | None =>
      if existsb (String.eqb (property_key chainId)) object_prototype_keys
      then Inherited else Absent
  end.

(** [network?.getName() ?? `Chain ${chainId}`] *)
Definition getChainNameByChainId (m : gmap string Network) (chainId : ChainRef)
    : outcome string :=
  match getNetworkByChainId m chainId with
  | Own n => getName n
  | Inherited => Throw "TypeError: network?.getName is not a function"
  | Absent => Ok ("Chain " +:+ property_key chainId)
  end.

Definition getChainInfoByChainId (m : gmap string Network) (chainId : ChainRef)
    : outcome (option (ChainRef * string)) :=
  match getNetworkByChainId m chainId with
  | Own n =>
      match getName n with
      | Ok nm => Ok (Some (chainId, nm))
      | Throw e => Throw e
      end
  | Inherited => Throw "TypeError: network.getName is not a function"
  | Absent => Ok None
  end.

(** The network is the one of chain [n]. *)
Definition has_chain_id (n : number) (x : Network) : bool :=
  match chain x with
  | Some c => bool_decide (id c = n)
  | None => false
  end.

End ChainRegistry.

(** An entry of the [chains] memo of the connector. *)
Record ChainOption : Type := {
  option_id : ChainRef;
  option_name : string;
  option_namespace : ChainNamespace;
}.

(** The [chains] memo: one entry per available chain id, in order. *)
Fixpoint chains_of (m : gmap string ChainRegistry.Network) (ids : list number)
    : outcome (list ChainOption) :=
  match ids with
  | [] => Ok []
  | chainId :: rest =>
      match ChainRegistry.getChainNameByChainId m (ChainNumber chainId) with
      | Ok nm =>
          match chains_of m rest with
          | Ok l => Ok ({| option_id := ChainNumber chainId; option_name := nm;
                           option_namespace := evm |} :: l)
          | Throw e => Throw e
          end
      | Throw e => Throw e
      end
  end.

Definition availableChains (ext : Externals) (networkId : NetworkId)
    (m : gmap string ChainRegistry.Network) : outcome (list ChainOption) :=
  chains_of m (availableChainIds ext networkId).

(** ** The provider component ([app/components/orderlyProvider/index.tsx]) *)

Module OrderlyProvider.

(** What the component reads from modules outside the repository's
    sources: the runtime configuration, the SEO configuration and the
    browser's language. *)
Record Environment : Type := {
  getRuntimeConfigBoolean : string -> bool;
  getRuntimeConfigArray : string -> list string;
  seoConfig_language : option string;
  getUserLanguage : string;
  withBasePath : string -> string;
}.

(** [isNaN(n)] on a number *)
Definition isNaN (n : number) : bool :=
  match n with
  | NaN => true
  | Num _ => false
  end.

Definition parseChainIds (envVar : option string) : option (list number) :=
  match envVar with
  | Some s =>
      if truthy_string s then
        Some (List.filter (fun chain => negb (isNaN chain))
                (List.map (fun id => parseInt id 10)
                   (List.filter truthy_string
                      (List.map trim (split s ",")))))
      else None
  | None => None
  end.

Definition parseDefaultChain (envVar : option string) : option number :=
  match envVar with
  | Some s =>
      if truthy_string s then
        let chainId := parseInt (trim s) 10 in
        if negb (isNaN chainId) then Some chainId else None
      else None
  | None => None
  end.

(** [mainnetChains], [testnetChains] and the [chainFilter] built from them:
    [None] is [undefined]; a component [None] is a key left out. *)
Definition mainnetChains (env : Environment) (ext : Externals) : option (list number) :=
  if getRuntimeConfigBoolean env "VITE_DISABLE_MAINNET" then Some []
  else parseChainIds (getRuntimeConfig ext "VITE_ORDERLY_MAINNET_CHAINS").

Definition testnetChains (env : Environment) (ext : Externals) : option (list number) :=
  if getRuntimeConfigBoolean env "VITE_DISABLE_TESTNET" then Some []
  else parseChainIds (getRuntimeConfig ext "VITE_ORDERLY_TESTNET_CHAINS").

Definition chainFilter (env : Environment) (ext : Externals)
    : option (option (list number) * option (list number)) :=
  match mainnetChains env ext, testnetChains env ext with
  | None, None => None
  | m, t => Some (m, t)
  end.

Definition NETWORK_ID_KEY : string := "orderly_network_id".

(** [getNetworkId]; [window] is [None] outside a browser, and otherwise
    gives the local storage.  The result is whatever string is stored. *)
Definition getNetworkId (env : Environment) (window : option Storage) : outcome string :=
  match window with
  | None => Ok "mainnet"
  | Some ls =>
      let disableMainnet := getRuntimeConfigBoolean env "VITE_DISABLE_MAINNET" in
      let disableTestnet := getRuntimeConfigBoolean env "VITE_DISABLE_TESTNET" in
      if disableMainnet && negb disableTestnet then Ok "testnet"
      else if disableTestnet && negb disableMainnet then Ok "mainnet"
      else
        match getItem ls NETWORK_ID_KEY with
        | Ok stored => Ok (if truthy_opt stored then default "" stored else "mainnet")
        | Throw e => Throw e
        end
  end.

Definition setNetworkId (networkId : NetworkId) (window : option Storage)
    : outcome (option Storage) :=
  match window with
  | Some ls =>
      match setItem ls NETWORK_ID_KEY (networkId_name networkId) with
      | Ok ls' => Ok (Some ls')
      | Throw e => Throw e
      end
  | None => Ok None
  end.

(** [onChainChanged(_chainId, { isTestnet })], a browser callback: returns
    the storage it leaves and whether a page reload was scheduled. *)
Definition onChainChanged (env : Environment) (isTestnet : bool) (ls : Storage)
    : outcome (Storage * bool) :=
  match getNetworkId env (Some ls) with
  | Throw e => Throw e
  | Ok currentNetworkId =>
      if (isTestnet && String.eqb currentNetworkId "mainnet")
         || (negb isTestnet && String.eqb currentNetworkId "testnet")
      then
        let newNetworkId := if isTestnet then testnet else mainnet in
        match setNetworkId newNetworkId (Some ls) with
        | Ok (Some ls') => Ok (ls', true)
        | Ok None => Ok (ls, true)
        | Throw e => Throw e
        end
      else Ok (ls, false)
  end.

Definition getAvailableLanguages (env : Environment) : list string :=
  let languages := getRuntimeConfigArray env "VITE_AVAILABLE_LANGUAGES" in
  if (0 <? length languages)%nat then languages else ["en"].

(** [arr.includes(s)] on strings *)
Definition includes_string (arr : list string) (s : string) : bool :=
  existsb (String.eqb s) arr.

(** [getDefaultLanguage]; [langParam] is [urlParams.get("lang")], read only
    when [hasWindow]. *)
Definition getDefaultLanguage (env : Environment) (hasWindow : bool)
    (langParam : option string) : string :=
  let availableLanguages := getAvailableLanguages env in
  if hasWindow && truthy_opt langParam
     && includes_string availableLanguages (default "" langParam)
  then default "" langParam
  else if truthy_opt (seoConfig_language env)
          && includes_string availableLanguages (default "" (seoConfig_language env))
  then default "" (seoConfig_language env)
  else if includes_string availableLanguages (getUserLanguage env)
  then getUserLanguage env
  else match availableLanguages with
       | first :: _ => if truthy_string first then first else "en"
       | [] => "en"
       end.

(** The value of [loadPath]: an array of paths, or a single path. *)
Inductive LoadPath : Type :=
| Paths (l : list string)
| Path (s : string).

Definition loadPath (env : Environment) (lang : string) : LoadPath :=
  if negb (includes_string (getAvailableLanguages env) lang) then Paths []
  else if String.eqb lang "en"
  then Path (withBasePath env ("/locales/extend/" +:+ lang +:+ ".json"))
  else Paths [withBasePath env ("/locales/" +:+ lang +:+ ".json");
              withBasePath env ("/locales/extend/" +:+ lang +:+ ".json")].

(** *** The automatic click after a provider was chosen *)

(** [s.toLowerCase()], code unit by code unit: the letters A to Z, and
    the capital letters U+00C0 to U+00DE (the multiplication sign U+00D7
    is not one), move up by 32. *)
Definition lower_char (c : ascii) : ascii :=
  let n := nat_of_ascii c in
  if ((65 <=? n) && (n <=? 90)
      || (192 <=? n) && (n <=? 222) && negb (n =? 215))%nat
  then ascii_of_nat (n + 32) else c.

Fixpoint toLowerCase (s : string) : string :=
  match s with
  | EmptyString => EmptyString
  | String c s' => String (lower_char c) (toLowerCase s')
  end.

(** [s.includes(sub)] on strings *)
Fixpoint includes_substring (s sub : string) : bool :=
  String.prefix sub s
  || match s with
     | EmptyString => false
     | String _ s' => includes_substring s' sub
     end.

(** The page as [tryAutoClick] sees it: what
    [document.querySelector('button[class*="connect"], button[id*="connect"]')]
    finds at the poll number [attempts]; [None] when there is no such
    element, otherwise the element's [textContent] ([None] for null). *)
Definition Page : Type := nat -> option (option string).

(** [connectButton && connectButton.textContent?.toLowerCase().includes("connect")] *)
Definition is_connect_button (found : option (option string)) : bool :=
  match found with
  | Some (Some text) => includes_substring (toLowerCase text) "connect"
  | Some None => false
  | None => false
  end.

(** What a run of [tryAutoClick] did: the value of [attempts] at which it
    called [connectButton.click()], how many times it queried the page, and
    the sum of the timer delays (ms, counted from the choice of the
    provider) after which [setIsAutoClicking(false)] ran. *)
Record AutoClickRun : Type := {
  clicked : option nat;
  polls : nat;
  cleared_at : Z;
}.

Definition polled_again (r : AutoClickRun) : AutoClickRun :=
  {| clicked := clicked r; polls := S (polls r); cleared_at := cleared_at r |}.

(** [tryAutoClick(attempts, maxAttempts)] run at time [now]; every retry is
    a timer of 200 ms, which consumes one unit of [fuel]. *)
Fixpoint tryAutoClick_fuel (fuel : nat) (page : Page) (now : Z)
    (attempts maxAttempts : nat) : option AutoClickRun :=
  match fuel with
  | O => None
  | S fuel' =>
      if (maxAttempts <=? attempts)%nat
      then Some {| clicked := None; polls := 0; cleared_at := now |}
      else if is_connect_button (page attempts)
      then Some {| clicked := Some attempts; polls := 1; cleared_at := now + 100 |}
      else option_map polled_again
             (tryAutoClick_fuel fuel' page (now + 200) (S attempts) maxAttempts)
  end.

(** The component's state cells. *)
Record SelectorState : Type := {
  showProviderSelector : bool;
  selectedProvider : string;
  isAutoClicking : bool;
}.

(** [handleProviderSelect(type)]: the state it sets at once, and the run of
    [tryAutoClick()] it starts after 500 ms; the fuel lasts for [steps]
    timers. *)
Definition handleProviderSelect (steps : nat) (page : Page) (type : string)
    : SelectorState * option AutoClickRun :=
  ({| showProviderSelector := false; selectedProvider := type; isAutoClicking := true |},
   tryAutoClick_fuel steps page 500 0 20).

End OrderlyProvider.

(** ** The Gate Wallet module ([app/utils/wallets/gateWallet.ts]) *)

Module GateWallet.

(** An injected object, as far as the module inspects it: whether
    [typeof obj === "object"], whether [obj.request] is a function,
    whether [obj.isGateWallet] is truthy, and how its
    [request({ method: "eth_chainId" })] settles. *)
Record Injected : Type := {
  object_id : nat;
  is_object : bool;
  has_request : bool;
  isGateWallet : bool;
  eth_chainId_settles : outcome value;
}.

(** [window.gatewallet]: the object itself and its [ethereum] property
    ([None] when falsy). *)
Record GateNamespace : Type := {
  gatewallet_self : Injected;
  gatewallet_ethereum : option Injected;
}.

(** [window.ethereum]: the object itself and its [providers] array. *)
Record Ethereum : Type := {
  ethereum_self : Injected;
  providers : option (list Injected);
}.

(** The browser window; a falsy property is [None]. *)
Record Window : Type := {
  gatewallet : option GateNamespace;
  ethereum : option Ethereum;
}.

Definition isValidProvider (obj : Injected) : bool :=
  is_object obj && has_request obj.

(** [window] is [None] when [typeof window === "undefined"]. *)
Definition getWindowEthereum (window : option Window) : option Ethereum :=
  match window with
  | Some w => ethereum w
  | None => None
  end.

Definition getGateWalletProvider (window : option Window) : option Injected :=
  match window with
  | None => None
  | Some w =>
      let priority1 :=
        match gatewallet w with
        | Some g => if isValidProvider (gatewallet_self g)
                    then Some (gatewallet_self g) else None
        | None => None
        end in
      let priority2 :=
        match gatewallet w with
        | Some g => match gatewallet_ethereum g with
                    | Some e => if isValidProvider e then Some e else None
                    | None => None
                    end
        | None => None
        end in
      let ethereum := getWindowEthereum window in
      let priority3 :=
        match ethereum with
        | Some e => if isGateWallet (ethereum_self e) && isValidProvider (ethereum_self e)
                    then Some (ethereum_self e) else None
        | None => None
        end in
      let priority4 :=
        match ethereum with
        | Some e => match providers e with
                    | Some ps => List.find (fun p => isGateWallet p && isValidProvider p) ps
                    | None => None
                    end
        | None => None
        end in
      match priority1, priority2, priority3 with
      | Some p, _, _ => Some p
      | None, Some p, _ => Some p
      | None, None, Some p => Some p
      | None, None, None => priority4
      end
  end.

Definition isGateWalletInstalled (window : option Window) : bool :=
  match window with
  | None => false
  | Some w =>
      let ethereum := getWindowEthereum window in
      bool_decide (is_Some (gatewallet w))
      || match ethereum with
         | Some e => isGateWallet (ethereum_self e)
         | None => false
         end
      || match ethereum with
         | Some e => match providers e with
                     | Some ps => existsb isGateWallet ps
                     | None => false
                     end
         | None => false
         end
  end.

Definition GATE_WALLET_INSTALL_URL : string := "https://www.gate.io/web3".

(** [getInterface] of the wallet module, in a browser: the provider it
    resolves to (or the error it throws) and the pages it opened. *)
Definition getInterface (w : Window) : outcome Injected * list string :=
  if negb (isGateWalletInstalled (Some w)) then
    (Throw "Please install Gate Wallet extension to continue",
     [GATE_WALLET_INSTALL_URL])
  else
    match getGateWalletProvider (Some w) with
    | None =>
        (Throw "Gate Wallet provider not found. Please install or refresh the page.",
         [GATE_WALLET_INSTALL_URL])
    | Some provider =>
        match eth_chainId_settles provider with
        | Ok _ => (Ok provider, [])
        | Throw _ => (* ignored *) (Ok provider, [])
        end
    end.

End GateWallet.

(** ** Concrete environments and windows used in examples *)

(** Both networks enabled; French, then English, are available. *)
Definition open_environment : OrderlyProvider.Environment :=
  {| OrderlyProvider.getRuntimeConfigBoolean := fun _ => false;
     OrderlyProvider.getRuntimeConfigArray :=
       fun key => if String.eqb key "VITE_AVAILABLE_LANGUAGES" then ["fr"; "en"] else [];
     OrderlyProvider.seoConfig_language := Some "de";
     OrderlyProvider.getUserLanguage := "es";
     OrderlyProvider.withBasePath := fun path => path |}.

(** Mainnet disabled, testnet enabled. *)
Definition testnet_only_environment : OrderlyProvider.Environment :=
  {| OrderlyProvider.getRuntimeConfigBoolean :=
       fun key => String.eqb key "VITE_DISABLE_MAINNET";
     OrderlyProvider.getRuntimeConfigArray := fun _ => [];
     OrderlyProvider.seoConfig_language := None;
     OrderlyProvider.getUserLanguage := "en";
     OrderlyProvider.withBasePath := fun path => path |}.

(** An injected object that is a provider of Gate Wallet. *)
Definition gate_provider (n : nat) : GateWallet.Injected :=
  {| GateWallet.object_id := n; GateWallet.is_object := true;
     GateWallet.has_request := true; GateWallet.isGateWallet := true;
     GateWallet.eth_chainId_settles := Throw "disconnected" |}.

(** An injected provider of some other wallet. *)
Definition other_provider (n : nat) : GateWallet.Injected :=
  {| GateWallet.object_id := n; GateWallet.is_object := true;
     GateWallet.has_request := true; GateWallet.isGateWallet := false;
     GateWallet.eth_chainId_settles := Ok (VString "0x1") |}.

(** A browser with several wallets installed, Gate Wallet among the
    providers of [window.ethereum]. *)
Definition multi_wallet_window : GateWallet.Window :=
  {| GateWallet.gatewallet := None;
     GateWallet.ethereum :=
       Some {| GateWallet.ethereum_self := other_provider 0;
               GateWallet.providers :=
                 Some [other_provider 1; gate_provider 2; gate_provider 3] |} |}.

(** A page whose connect button is rendered by the time of the fourth
    poll; before that the only matching button is a menu entry. *)
Definition late_button_page : OrderlyProvider.Page :=
  fun attempts =>
    if (attempts <? 2)%nat then None
    else if (attempts <? 3)%nat then Some (Some "Menu")
    else Some (Some "Connect Wallet").

(** * Properties *)

(** ** Strings and numbers *)

Lemma string_length_app (s t : string) :
  String.length (s +:+ t) = (String.length s + String.length t)%nat.
Proof. induction s as [|c s IH]; simpl; [reflexivity | now rewrite IH]. Qed.

Lemma string_drop_app (s t : string) : string_drop (String.length s) (s +:+ t) = t.
Proof. induction s as [|c s IH]; simpl; [now destruct t | exact IH]. Qed.

Lemma string_take_app (s t : string) : string_take (String.length s) (s +:+ t) = s.
Proof. induction s as [|c s IH]; simpl; [reflexivity | now rewrite IH]. Qed.

Lemma string_take_all (t : string) : string_take (String.length t) t = t.
Proof. induction t as [|c t IH]; simpl; [reflexivity | now rewrite IH]. Qed.

(** [sig.slice(-2)] is the last two characters. *)
Lemma slice_last_two (s : string) (c1 c2 : ascii) :
  slice (s +:+ String c1 (String c2 "")) (-2) None = String c1 (String c2 "").
Proof.
  unfold slice. rewrite string_length_app. cbn [String.length].
  replace (Z.of_nat (String.length s + 2) + -2) with (Z.of_nat (String.length s)) by lia.
  cbn [Z.ltb Z.compare].
  rewrite Z.max_l by lia.
  replace (Z.of_nat (String.length s + 2) - Z.of_nat (String.length s)) with 2 by lia.
  rewrite Nat2Z.id, string_drop_app. reflexivity.
Qed.

(** [sig.slice(0, -2)] is everything but the last two characters. *)
Lemma slice_without_last_two (s : string) (c1 c2 : ascii) :
  slice (s +:+ String c1 (String c2 "")) 0 (Some (-2)) = s.
Proof.
  unfold slice. rewrite string_length_app. cbn [String.length].
  cbn [Z.ltb Z.compare].
  replace (Z.of_nat (String.length s + 2) + -2) with (Z.of_nat (String.length s)) by lia.
  rewrite Z.min_l by lia. rewrite Z.max_l by lia.
  rewrite Z.sub_0_r, Nat2Z.id. cbn [Z.to_nat string_drop].
  apply string_take_app.
Qed.

(** Two hexadecimal digits parse to the byte they spell. *)
Lemma parseInt_hex_pair (c1 c2 : ascii) (d1 d2 : Z) :
  digit_value c1 = Some d1 -> digit_value c2 = Some d2 ->
  parseInt (String c1 (String c2 "")) 16 = Num (16 * d1 + d2).
Proof.
  assert (All : forallb (fun n => forallb (fun m =>
            match digit_value (ascii_of_nat n), digit_value (ascii_of_nat m) with
            | Some e1, Some e2 =>
                bool_decide (parseInt (String (ascii_of_nat n) (String (ascii_of_nat m) "")) 16
                             = Num (16 * e1 + e2))
            | _, _ => true
            end) (seq 0 256)) (seq 0 256) = true) by (vm_compute; reflexivity).
  intros H1 H2.
  rewrite forallb_forall in All.
  specialize (All (nat_of_ascii c1)).
  rewrite forallb_forall in All.
  assert (B1 := nat_ascii_bounded c1). assert (B2 := nat_ascii_bounded c2).
  specialize (All ltac:(apply in_seq; lia) (nat_of_ascii c2) ltac:(apply in_seq; lia)).
  rewrite !ascii_nat_embedding, H1, H2 in All.
  now apply bool_decide_eq_true_1 in All.
Qed.

(** The normalisation on a signature ending in a low recovery byte [v]. *)
Lemma normalize_v_low (body : string) (c1 c2 : ascii) (v : Z) :
  parseInt (String c1 (String c2 "")) 16 = Num v -> v < 27 ->
  normalize_v (body +:+ String c1 (String c2 ""))
  = body +:+ padStart 2 "0" (toString16 (Num (v + 27))).
Proof.
  intros Hv Hlt. unfold normalize_v.
  rewrite slice_last_two, Hv, slice_without_last_two. cbn [lt add].
  destruct (Z.ltb_spec v 27); [reflexivity | lia].
Qed.

(** The normalisation leaves a signature alone when the recovery byte is
    not below 27, and when its last two characters are not a number. *)
Lemma normalize_v_high (body : string) (c1 c2 : ascii) :
  lt (parseInt (String c1 (String c2 "")) 16) (Num 27) = false ->
  normalize_v (body +:+ String c1 (String c2 "")) = body +:+ String c1 (String c2 "").
Proof.
  intros Hv. unfold normalize_v. rewrite slice_last_two, Hv. reflexivity.
Qed.

(** ** The provider shim *)

Lemma is_method_elem (m : string) (names : list string) :
  is_method m names = true <-> In m names.
Proof.
  unfold is_method. rewrite existsb_exists. split.
  - intros (x & Hin & Heq). apply String.eqb_eq in Heq. now subst.
  - intros Hin. exists m. split; [exact Hin | apply String.eqb_refl].
Qed.

(** With a snapshot and a signer in place, a signing request answers with
    the normalised form of whatever the signer produced. *)
Lemma request_signing (ext : Externals) (p : Provider) (method : string)
    (params : option (list value)) (b : Bridge) (st : ProviderState)
    (sg : ParaEthersSigner) (raw : string) :
  providerStateRef b = Some st -> signer st = Some sg ->
  signer_returns ext sg method params raw ->
  request ext p method params b = Ok (VString (normalize_v raw)).
Proof.
  intros Hst Hsg Hret. unfold request. rewrite Hst, Hsg.
  destruct Hret as [bytes Hm Hb Hs | parsedData Hm Hp Hu Hn Hs].
  - rewrite Hm, Hb, Hs. reflexivity.
  - assert (Hno : is_method method ["personal_sign"; "eth_sign"] = false).
    { apply is_method_elem in Hm. cbn [In] in Hm.
      destruct Hm as [<- | [<- | []]]; reflexivity. }
    rewrite Hno, Hm, Hp.
    destruct parsedData; try congruence; rewrite Hs; reflexivity.
Qed.

(** C4. For every signing request (personal_sign, eth_sign,
    eth_signTypedData, eth_signTypedData_v4) served with a signer: when the
    raw signature the signer produced ends in recovery byte 00 or 01, the
    shim returns it with that byte replaced by 1b or 1c respectively; when
    it ends in a recovery byte of value 27 or more, the shim returns it
    unchanged. *)
Theorem C4_recovery_byte_normalized (ext : Externals) (p : Provider)
    (method : string) (params : option (list value)) (b : Bridge)
    (st : ProviderState) (sg : ParaEthersSigner) (raw : string) :
  providerStateRef b = Some st -> signer st = Some sg ->
  signer_returns ext sg method params raw ->
  (forall body, raw = body +:+ "00" ->
     request ext p method params b = Ok (VString (body +:+ "1b")))
  /\ (forall body, raw = body +:+ "01" ->
     request ext p method params b = Ok (VString (body +:+ "1c")))
  /\ (forall body c1 c2 d1 d2,
     raw = body +:+ String c1 (String c2 "") ->
     digit_value c1 = Some d1 -> digit_value c2 = Some d2 ->
     27 <= 16 * d1 + d2 ->
     request ext p method params b = Ok (VString raw)).
Proof.
  intros Hst Hsg Hret.
  rewrite (request_signing ext p method params b st sg raw Hst Hsg Hret).
  repeat split.
  - intros body ->. f_equal. f_equal.
    now rewrite (normalize_v_low body "0" "0" 0).
  - intros body ->. f_equal. f_equal.
    now rewrite (normalize_v_low body "0" "1" 1).
  - intros body c1 c2 d1 d2 -> H1 H2 Hge. f_equal. f_equal.
    apply normalize_v_high. rewrite (parseInt_hex_pair c1 c2 d1 d2 H1 H2).
    cbn [lt]. apply Z.ltb_ge. exact Hge.
Qed.

(** A request on the scenario's connected embedded wallet: the signer
    answers "0x5e1f00" and the shim returns "0x5e1f1b". *)
Lemma C4_witness :
  request scenario {| handle := 0; closure_address := "0xA" |} "personal_sign"
    (Some [VString "0x68656c6c6f"; VString "0xA"])
    (started scenario mainnet empty_storage (embedded_inputs "0xA") [])
  = Ok (VString ("0x5e1f" +:+ "1b")).
Proof.
  refine (proj1 (C4_recovery_byte_normalized scenario _ "personal_sign" _ _ _ _
                   "0x5e1f00" _ _ _) "0x5e1f" eq_refl).
  - vm_compute. reflexivity.
  - reflexivity.
  - apply (returns_message _ _ _ _ _ []); reflexivity.
Defined.




(** ** State the operations leave alone *)

Lemma walletState_frame (ext : Externals) (net : NetworkId) (i : Inputs) (b : Bridge) :
  let b' := snd (walletState ext net i b) in
  selectedChainId b' = selectedChainId b
  /\ eventListenersRef b' = eventListenersRef b
  /\ prevChainIdRef b' = prevChainIdRef b
  /\ effect_deps b' = effect_deps b
  /\ trace b' = trace b
  /\ localStorage b' = localStorage b.
Proof.
  cbv zeta. unfold walletState.
  repeat match goal with
         | |- context [if ?c then _ else _] => destruct c
         | |- context [match res_address ?r with _ => _ end] => destruct (res_address r)
         | |- context [match stableProviderRef ?x with _ => _ end] =>
             destruct (stableProviderRef x)
         end; cbn; repeat split; reflexivity.
Qed.

Lemma forEach_listener_trace (ext : Externals) (listeners : list Listener)
    (args : list value) (tr : list Effect) :
  forEach_listener ext listeners args tr
  = tr ++ List.map (fun l => ListenerCalled l args) listeners.
Proof.
  revert tr. induction listeners as [|l rest IH]; intros tr; cbn [forEach_listener List.map].
  - now rewrite app_nil_r.
  - destruct (call_listener ext l args); rewrite IH, <- app_assoc; reflexivity.
Qed.

Lemma strict_neq_false (a b : number) : strict_neq a b = false -> a = b.
Proof.
  destruct a, b; cbn; try discriminate.
  intros H. apply negb_false_iff, Z.eqb_eq in H. now subst.
Qed.

Lemma strict_neq_true (a b : number) : a <> b -> strict_neq a b = true.
Proof.
  destruct a, b; cbn; try reflexivity.
  intros H. apply negb_true_iff, Z.eqb_neq. congruence.
Qed.

Lemma chainChanged_effect_frame (ext : Externals) (b : Bridge) :
  let b' := chainChanged_effect ext b in
  selectedChainId b' = selectedChainId b
  /\ prevChainIdRef b' = selectedChainId b
  /\ eventListenersRef b' = eventListenersRef b
  /\ stableProviderRef b' = stableProviderRef b
  /\ providerStateRef b' = providerStateRef b
  /\ allocated b' = allocated b.
Proof.
  cbv zeta. unfold chainChanged_effect.
  destruct (strict_neq (selectedChainId b) (prevChainIdRef b)) eqn:Hneq.
  - destruct (eventListenersRef b !! "chainChanged") as [ls|];
      [destruct (0 <? length ls)%nat |]; cbn; repeat split; reflexivity.
  - apply strict_neq_false in Hneq. repeat split; congruence.
Qed.

(** The effect, when it runs on a changed selection, calls every
    registered listener with the new chain id in hexadecimal. *)
Lemma chainChanged_effect_trace (ext : Externals) (b : Bridge) :
  selectedChainId b <> prevChainIdRef b ->
  trace (chainChanged_effect ext b)
  = trace b ++ chainChanged_deliveries (registered "chainChanged" b) (selectedChainId b).
Proof.
  intros Hne. unfold chainChanged_effect, registered, chainChanged_deliveries.
  rewrite (strict_neq_true _ _ Hne).
  destruct (eventListenersRef b !! "chainChanged") as [ls|]; cbn.
  - destruct ls as [|l ls]; cbn; [now rewrite app_nil_r |].
    destruct (call_listener ext l _); rewrite forEach_listener_trace, <- app_assoc; reflexivity.
  - now rewrite app_nil_r.
Qed.

Lemma useEffect_settles (ext : Externals) (b : Bridge) :
  (forall d, effect_deps b = Some d -> prevChainIdRef b = d) ->
  settled (useEffect_chainChanged ext b).
Proof.
  intros Hco. unfold useEffect_chainChanged, settled.
  destruct (chainChanged_effect_frame ext b) as (Hs & Hp & _).
  destruct (effect_deps b) as [d|] eqn:Hd.
  - unfold sameValueZero. case_bool_decide as Heq.
    + subst d. rewrite Hd. split; [reflexivity | now apply Hco].
    + cbn. rewrite Hs, Hp. split; reflexivity.
  - cbn. rewrite Hs, Hp. split; reflexivity.
Qed.

Lemma useEffect_frame (ext : Externals) (b : Bridge) :
  let b' := useEffect_chainChanged ext b in
  selectedChainId b' = selectedChainId b
  /\ eventListenersRef b' = eventListenersRef b
  /\ stableProviderRef b' = stableProviderRef b
  /\ providerStateRef b' = providerStateRef b
  /\ allocated b' = allocated b.
Proof.
  cbv zeta. unfold useEffect_chainChanged.
  destruct (chainChanged_effect_frame ext b) as (Hs & _ & Hl & Hr & Hq & Ha).
  destruct (effect_deps b) as [d|]; [destruct (sameValueZero d (selectedChainId b)) |];
    cbn; repeat split; first [reflexivity | assumption].
Qed.

Lemma setChain_frame (ext : Externals) (net : NetworkId) (c : ChainIdOption) (b : Bridge) :
  let b' := snd (setChain ext net c b) in
  eventListenersRef b' = eventListenersRef b
  /\ prevChainIdRef b' = prevChainIdRef b
  /\ effect_deps b' = effect_deps b
  /\ trace b' = trace b
  /\ stableProviderRef b' = stableProviderRef b
  /\ providerStateRef b' = providerStateRef b
  /\ allocated b' = allocated b.
Proof.
  cbv zeta. unfold setChain, setAndPersistChainId.
  destruct (includes _ _); cbn; [| repeat split; reflexivity].
  destruct (setItem _ _ _); cbn; repeat split; reflexivity.
Qed.

Lemma render_settles (ext : Externals) (net : NetworkId) (i : Inputs) (b : Bridge) :
  (forall d, effect_deps b = Some d -> prevChainIdRef b = d) ->
  settled (render ext net i b).
Proof.
  intros Hco. unfold render. apply useEffect_settles.
  destruct (walletState_frame ext net i b) as (_ & _ & Hp & Hd & _).
  rewrite Hp, Hd. exact Hco.
Qed.

Lemma disconnect_trace (client : option ParaClient) (b : Bridge) :
  trace (snd (disconnect client b)) = trace b ++ logout_call client.
Proof.
  unfold disconnect, logout_call.
  destruct client as [c|]; [destruct (logout c) as [[|]|] |]; cbn;
    now rewrite ?app_nil_r.
Qed.

Lemma settled_announced (b : Bridge) : settled b -> announced b.
Proof. intros [Hd Hp]. unfold announced. now rewrite Hp. Qed.

Lemma announced_coherent (b : Bridge) :
  announced b -> forall d, effect_deps b = Some d -> prevChainIdRef b = d.
Proof. unfold announced. intros Ha d Hd. congruence. Qed.

(** No call made between renders touches what the effect compares. *)
Lemma step_between (ext : Externals) (e : Event) (b : Bridge) :
  is_render e = false ->
  effect_deps (step ext e b) = effect_deps b
  /\ prevChainIdRef (step ext e b) = prevChainIdRef b.
Proof.
  destruct e as [n i | n c | k l | k l | client]; cbn [step is_render]; intros Hr.
  - discriminate.
  - destruct (setChain_frame ext n c b) as (_ & Hp & Hd & _). now split.
  - now split.
  - unfold removeListener. destruct (eventListenersRef b !! k); now split.
  - unfold disconnect.
    destruct client as [c|]; [destruct (logout c) as [[|]|] |]; now split.
Qed.

Lemma step_announced (ext : Externals) (e : Event) (b : Bridge) :
  announced b -> announced (step ext e b).
Proof.
  intros Ha. destruct (is_render e) eqn:Hr.
  - destruct e as [n i | | | |]; try discriminate. cbn [step].
    apply settled_announced, render_settles, announced_coherent, Ha.
  - destruct (step_between ext e b Hr) as [Hd Hp].
    unfold announced. now rewrite Hd, Hp.
Qed.

Lemma run_announced (ext : Externals) (events : list Event) (b : Bridge) :
  announced b -> announced (run ext events b).
Proof.
  revert b. induction events as [|e rest IH]; intros b Ha; [exact Ha |].
  cbn [run fold_left]. apply IH, step_announced, Ha.
Qed.

(** In every state of a mounted bridge the effect has run at least once,
    and [prevChainIdRef] is the selection it ran for last. *)
Lemma started_announced (ext : Externals) (net : NetworkId) (ls : Storage)
    (i : Inputs) (events : list Event) :
  announced (started ext net ls i events).
Proof.
  apply run_announced, settled_announced, render_settles. cbn. discriminate.
Qed.

Lemma run_app (ext : Externals) (l1 l2 : list Event) (b : Bridge) :
  run ext (l1 ++ l2) b = run ext l2 (run ext l1 b).
Proof. unfold run. apply fold_left_app. Qed.

(** Right after a render the bridge is settled. *)
Lemma started_settled (ext : Externals) (net : NetworkId) (ls : Storage)
    (i : Inputs) (events : list Event) :
  after_render events = true ->
  settled (started ext net ls i events).
Proof.
  unfold after_render, started.
  destruct (last events) as [e|] eqn:Hlast.
  - intros Hr. apply last_Some in Hlast as [pre ->].
    rewrite run_app. cbn [run fold_left].
    destruct e as [n j | | | |]; try discriminate. cbn [step].
    apply render_settles, announced_coherent.
    apply (started_announced ext net ls i pre).
  - intros _. apply last_None in Hlast. subst events. cbn [run fold_left].
    apply render_settles. cbn. discriminate.
Qed.

(** The calls between two renders keep what the effect compares, and call
    no listener. *)
Lemma run_between (ext : Externals) (between : list Event) (b : Bridge) :
  existsb is_render between = false ->
  effect_deps (run ext between b) = effect_deps b
  /\ prevChainIdRef (run ext between b) = prevChainIdRef b
  /\ (forall l args, In (ListenerCalled l args) (trace (run ext between b)) ->
        In (ListenerCalled l args) (trace b)).
Proof.
  revert b. induction between as [|e rest IH]; intros b Hno; [now repeat split |].
  cbn [existsb] in Hno. apply orb_false_elim in Hno as [He Hrest].
  change (run ext (e :: rest) b) with (run ext rest (step ext e b)).
  destruct (IH (step ext e b) Hrest) as (Hd & Hp & Ht).
  destruct (step_between ext e b He) as [Hd1 Hp1].
  split; [congruence |]. split; [congruence |].
  intros l args Hin. specialize (Ht l args Hin).
  destruct e as [n i | n c | k l0 | k l0 | client]; cbn [step is_render] in *.
  - discriminate.
  - destruct (setChain_frame ext n c b) as (_ & _ & _ & Htr & _). now rewrite Htr in Ht.
  - exact Ht.
  - unfold removeListener in Ht. now destruct (eventListenersRef b !! k).
  - rewrite disconnect_trace in Ht. apply in_app_or in Ht as [Ht | Ht]; [exact Ht |].
    unfold logout_call in Ht.
    destruct client as [c|]; [destruct (logout c) |]; cbn in Ht;
      intuition discriminate.
Qed.

Lemma useEffect_changed (ext : Externals) (b : Bridge) (d : number) :
  effect_deps b = Some d -> prevChainIdRef b = d -> d <> selectedChainId b ->
  trace (useEffect_chainChanged ext b)
  = trace b ++ chainChanged_deliveries (registered "chainChanged" b) (selectedChainId b).
Proof.
  intros Hd Hp Hne. unfold useEffect_chainChanged. rewrite Hd.
  unfold sameValueZero. rewrite bool_decide_eq_false_2 by exact Hne.
  cbn. apply chainChanged_effect_trace. congruence.
Qed.

Lemma useEffect_unchanged (ext : Externals) (b : Bridge) :
  effect_deps b = Some (selectedChainId b) ->
  useEffect_chainChanged ext b = b.
Proof.
  intros Hd. unfold useEffect_chainChanged. rewrite Hd.
  unfold sameValueZero. now rewrite bool_decide_eq_true_2.
Qed.

Lemma render_selectedChainId (ext : Externals) (net : NetworkId) (i : Inputs) (b : Bridge) :
  selectedChainId (render ext net i b) = selectedChainId b.
Proof.
  unfold render.
  destruct (useEffect_frame ext (snd (walletState ext net i b))) as (-> & _).
  apply walletState_frame.
Qed.

(** ** Chain-change propagation *)

(** C6 (as amended). Take two consecutive renders of a mounted bridge and
    the calls made between them (setChain, on, removeListener, disconnect,
    in any number and order).  If the Selected Chain Identifier the second
    render reads differs from the one the first render read, the second
    render delivers chainChanged, once, to every listener registered for it
    on the shim at that time, each with the new chain id as a 0x-prefixed
    hexadecimal string.  If it is the same, the second render delivers
    nothing; and no listener is called between the two renders. *)
Theorem C6_chainChanged_emitted (ext : Externals) (net : NetworkId) (ls : Storage)
    (i0 : Inputs) (events between : list Event) (n : NetworkId) (i : Inputs) :
  after_render events = true ->
  existsb is_render between = false ->
  let b1 := started ext net ls i0 events in
  let b2 := run ext between b1 in
  let b3 := step ext (Render n i) b2 in
  (forall l args, In (ListenerCalled l args) (trace b2) ->
     In (ListenerCalled l args) (trace b1))
  /\ (selectedChainId b2 <> selectedChainId b1 ->
      trace b3 = trace b2 ++ chainChanged_deliveries (registered "chainChanged" b2)
                                                    (selectedChainId b2))
  /\ (selectedChainId b2 = selectedChainId b1 -> trace b3 = trace b2).
Proof.
  intros Hafter Hbetween b1 b2 b3.
  destruct (started_settled ext net ls i0 events Hafter) as [Hd Hp]. fold b1 in Hd, Hp.
  destruct (run_between ext between b1 Hbetween) as (Hd2 & Hp2 & Hquiet).
  fold b2 in Hd2, Hp2, Hquiet.
  destruct (walletState_frame ext n i b2) as (Hs3 & Hl3 & Hp3 & Hd3 & Ht3 & _).
  split; [exact Hquiet |]. subst b3. cbn [step]. unfold render. split.
  - intros Hchg.
    rewrite (useEffect_changed ext _ (selectedChainId b1)).
    + unfold registered. now rewrite Hs3, Hl3, Ht3.
    + now rewrite Hd3, Hd2.
    + now rewrite Hp3, Hp2.
    + rewrite Hs3. intros Heq. apply Hchg. now symmetry.
  - intros Hsame. rewrite useEffect_unchanged; [exact Ht3 |].
    now rewrite Hd3, Hd2, Hd, Hs3, Hsame.
Qed.

(** The scenario: after the first render two listeners are registered and
    [setChain] moves the selection from chain 1 to chain 8453; at the next
    render both receive "0x2105". *)
Lemma C6_witness :
  let between := [On "chainChanged" 7%nat; On "chainChanged" 9%nat;
                  SetChain mainnet (ChainIdString "0x2105")] in
  let b2 := run scenario between
              (started scenario mainnet empty_storage (embedded_inputs "0xA") []) in
  trace (step scenario (Render mainnet (embedded_inputs "0xA")) b2)
  = [ListenerCalled 7%nat [VString "0x2105"]; ListenerCalled 9%nat [VString "0x2105"]].
Proof.
  exact (proj1 (proj2 (C6_chainChanged_emitted scenario mainnet empty_storage
                         (embedded_inputs "0xA") []
                         [On "chainChanged" 7%nat; On "chainChanged" 9%nat;
                          SetChain mainnet (ChainIdString "0x2105")]
                         mainnet (embedded_inputs "0xA") eq_refl eq_refl))
               ltac:(vm_compute; discriminate)).
Defined.

(** C6, counterexample to the claim as stated.  A listener is registered;
    before React renders again, [setChain] is called twice, for chain 8453
    and then for chain 1.  Both calls succeed, the first changes the
    Selected Chain Identifier to 8453 and stores it, the second changes it
    back; the render that follows reads the identifier it read before, and
    the listener is never called: neither change is announced. *)
Lemma C6_counterexample :
  let b1 := started scenario mainnet empty_storage (embedded_inputs "0xA")
              [On "chainChanged" 7%nat] in
  let r1 := setChain scenario mainnet (ChainIdNumber (Num 8453)) b1 in
  let r2 := setChain scenario mainnet (ChainIdNumber (Num 1)) (snd r1) in
  let b3 := step scenario (Render mainnet (embedded_inputs "0xA")) (snd r2) in
  registered "chainChanged" b1 = [7%nat]
  /\ selectedChainId b1 = Num 1
  /\ fst r1 = Ok (VObject [("success", VBool true)])
  /\ selectedChainId (snd r1) = Num 8453
  /\ items (localStorage (snd r1)) !! "para_selected_chain_mainnet" = Some "8453"
  /\ fst r2 = Ok (VObject [("success", VBool true)])
  /\ selectedChainId (snd r2) = Num 1
  /\ snd r2 = run scenario [SetChain mainnet (ChainIdNumber (Num 8453));
                            SetChain mainnet (ChainIdNumber (Num 1))] b1
  /\ trace b3 = [].
Proof.
  cbv zeta. repeat split; reflexivity.
Qed.

(** ** The stable provider handle *)

(** What a recomputation that resolves a wallet returns and writes. *)
Lemma walletState_resolved (ext : Externals) (net : NetworkId) (i : Inputs)
    (b b2 : Bridge) (w : WalletState) :
  walletState ext net i b = (Some w, b2) ->
  let r := resolve i (selectedChainId b) in
  exists address,
    res_address r = Some address
    /\ truthy_string address = true
    /\ accounts w = [address]
    /\ chains w = [(res_chainId r, res_namespace r)]
    /\ providerStateRef b2 = Some (snapshot ext net i r)
    /\ stableProviderRef b2 = Some (provider w)
    /\ provider w = match stableProviderRef b with
                    | Some existing => existing
                    | None => {| handle := allocated b; closure_address := address |}
                    end
    /\ allocated b2 = match stableProviderRef b with
                      | Some _ => allocated b
                      | None => S (allocated b)
                      end.
Proof.
  cbv zeta. unfold walletState.
  destruct (_ && _); [discriminate |].
  destruct (res_address _) as [address|]; [| discriminate].
  destruct (truthy_string address) eqn:Htr; cbn [negb]; [| discriminate].
  cbn. destruct (stableProviderRef b) as [existing|] eqn:He; intros [= <- <-];
    exists address; cbn; repeat split; try reflexivity; assumption.
Qed.

(** A recomputation that resolves no wallet leaves the bridge as it was. *)
Lemma walletState_null (ext : Externals) (net : NetworkId) (i : Inputs)
    (b b2 : Bridge) :
  walletState ext net i b = (None, b2) -> b2 = b.
Proof.
  unfold walletState.
  destruct (_ && _); [now intros [= <-] |].
  destruct (res_address _) as [address|]; [| now intros [= <-]].
  destruct (negb (truthy_string address)); [now intros [= <-] |].
  cbn. destruct (stableProviderRef b); discriminate.
Qed.

Lemma walletState_allocated (ext : Externals) (net : NetworkId) (i : Inputs) (b : Bridge) :
  handle_allocated b -> handle_allocated (snd (walletState ext net i b)).
Proof.
  intros Hb. destruct (walletState ext net i b) as [[w|] b2] eqn:Hw; cbn [snd].
  - destruct (walletState_resolved ext net i b b2 w Hw)
      as (address & _ & _ & _ & _ & _ & Hr & Hp & Ha).
    intros p. rewrite Hr. intros [= <-]. rewrite Hp, Ha.
    destruct (stableProviderRef b) as [existing|] eqn:He.
    + now apply Hb.
    + cbn. lia.
  - now rewrite (walletState_null ext net i b b2 Hw).
Qed.

Lemma step_allocated (ext : Externals) (e : Event) (b : Bridge) :
  handle_allocated b -> handle_allocated (step ext e b).
Proof.
  intros Hb. unfold handle_allocated.
  destruct e as [net i | net c | n l | n l | client]; cbn [step].
  - unfold render.
    destruct (useEffect_frame ext (snd (walletState ext net i b))) as (_ & _ & -> & _ & ->).
    now apply walletState_allocated.
  - destruct (setChain_frame ext net c b) as (_ & _ & _ & _ & Hr & _ & Ha).
    intros p. rewrite Hr, Ha. apply Hb.
  - exact Hb.
  - unfold removeListener. destruct (eventListenersRef b !! n); exact Hb.
  - unfold disconnect.
    destruct client as [c|]; [destruct (logout c) as [[|]|] |]; cbn;
      first [exact Hb | discriminate].
Qed.

Lemma started_allocated (ext : Externals) (net : NetworkId) (ls : Storage)
    (i : Inputs) (events : list Event) :
  handle_allocated (started ext net ls i events).
Proof.
  unfold started.
  assert (H0 : handle_allocated (render ext net i (mount ext net ls))).
  { apply (step_allocated ext (Render net i)). intros p. discriminate. }
  revert H0. generalize (render ext net i (mount ext net ls)).
  induction events as [|e rest IH]; intros b Hb; [exact Hb |].
  cbn [run fold_left]. apply IH, step_allocated, Hb.
Qed.

(** C3 (as amended). Between two consecutive wallet-state recomputations
    that both resolve a wallet, with the provider reference not cleared in
    between (no disconnect), the second returns the identical provider
    object as the first, while the snapshot behind it is replaced as a
    whole by the values of the second recomputation (chain id, RPC URL,
    RPC client and signer built for one and the same chain).  A later
    eth_chainId on that handle, when a signer is available, returns the
    snapshot's chain id in hexadecimal; that is the latest selected chain
    id when the wallet was resolved from the embedded account. *)
Theorem C3_handle_stable_until_disconnect (ext : Externals) (net1 net2 : NetworkId)
    (i1 i2 : Inputs) (b b1 b1' b2 : Bridge) (w1 w2 : WalletState) :
  walletState ext net1 i1 b = (Some w1, b1) ->
  stableProviderRef b1' = stableProviderRef b1 ->
  walletState ext net2 i2 b1' = (Some w2, b2) ->
  provider w2 = provider w1
  /\ stableProviderRef b2 = Some (provider w1)
  /\ exists st,
       providerStateRef b2 = Some st
       /\ st = snapshot ext net2 i2 (resolve i2 (selectedChainId b1'))
       /\ rpcUrl st = getRpcUrl net2 (chainId st)
       /\ ethersProvider st = {| provider_url := rpcUrl st; provider_network := chainId st |}
       /\ (forall sg, signer st = Some sg -> signer_provider sg = ethersProvider st)
       /\ (forall sg params, signer st = Some sg ->
             request ext (provider w1) "eth_chainId" params b2
             = Ok (VString ("0x" +:+ toString16 (chainId st))))
       /\ (truthy_opt (hasEvm (account i2)) = false -> hasSolana (account i2) = None ->
             chainId st = selectedChainId b1').
Proof.
  intros H1 Hkeep H2.
  destruct (walletState_resolved ext net1 i1 b b1 w1 H1)
    as (a1 & _ & _ & _ & _ & _ & Hr1 & _).
  destruct (walletState_resolved ext net2 i2 b1' b2 w2 H2)
    as (a2 & Ha2 & Ht2 & _ & _ & Hst & Hr2 & Hp2 & _).
  rewrite Hkeep, Hr1 in Hp2.
  split; [exact Hp2 |]. split; [now rewrite Hr2, Hp2 |].
  eexists. split; [exact Hst |]. split; [reflexivity |].
  split; [reflexivity |]. split; [reflexivity |]. split.
  { intros sg. cbn. destruct (paraClient i2); [| discriminate].
    destruct (_ && _); [| discriminate]. now intros [= <-]. }
  split.
  { intros sg params Hsg. unfold request. rewrite Hst, Hsg. reflexivity. }
  intros Hevm Hsol. cbn.
  revert Ha2 Ht2. unfold resolve. rewrite Hevm, Hsol.
  destruct (hasEmbedded (account i2)); [| discriminate].
  destruct (embedded (account i2)) as [e|]; [| discriminate].
  unfold approach3, approach2, approach1, unresolved.
  repeat match goal with
         | |- context [if ?c then _ else _] => destruct c; cbn
         | |- context [match ?x with _ => _ end] => destruct x; cbn
         end; intros; try reflexivity; try discriminate.
Qed.

(** The scenario: an embedded wallet is resolved, the selection moves from
    chain 1 to chain 8453, the wallet state is recomputed; the provider is
    the same object and answers eth_chainId with "0x2105". *)
Lemma C3_witness :
  let i := embedded_inputs "0xA" in
  let r1 := walletState scenario mainnet i (mount scenario mainnet empty_storage) in
  let r2 := walletState scenario mainnet i
              (snd (setChain scenario mainnet (ChainIdNumber (Num 8453)) (snd r1))) in
  exists w1 w2,
    fst r1 = Some w1 /\ fst r2 = Some w2 /\ provider w2 = provider w1
    /\ request scenario (provider w1) "eth_chainId" None (snd r2) = Ok (VString "0x2105").
Proof.
  intros i r1 r2.
  assert (exists w, fst r1 = Some w) as [w1 Hw1] by (eexists; reflexivity).
  assert (exists w, fst r2 = Some w) as [w2 Hw2] by (eexists; reflexivity).
  exists w1, w2. split; [exact Hw1 |]. split; [exact Hw2 |].
  assert (H1 : r1 = (Some w1, snd r1)) by (rewrite <- Hw1; apply surjective_pairing).
  assert (H2 : r2 = (Some w2, snd r2)) by (rewrite <- Hw2; apply surjective_pairing).
  destruct (C3_handle_stable_until_disconnect scenario mainnet mainnet i i _ (snd r1)
              (snd (setChain scenario mainnet (ChainIdNumber (Num 8453)) (snd r1)))
              (snd r2) w1 w2 H1 eq_refl H2)
    as (Hp & _ & st & Hst & Hsnap & _ & _ & _ & Hreq & _).
  split; [exact Hp |].
  assert (Hsg : signer st = Some {| signer_client := client0;
                                    signer_provider := ethersProvider st |})
    by (rewrite Hsnap; reflexivity).
  rewrite (Hreq _ None Hsg), Hsnap. reflexivity.
Defined.

(** C3, counterexample to the claim as stated.  (a) An external EVM wallet
    on chain 5 is connected next to an embedded account, and the selected
    chain is 8453: two consecutive recomputations return the same provider,
    whose eth_chainId answers "0x5", not the selected chain.  (b) With a
    disconnect between two recomputations of one mount, the second returns
    a different provider object. *)
Lemma C3_counterexample :
  let i := both_inputs "0xE" "0xA" in
  let b := started scenario mainnet empty_storage i
             [SetChain mainnet (ChainIdNumber (Num 8453)); Render mainnet i] in
  let r1 := walletState scenario mainnet i b in
  let r2 := walletState scenario mainnet i (snd r1) in
  let r3 := walletState scenario mainnet i (snd (disconnect (Some client0) (snd r2))) in
  selectedChainId (snd r2) = Num 8453
  /\ (exists w1 w2, fst r1 = Some w1 /\ fst r2 = Some w2 /\ provider w1 = provider w2
        /\ request scenario (provider w2) "eth_chainId" None (snd r2) = Ok (VString "0x5")
        /\ request scenario (provider w2) "eth_chainId" None (snd r2) <> Ok (VString "0x2105"))
  /\ (exists w2 w3, fst r2 = Some w2 /\ fst r3 = Some w3 /\ provider w3 <> provider w2).
Proof.
  cbv zeta. split; [reflexivity |]. split.
  - eexists _, _. repeat split; try reflexivity. discriminate.
  - eexists _, _. repeat split; try reflexivity. discriminate.
Qed.

(** What the shim answers to eth_accounts and eth_requestAccounts after a
    recomputation that resolves a wallet: with a signer, the address its
    [request] closure captured, which is the resolved address when that
    recomputation built the shim; without a signer, the signer-unavailable
    error. *)
Lemma accounts_request_answer (ext : Externals) (net : NetworkId)
    (i : Inputs) (b b2 : Bridge) (w : WalletState) (method : string)
    (params : option (list value)) :
  walletState ext net i b = (Some w, b2) ->
  is_method method ["eth_accounts"; "eth_requestAccounts"] = true ->
  exists st,
    providerStateRef b2 = Some st
    /\ request ext (provider w) method params b2
       = match signer st with
         | Some _ => Ok (VArray [VString (closure_address (provider w))])
         | None => Throw "Para signer not available. Please connect your wallet."
         end
    /\ (stableProviderRef b = None -> accounts w = [closure_address (provider w)]).
Proof.
  intros Hw Hm.
  destruct (walletState_resolved ext net i b b2 w Hw)
    as (address & _ & _ & Hacc & _ & Hst & _ & Hp & _).
  eexists. split; [exact Hst |]. split.
  - unfold request. rewrite Hst.
    destruct (signer _); [| reflexivity].
    apply is_method_elem in Hm. cbn [In] in Hm.
    destruct Hm as [<- | [<- | []]]; reflexivity.
  - intros Hnone. rewrite Hnone in Hp. now rewrite Hp, Hacc.
Qed.

(** C7, the code at the failing input.  One mount of the scenario: the
    first render resolves the embedded wallet "0xA" and builds the shim,
    which answers eth_accounts with ["0xA"].  The SDK then reports the
    address "0xB" for the embedded wallet, with no disconnect in between,
    and the wallet state is recomputed: it reports "0xB", on the same
    provider object, and the snapshot holds a signer; yet eth_accounts and
    eth_requestAccounts on the shim still answer ["0xA"], the address its
    [request] closure captured when it was built.  Everything else the
    shim reads is current: after [setChain] to chain 8453 and the next
    render, the same shim answers eth_chainId with "0x2105". *)
Theorem C7_stale_address_after_change :
  let b1 := started scenario mainnet empty_storage (embedded_inputs "0xA") [] in
  let r := walletState scenario mainnet (embedded_inputs "0xB") b1 in
  let b3 := run scenario [SetChain mainnet (ChainIdNumber (Num 8453));
                          Render mainnet (embedded_inputs "0xB")] (snd r) in
  exists p w,
    stableProviderRef b1 = Some p
    /\ request scenario p "eth_accounts" None b1 = Ok (VArray [VString "0xA"])
    /\ fst r = Some w
    /\ provider w = p
    /\ accounts w = ["0xB"]
    /\ (exists st sg, providerStateRef (snd r) = Some st /\ signer st = Some sg)
    /\ request scenario p "eth_accounts" None (snd r) = Ok (VArray [VString "0xA"])
    /\ request scenario p "eth_requestAccounts" None (snd r) = Ok (VArray [VString "0xA"])
    /\ request scenario p "eth_accounts" None (snd r) <> Ok (VArray [VString "0xB"])
    /\ request scenario p "eth_chainId" None (snd r) = Ok (VString "0x1")
    /\ stableProviderRef b3 = Some p
    /\ request scenario p "eth_chainId" None b3 = Ok (VString "0x2105")
    /\ request scenario p "eth_accounts" None b3 = Ok (VArray [VString "0xA"]).
Proof.
  cbv zeta. eexists _, _.
  repeat split; try reflexivity; try discriminate.
  eexists _, _. split; reflexivity.
Qed.

(** ** Disconnect *)

Lemma disconnect_clears (client : option ParaClient) (b : Bridge) :
  logout_succeeds client ->
  fst (disconnect client b) = Ok []
  /\ stableProviderRef (snd (disconnect client b)) = None
  /\ providerStateRef (snd (disconnect client b)) = None
  /\ allocated (snd (disconnect client b)) = allocated b.
Proof.
  unfold disconnect, logout_succeeds.
  destruct client as [c|]; [| now intros _].
  intros [-> | ->]; now cbn.
Qed.

Lemma step_handles_from (ext : Externals) (n : nat) (e : Event) (b : Bridge) :
  (n <= allocated b)%nat /\ (forall p, stableProviderRef b = Some p -> (n <= handle p)%nat) ->
  (n <= allocated (step ext e b))%nat
  /\ (forall p, stableProviderRef (step ext e b) = Some p -> (n <= handle p)%nat).
Proof.
  assert (Hws : forall net i b0,
            (n <= allocated b0)%nat
            /\ (forall p, stableProviderRef b0 = Some p -> (n <= handle p)%nat) ->
            (n <= allocated (render ext net i b0))%nat
            /\ (forall p, stableProviderRef (render ext net i b0) = Some p -> (n <= handle p)%nat)).
  { intros net i b0 [Ha Hp]. unfold render.
    destruct (useEffect_frame ext (snd (walletState ext net i b0))) as (_ & _ & -> & _ & ->).
    destruct (walletState ext net i b0) as [[w|] b2] eqn:Hw; cbn [snd].
    - destruct (walletState_resolved ext net i b0 b2 w Hw)
        as (address & _ & _ & _ & _ & _ & Hr & Hpw & Hal).
      rewrite Hr, Hal, Hpw.
      destruct (stableProviderRef b0) as [existing|] eqn:He.
      + split; [exact Ha |]. intros p [= <-]. now apply Hp.
      + split; [lia |]. intros p [= <-]. exact Ha.
    - rewrite (walletState_null ext net i b0 b2 Hw). now split. }
  intros [Ha Hp].
  destruct e as [net i | net c | k l | k l | client]; cbn [step].
  - now apply Hws.
  - destruct (setChain_frame ext net c b) as (_ & _ & _ & _ & -> & _ & ->). now split.
  - now split.
  - unfold removeListener. destruct (eventListenersRef b !! k); now split.
  - unfold disconnect.
    destruct client as [c|]; [destruct (logout c) as [[|]|] |]; cbn;
      (split; [exact Ha | first [exact Hp | discriminate]]).
Qed.

Lemma run_handles_from (ext : Externals) (n : nat)
    (events : list Event) (b : Bridge) :
  (n <= allocated b)%nat /\ (forall p, stableProviderRef b = Some p -> (n <= handle p)%nat) ->
  (n <= allocated (run ext events b))%nat
  /\ (forall p, stableProviderRef (run ext events b) = Some p -> (n <= handle p)%nat).
Proof.
  revert b. induction events as [|e rest IH]; intros b H0; [exact H0 |].
  cbn [run fold_left]. apply IH, step_handles_from, H0.
Qed.

(** C8. On a mounted bridge, disconnect() invokes the SDK's logout when
    the client has one; when that call is absent or fulfilled, disconnect
    then clears both the provider reference and the snapshot, so the next
    recomputation that resolves a wallet constructs a new provider object,
    and no later wallet state carries the discarded one.  A logout that is
    rejected is propagated to the caller. *)
Theorem C8_disconnect_discards_shim (ext : Externals) (net : NetworkId)
    (ls : Storage) (i0 : Inputs) (events : list Event) (client : option ParaClient) :
  let b := started ext net ls i0 events in
  let r := disconnect client b in
  trace (snd r) = trace b ++ logout_call client
  /\ (logout_succeeds client ->
        fst r = Ok []
        /\ stableProviderRef (snd r) = None
        /\ providerStateRef (snd r) = None
        /\ (forall n i w b2, walletState ext n i (snd r) = (Some w, b2) ->
              stableProviderRef b2 = Some (provider w)
              /\ accounts w = [closure_address (provider w)]
              /\ handle (provider w) = allocated b)
        /\ (forall old later p,
              stableProviderRef b = Some old ->
              stableProviderRef (run ext later (snd r)) = Some p ->
              handle p <> handle old))
  /\ (forall c e, client = Some c -> logout c = Some (Throw e) -> fst r = Throw e).
Proof.
  intros b r. subst r. split; [apply disconnect_trace |]. split.
  - intros Hok.
    destruct (disconnect_clears client b Hok) as (Hres & Hr & Hs & Ha).
    split; [exact Hres |]. split; [exact Hr |]. split; [exact Hs |]. split.
    + intros n i w b2 Hw.
      destruct (walletState_resolved ext n i _ b2 w Hw)
        as (address & _ & _ & Hacc & _ & _ & Hr2 & Hp & _).
      rewrite Hr in Hp.
      split; [exact Hr2 |]. rewrite Hp. split; [exact Hacc | exact Ha].
    + intros old later p Hold Hlater.
      pose proof (started_allocated ext net ls i0 events old Hold) as Hlt. fold b in Hlt.
      destruct (run_handles_from ext (allocated b) later (snd (disconnect client b)))
        as [_ Hq].
      { rewrite Ha, Hr. split; [lia | discriminate]. }
      specialize (Hq p Hlater). lia.
  - intros c e -> Hl. unfold disconnect. rewrite Hl. reflexivity.
Qed.

(** The scenario: disconnecting calls logout and clears the shim; the
    wallet that reconnects later is served by a new provider object. *)
Lemma C8_witness :
  let b := started scenario mainnet empty_storage (embedded_inputs "0xA") [] in
  let b1 := snd (disconnect (Some client0) b) in
  trace b1 = [LogoutCalled 0]
  /\ stableProviderRef b = Some {| handle := 0; closure_address := "0xA" |}
  /\ stableProviderRef b1 = None
  /\ providerStateRef b1 = None
  /\ forall p,
       stableProviderRef
         (run scenario
            [Render mainnet no_wallet_inputs; Render mainnet (embedded_inputs "0xB")] b1)
       = Some p ->
       handle p <> 0%nat.
Proof.
  intros b b1.
  destruct (C8_disconnect_discards_shim scenario mainnet empty_storage
              (embedded_inputs "0xA") [] (Some client0)) as (Htr & Hok & _).
  destruct (Hok (or_intror eq_refl)) as (_ & Hr & Hs & _ & Hfresh).
  split; [exact Htr |]. split; [reflexivity |]. split; [exact Hr |]. split; [exact Hs |].
  intros p Hp.
  exact (Hfresh {| handle := 0; closure_address := "0xA" |} _ p eq_refl Hp).
Defined.

(** C10. Once disconnect() has cleared the bridge state, every request on
    a provider handle obtained earlier, whatever the method, is rejected
    with 'Provider state not initialized' until a recomputation writes a
    new snapshot: recomputations that resolve no wallet, listener
    registrations and chain selections do not. *)
Theorem C10_request_after_disconnect (ext : Externals) (net : NetworkId)
    (client : option ParaClient) (b : Bridge) (p : Provider) (method : string)
    (params : option (list value)) :
  fst (disconnect client b) = Ok [] ->
  let b1 := snd (disconnect client b) in
  request ext p method params b1 = Throw "Provider state not initialized"
  /\ (forall i, fst (walletState ext net i b1) = None ->
        request ext p method params (snd (walletState ext net i b1))
        = Throw "Provider state not initialized")
  /\ (forall name l,
        request ext p method params (on name l b1) = Throw "Provider state not initialized")
  /\ (forall c,
        request ext p method params (snd (setChain ext net c b1))
        = Throw "Provider state not initialized").
Proof.
  intros Hok b1.
  assert (Hnone : providerStateRef b1 = None).
  { subst b1. revert Hok. unfold disconnect.
    destruct client as [c|]; [destruct (logout c) as [[|]|] |]; cbn;
      first [reflexivity | discriminate]. }
  split; [unfold request; now rewrite Hnone |]. split; [| split].
  - intros i Hw. destruct (walletState ext net i b1) as [[w|] b2] eqn:E; [discriminate |].
    cbn [snd]. rewrite (walletState_null ext net i b1 b2 E).
    unfold request. now rewrite Hnone.
  - intros name l. unfold request, on. cbn. now rewrite Hnone.
  - intros c. unfold request.
    destruct (setChain_frame ext net c b1) as (_ & _ & _ & _ & _ & -> & _).
    now rewrite Hnone.
Qed.

(** After a disconnect of the connected scenario, eth_chainId on the old
    handle is rejected. *)
Lemma C10_witness :
  request scenario {| handle := 0; closure_address := "0xA" |} "eth_chainId" None
    (snd (disconnect (Some client0)
            (started scenario mainnet empty_storage (embedded_inputs "0xA") [])))
  = Throw "Provider state not initialized".
Proof.
  exact (proj1 (C10_request_after_disconnect scenario mainnet (Some client0)
                  (started scenario mainnet empty_storage (embedded_inputs "0xA") [])
                  {| handle := 0; closure_address := "0xA" |} "eth_chainId" None eq_refl)).
Defined.

(** ** Chain selection and persistence *)

Lemma includes_In (arr : list number) (x : number) :
  includes arr x = true <-> In x arr.
Proof.
  unfold includes, sameValueZero. rewrite existsb_exists. split.
  - intros (y & Hin & Heq). apply bool_decide_eq_true_1 in Heq. now subst.
  - intros Hin. exists x. split; [exact Hin | now apply bool_decide_eq_true_2].
Qed.

Lemma includes_not_In (arr : list number) (x : number) :
  includes arr x = false <-> ~ In x arr.
Proof.
  rewrite <- includes_In. destruct (includes arr x); split; congruence.
Qed.

(** C1 (as amended). setChain normalises its argument (a hexadecimal
    string or a number) to a number.  If that number is not in the
    available-chain list of the active network, setChain throws and neither
    the Selected Chain Identifier nor the storage changes.  If it is,
    setChain succeeds and updates the Selected Chain Identifier; the value
    is stored under the per-network key when the storage accepts the
    write, and a refused write is swallowed, leaving the storage as it
    was. *)
Theorem C1_setChain_validates_then_persists (ext : Externals) (net : NetworkId)
    (c : ChainIdOption) (b : Bridge) :
  let requested := requested_chain c in
  let r := setChain ext net c b in
  (~ In requested (availableChainIds ext net) ->
     (exists message, fst r = Throw message)
     /\ selectedChainId (snd r) = selectedChainId b
     /\ localStorage (snd r) = localStorage b)
  /\ (In requested (availableChainIds ext net) ->
     fst r = Ok (VObject [("success", VBool true)])
     /\ selectedChainId (snd r) = requested
     /\ (write_fails (localStorage b) = false ->
           items (localStorage (snd r)) !! storage_key net = Some (toString10 requested))
     /\ (write_fails (localStorage b) = true -> localStorage (snd r) = localStorage b)).
Proof.
  cbv zeta. unfold setChain. fold (requested_chain c). split.
  - intros Hout. apply includes_not_In in Hout. rewrite Hout. cbn.
    split; [eexists; reflexivity |]. split; reflexivity.
  - intros Hin. apply includes_In in Hin. rewrite Hin. cbn.
    split; [reflexivity |].
    unfold setAndPersistChainId, setItem. cbn.
    destruct (write_fails (localStorage b)); cbn.
    + split; [reflexivity |]. split; [discriminate | reflexivity].
    + split; [reflexivity |]. split; [| discriminate].
      intros _. apply lookup_insert_eq.
Qed.

(** The scenario of the specification: [setChain({chainId: "0x2105"})]
    selects chain 8453 and stores "8453" under the mainnet key; chain 10
    is refused. *)
Lemma C1_witness :
  let b := started scenario mainnet empty_storage (embedded_inputs "0xA") [] in
  let ok := setChain scenario mainnet (ChainIdString "0x2105") b in
  let ko := setChain scenario mainnet (ChainIdNumber (Num 10)) b in
  (selectedChainId (snd ok) = Num 8453
   /\ items (localStorage (snd ok)) !! "para_selected_chain_mainnet" = Some "8453")
  /\ (selectedChainId (snd ko) = Num 1 /\ localStorage (snd ko) = empty_storage).
Proof.
  intros b ok ko.
  destruct (C1_setChain_validates_then_persists scenario mainnet
              (ChainIdString "0x2105") b) as [_ Hin].
  destruct (C1_setChain_validates_then_persists scenario mainnet
              (ChainIdNumber (Num 10)) b) as [Hout _].
  destruct (Hin ltac:(right; left; reflexivity)) as (_ & Hsel & Hw & _).
  destruct Hout as (_ & Hsel' & Hls').
  { intros [H | [H | []]]; discriminate. }
  split; [split; [exact Hsel | exact (Hw eq_refl)] | split; [exact Hsel' | exact Hls']].
Defined.

(** C1, counterexample to the claim as stated.  The storage refuses
    writes; chain 8453 is available, [setChain] succeeds and selects it,
    yet nothing is stored, and a reload starts from the default chain. *)
Lemma C1_counterexample :
  let b := started scenario mainnet full_storage (embedded_inputs "0xA") [] in
  let r := setChain scenario mainnet (ChainIdNumber (Num 8453)) b in
  In (Num 8453) (availableChainIds scenario mainnet)
  /\ fst r = Ok (VObject [("success", VBool true)])
  /\ selectedChainId (snd r) = Num 8453
  /\ items (localStorage (snd r)) !! "para_selected_chain_mainnet" = None
  /\ getInitialChainId scenario mainnet (localStorage (snd r)) = Num 1.
Proof.
  cbv zeta. split; [right; left; reflexivity |]. repeat split; reflexivity.
Qed.

(** Restoring the selection, for a chain list whose entries all parse. *)
Lemma getInitialChainId_well_formed (ext : Externals) (net : NetworkId) (ls : Storage) :
  ~ In NaN (availableChainIds ext net) ->
  (forall stored,
     getItem ls (storage_key net) = Ok (Some stored) ->
     In (parseInt stored 10) (availableChainIds ext net) ->
     getInitialChainId ext net ls = parseInt stored 10)
  /\ (forall stored,
     getItem ls (storage_key net) = Ok (Some stored) ->
     ~ In (parseInt stored 10) (availableChainIds ext net) ->
     getInitialChainId ext net ls = defaultChainId ext net)
  /\ (forall stored,
     getItem ls (storage_key net) = Ok (Some stored) ->
     parseInt stored 10 = NaN ->
     getInitialChainId ext net ls = defaultChainId ext net)
  /\ (getItem ls (storage_key net) = Ok None ->
     getInitialChainId ext net ls = defaultChainId ext net)
  /\ (forall e, getItem ls (storage_key net) = Throw e ->
     getInitialChainId ext net ls = defaultChainId ext net).
Proof.
  intros Hwf. unfold getInitialChainId. repeat split.
  - intros stored -> Hin.
    destruct stored as [|ch rest].
    + exfalso. apply Hwf. exact Hin.
    + cbn [truthy_string]. apply includes_In in Hin. now rewrite Hin.
  - intros stored -> Hout. apply includes_not_In in Hout. rewrite Hout.
    now destruct (truthy_string stored).
  - intros stored -> Hnan. rewrite Hnan.
    apply includes_not_In in Hwf. rewrite Hwf. now destruct (truthy_string stored).
  - now intros ->.
  - now intros e ->.
Qed.

(** C9, the code at the failing input.  The chain list "1,8453," parses to
    [1; 8453; NaN]; the stored value "abc" fails to parse, and the failed
    parse is found in the list (includes equates NaN with NaN), so the
    initial selection is NaN and not the default chain 1.  The connector
    writes such a value itself: with this list [setChain({chainId: "zz"})]
    is accepted and stores "NaN", which the next load restores. *)
Theorem C9_failed_parse_is_restored :
  (availableChainIds trailing_comma mainnet = [Num 1; Num 8453; NaN]
   /\ defaultChainId trailing_comma mainnet = Num 1
   /\ getItem garbage_storage (storage_key mainnet) = Ok (Some "abc")
   /\ parseInt "abc" 10 = NaN
   /\ getInitialChainId trailing_comma mainnet garbage_storage = NaN
   /\ getInitialChainId trailing_comma mainnet garbage_storage
      <> defaultChainId trailing_comma mainnet)
  /\ (let r := setChain trailing_comma mainnet (ChainIdString "zz")
                 (mount trailing_comma mainnet empty_storage) in
      fst r = Ok (VObject [("success", VBool true)])
      /\ items (localStorage (snd r)) !! storage_key mainnet = Some "NaN"
      /\ getInitialChainId trailing_comma mainnet (localStorage (snd r)) = NaN).
Proof.
  split; [repeat split; try reflexivity; discriminate |].
  cbv zeta. repeat split; reflexivity.
Qed.

(** ** Wallet state derivation *)

Lemma is_evm_wallet_spec (w : ParaWallet) :
  is_evm_wallet w = bool_decide (chainType w = Some EVM \/ type w = Some EVM).
Proof.
  unfold is_evm_wallet.
  repeat case_bool_decide; cbn; try reflexivity; tauto.
Qed.

Lemma find_is_evm_wallet (l : list ParaWallet) :
  List.find is_evm_wallet l
  = List.find (fun w => bool_decide (chainType w = Some EVM \/ type w = Some EVM)) l.
Proof.
  induction l as [|w l IH]; cbn [List.find]; [reflexivity |].
  now rewrite is_evm_wallet_spec, IH.
Qed.

Lemma resolved_falsy (r : Resolution) :
  truthy_opt (res_address r) = false -> resolved r = None.
Proof.
  unfold resolved, truthy_opt. destruct (res_address r) as [a|]; [| reflexivity].
  now intros ->.
Qed.

Lemma resolved_truthy (r : Resolution) :
  truthy_opt (res_address r) = true -> exists x, resolved r = Some x.
Proof.
  unfold resolved, truthy_opt. destruct (res_address r) as [a|]; [| discriminate].
  intros ->. eexists. reflexivity.
Qed.

Lemma approach1_resolved (e : ParaEmbedded) (selected : number) :
  resolved (approach1 e selected unresolved) = spec_wallets_lookup e.
Proof.
  unfold approach1, spec_wallets_lookup, has_wallets, spec_present.
  rewrite <- find_is_evm_wallet.
  destruct (wallets e) as [[|w0 l]|]; [reflexivity | | reflexivity].
  cbn [from_option id]. destruct (List.find is_evm_wallet (w0 :: l)) as [w|]; [| reflexivity].
  destruct (wallet_address w) as [[|c s]|]; reflexivity.
Qed.

Lemma approach2_resolved (data : option ParaWallet) (selected : number) (r : Resolution) :
  resolved (approach2 data selected r)
  = match resolved r with
    | Some x => Some x
    | None => spec_wallet_query data
    end.
Proof.
  unfold approach2. destruct (truthy_opt (res_address r)) eqn:Ht; cbn [negb].
  - now destruct (resolved_truthy r Ht) as [x ->].
  - rewrite (resolved_falsy r Ht). unfold spec_wallet_query, spec_present.
    destruct data as [w|]; [| now apply resolved_falsy].
    destruct (wallet_address w) as [[|c s]|]; try now apply resolved_falsy.
    unfold resolved. cbn. case_bool_decide as Hc.
    + now rewrite Hc.
    + destruct (chainType w) as [[|]|]; congruence.
Qed.

Lemma approach3_resolved (e : ParaEmbedded) (selected : number) (r : Resolution) :
  resolved (approach3 e selected r)
  = match resolved r with
    | Some x => Some x
    | None => spec_direct_address e
    end.
Proof.
  unfold approach3. destruct (truthy_opt (res_address r)) eqn:Ht; cbn [negb].
  - now destruct (resolved_truthy r Ht) as [x ->].
  - rewrite (resolved_falsy r Ht). unfold spec_direct_address, spec_present.
    destruct (embedded_address e) as [[|c s]|]; try now apply resolved_falsy.
    reflexivity.
Qed.

(** The three approaches, tried in order on an embedded account, resolve
    to the first of the three candidates of the specification. *)
Lemma approaches_first_match (e : ParaEmbedded) (data : option ParaWallet)
    (selected : number) :
  resolved (approach3 e selected (approach2 data selected (approach1 e selected unresolved)))
  = spec_first_match [spec_wallets_lookup e; spec_wallet_query data; spec_direct_address e].
Proof.
  rewrite approach3_resolved, approach2_resolved, approach1_resolved.
  cbn [spec_first_match].
  destruct (spec_wallets_lookup e), (spec_wallet_query data), (spec_direct_address e);
    reflexivity.
Qed.

(** A resolution already has a non-empty address or none. *)
Lemma resolved_nonempty (r : Resolution) (a : string) (ns : ChainNamespace) :
  resolved r = Some (a, ns) -> truthy_string a = true.
Proof.
  unfold resolved. destruct (res_address r) as [a'|]; [| discriminate].
  destruct (truthy_string a') eqn:Ht; [| discriminate]. now intros [= <- _].
Qed.

Lemma embedded_first_match (i : Inputs) (selected : number) :
  resolved (if hasEmbedded (account i)
            then match embedded (account i) with
                 | Some e =>
                     approach3 e selected
                       (approach2 (walletQuery_data i) selected
                          (approach1 e selected unresolved))
                 | None => unresolved
                 end
            else unresolved)
  = amended_embedded i.
Proof.
  unfold hasEmbedded, amended_embedded, spec_embedded.
  destruct (embedded (account i)) as [e|]; [| reflexivity].
  destruct (isConnected e) as [[|]|], (isGuestMode e) as [[|]|]; cbn [default negb andb];
    first [apply approaches_first_match | reflexivity].
Qed.

(** With no embedded account, or one that is connected and not in guest
    mode, the amended derivation is the derivation of the specification. *)
Lemma amended_is_spec (i : Inputs) :
  embedded (account i) = None \/ hasEmbedded (account i) = true ->
  amended_derivation i = spec_derivation i.
Proof.
  unfold amended_derivation, spec_derivation, amended_embedded, spec_embedded, hasEmbedded.
  destruct (embedded (account i)) as [e|]; [| reflexivity].
  intros [H | H]; [discriminate |].
  destruct (isConnected e) as [[|]|], (isGuestMode e) as [[|]|];
    cbn in H; first [discriminate | reflexivity].
Qed.

(** The if / else-if chain of the code is the first-match order of the
    amended derivation. *)
Lemma resolve_first_match (i : Inputs) (selected : number) :
  resolved (resolve i selected) = amended_derivation i.
Proof.
  assert (Hemb : forall a ns, amended_embedded i = Some (a, ns) -> truthy_string a = true).
  { intros a ns Hx.
    rewrite <- embedded_first_match with (selected := selected) in Hx.
    exact (resolved_nonempty _ a ns Hx). }
  assert (Hlast : resolved (if hasEmbedded (account i)
                            then match embedded (account i) with
                                 | Some e =>
                                     approach3 e selected
                                       (approach2 (walletQuery_data i) selected
                                          (approach1 e selected unresolved))
                                 | None => unresolved
                                 end
                            else unresolved)
                  = match spec_first_match [amended_embedded i] with
                    | Some (addr, ns) => if truthy_string addr then Some (addr, ns) else None
                    | None => None
                    end).
  { rewrite embedded_first_match. cbn [spec_first_match].
    destruct (amended_embedded i) as [[a ns]|] eqn:E; [| reflexivity].
    now rewrite (Hemb a ns eq_refl). }
  unfold resolve, amended_derivation, spec_external_evm, spec_external_solana,
    hasEvm, hasSolana, account_evm, account_solana, spec_present.
  destruct (external (account i)) as [[ev so]|]; cbn [external_evm external_solana].
  - destruct ev as [[[[|c s]|] cn ec]|]; cbn [evm_address truthy_opt truthy_string];
      try reflexivity;
      (destruct so as [[[pk|] sn]|]; cbn [publicKey];
       [ reflexivity | exact Hlast | exact Hlast ]).
  - exact Hlast.
Qed.

(** C2 (as amended). The wallet state is derived first-match-wins, in the
    order (1) externally connected EVM account, (2) externally connected
    Solana account, (3) embedded account that is connected and not in guest
    mode, itself resolved by the wallets-array lookup, then the
    wallet-query result, then the direct address field; when nothing
    resolves, the wallet state is null.  So with no embedded account, or
    one that is connected and not in guest mode, the wallet state is the
    derivation of the specification.  In particular an externally connected
    EVM account gives the wallet state its address and the EVM namespace,
    whatever embedded-account data is present. *)
Theorem C2_derivation_first_match_wins (ext : Externals) (net : NetworkId)
    (i : Inputs) (b : Bridge) :
  option_map reported (fst (walletState ext net i b))
  = option_map (fun an => ([fst an], [snd an])) (amended_derivation i)
  /\ (embedded (account i) = None \/ hasEmbedded (account i) = true ->
      option_map reported (fst (walletState ext net i b))
      = option_map (fun an => ([fst an], [snd an])) (spec_derivation i))
  /\ (forall addr,
        hasEvm (account i) = Some addr -> addr <> EmptyString ->
        exists w, fst (walletState ext net i b) = Some w
                  /\ accounts w = [addr]
                  /\ List.map snd (chains w) = [evm]).
Proof.
  assert (Hmain : option_map reported (fst (walletState ext net i b))
                  = option_map (fun an => ([fst an], [snd an])) (amended_derivation i)).
  { rewrite <- (resolve_first_match i (selectedChainId b)).
    unfold walletState.
    destruct (_ && _) eqn:Hnone.
    - apply andb_prop in Hnone as [Hnone _].
      apply andb_prop in Hnone as [Hnone He].
      apply andb_prop in Hnone as [Hv Hs].
      apply negb_true_iff in Hv, He.
      apply negb_true_iff, bool_decide_eq_false_1 in Hs.
      unfold resolve. rewrite Hv, He.
      destruct (hasSolana (account i)); [exfalso; apply Hs; eexists; reflexivity |].
      reflexivity.
    - unfold resolved.
      destruct (res_address (resolve i (selectedChainId b))) as [address|]; [| reflexivity].
      destruct (truthy_string address); cbn [negb]; [| reflexivity].
      cbn. destruct (stableProviderRef b); reflexivity. }
  split; [exact Hmain |]. split.
  { intros Husable. rewrite Hmain. now rewrite (amended_is_spec i Husable). }
  intros addr Hevm Hne.
  assert (Hspec : amended_derivation i = Some (addr, evm)).
  { rewrite <- (resolve_first_match i (selectedChainId b)).
    unfold resolve, resolved. rewrite Hevm. cbn.
    destruct addr; [congruence | reflexivity]. }
  rewrite Hspec in Hmain.
  destruct (fst (walletState ext net i b)) as [w|]; [| discriminate].
  exists w. injection Hmain as Ha Hn. repeat split; assumption.
Qed.

(** An external EVM wallet next to a connected embedded account and a
    wallet-query result: the wallet state carries the external address. *)
Lemma C2_witness :
  exists w,
    fst (walletState scenario mainnet (both_inputs "0xE" "0xA")
           (mount scenario mainnet empty_storage)) = Some w
    /\ accounts w = ["0xE"] /\ List.map snd (chains w) = [evm].
Proof.
  apply (proj2 (proj2 (C2_derivation_first_match_wins scenario mainnet
                         (both_inputs "0xE" "0xA")
                         (mount scenario mainnet empty_storage))) "0xE" eq_refl).
  discriminate.
Defined.

(** C2, counterexample to the claim as stated.  (a) An embedded account is
    connected in guest mode and holds the EVM wallet "0xG": candidate (3)
    of the claim resolves it by the wallets-array lookup, but the wallet
    state is null.  (b) The same for an embedded account object that is not
    connected and holds the EVM wallet "0xD". *)
Lemma C2_counterexample :
  (spec_derivation (guest_inputs "0xG") = Some ("0xG", evm)
   /\ fst (walletState scenario mainnet (guest_inputs "0xG")
             (mount scenario mainnet empty_storage)) = None)
  /\ (spec_derivation (signed_out_inputs "0xD") = Some ("0xD", evm)
      /\ fst (walletState scenario mainnet (signed_out_inputs "0xD")
                (mount scenario mainnet empty_storage)) = None).
Proof.
  repeat split; reflexivity.
Qed.

(** * Further properties of the code *)

(** ** Number formatting and parsing are inverse *)

Lemma read_digits_step (radix : Z) (acc : option Z) (c : ascii) (d : Z) (r : string) :
  digit_value c = Some d -> (d <? radix) = true ->
  read_digits radix acc (String c r)
  = read_digits radix (Some (radix * default 0 acc + d)) r.
Proof. intros Hd Hlt. cbn [read_digits]. now rewrite Hd, Hlt. Qed.

Ltac digit_norm :=
  repeat match goal with
         | |- context [Z.of_nat (nat_of_ascii ?c) - ?k] =>
             let v := eval vm_compute in (Z.of_nat (nat_of_ascii c) - k) in
             change (Z.of_nat (nat_of_ascii c) - k) with v
         end.

Ltac ws_norm :=
  repeat match goal with
         | |- context [is_whitespace ?c] =>
             let v := eval vm_compute in (is_whitespace c) in
             change (is_whitespace c) with v
         end.

Lemma read_digits_decimal_acc (d : Decimal.uint) (acc : positive) :
  read_digits 10 (Some (Z.pos acc)) (DecimalString.NilEmpty.string_of_uint d)
  = Some (Z.pos (Pos.of_uint_acc d acc)).
Proof.
  revert acc. induction d; intros acc;
    cbn [DecimalString.NilEmpty.string_of_uint Pos.of_uint_acc]; [reflexivity | ..];
    (erewrite read_digits_step by reflexivity);
    rewrite <- IHd; do 2 f_equal; cbn [from_option id]; digit_norm; lia.
Qed.

Lemma read_digits_decimal_zero (d : Decimal.uint) :
  read_digits 10 (Some 0) (DecimalString.NilEmpty.string_of_uint d)
  = Some (Z.of_N (Pos.of_uint d)).
Proof.
  induction d; cbn [DecimalString.NilEmpty.string_of_uint Pos.of_uint];
    [reflexivity | ..]; (erewrite read_digits_step by reflexivity);
    cbn [from_option id]; digit_norm;
    first [exact IHd | apply read_digits_decimal_acc].
Qed.

Lemma read_digits_decimal (d : Decimal.uint) :
  d <> Decimal.Nil ->
  read_digits 10 None (DecimalString.NilEmpty.string_of_uint d)
  = Some (Z.of_N (Pos.of_uint d)).
Proof.
  destruct d; intros Hd; [congruence | ..];
    cbn [DecimalString.NilEmpty.string_of_uint Pos.of_uint];
    (erewrite read_digits_step by reflexivity); cbn [from_option id]; digit_norm;
    first [apply read_digits_decimal_zero | apply read_digits_decimal_acc].
Qed.

Lemma parseInt_decimal_uint (d : Decimal.uint) :
  d <> Decimal.Nil ->
  parseInt (DecimalString.NilEmpty.string_of_uint d) 10 = Num (Z.of_N (Pos.of_uint d))
  /\ parseInt (String "-" (DecimalString.NilEmpty.string_of_uint d)) 10
     = Num (- Z.of_N (Pos.of_uint d)).
Proof.
  intros Hd. pose proof (read_digits_decimal d Hd) as Hr.
  split.
  - destruct d; [congruence | ..];
      unfold parseInt; cbn [DecimalString.NilEmpty.string_of_uint trimStart] in *;
      ws_norm; cbn -[read_digits Z.of_N Pos.of_uint]; rewrite Hr; f_equal; lia.
  - unfold parseInt. cbn [trimStart]. ws_norm.
    cbn -[read_digits Z.of_N Pos.of_uint]. rewrite Hr. f_equal; lia.
Qed.

Lemma decimal_string_nonnil (d : Decimal.uint) :
  d <> Decimal.Nil ->
  DecimalString.NilZero.string_of_uint d = DecimalString.NilEmpty.string_of_uint d.
Proof. destruct d; [congruence | reflexivity ..]. Qed.

(** [parseInt(n.toString(), 10)] is [n], NaN included: in the exact
    arithmetic of the model for every integer, in JavaScript for the safe
    integers. *)
Lemma parseInt_toString10 (n : number) : parseInt (toString10 n) 10 = n.
Proof.
  destruct n as [z|]; [| reflexivity].
  unfold toString10, DecimalString.NilZero.string_of_int, Z.to_int.
  destruct z as [|p|p]; [reflexivity | |];
    pose proof (DecimalPos.Unsigned.to_uint_nonnil p) as Hn;
    rewrite (decimal_string_nonnil _ Hn).
  - rewrite (proj1 (parseInt_decimal_uint _ Hn)), DecimalPos.Unsigned.of_to.
    reflexivity.
  - rewrite (proj2 (parseInt_decimal_uint _ Hn)), DecimalPos.Unsigned.of_to.
    reflexivity.
Qed.

Lemma toString10_inj (a b : number) : toString10 a = toString10 b -> a = b.
Proof.
  intros H. rewrite <- (parseInt_toString10 a), <- (parseInt_toString10 b). now rewrite H.
Qed.

Lemma toString10_nonempty (n : number) : truthy_string (toString10 n) = true.
Proof.
  destruct (toString10 n) eqn:E; [| reflexivity].
  pose proof (parseInt_toString10 n) as H. rewrite E in H.
  destruct n as [z|]; [discriminate | discriminate].
Qed.

Lemma read_digits_hex_acc (d : Hexadecimal.uint) (acc : positive) :
  read_digits 16 (Some (Z.pos acc)) (HexadecimalString.NilEmpty.string_of_uint d)
  = Some (Z.pos (Pos.of_hex_uint_acc d acc)).
Proof.
  revert acc. induction d; intros acc;
    cbn [HexadecimalString.NilEmpty.string_of_uint Pos.of_hex_uint_acc];
    [reflexivity | ..];
    (erewrite read_digits_step by reflexivity);
    rewrite <- IHd; do 2 f_equal; cbn [from_option id]; digit_norm; lia.
Qed.

Lemma read_digits_hex_zero (d : Hexadecimal.uint) :
  read_digits 16 (Some 0) (HexadecimalString.NilEmpty.string_of_uint d)
  = Some (Z.of_N (Pos.of_hex_uint d)).
Proof.
  induction d; cbn [HexadecimalString.NilEmpty.string_of_uint Pos.of_hex_uint];
    [reflexivity | ..]; (erewrite read_digits_step by reflexivity);
    cbn [from_option id]; digit_norm;
    first [exact IHd | apply read_digits_hex_acc].
Qed.

Lemma read_digits_hex (d : Hexadecimal.uint) :
  d <> Hexadecimal.Nil ->
  read_digits 16 None (HexadecimalString.NilEmpty.string_of_uint d)
  = Some (Z.of_N (Pos.of_hex_uint d)).
Proof.
  destruct d; intros Hd; [congruence | ..];
    cbn [HexadecimalString.NilEmpty.string_of_uint Pos.of_hex_uint];
    (erewrite read_digits_step by reflexivity); cbn [from_option id]; digit_norm;
    first [apply read_digits_hex_zero | apply read_digits_hex_acc].
Qed.

Lemma hex_string_nonnil (d : Hexadecimal.uint) :
  d <> Hexadecimal.Nil ->
  HexadecimalString.NilZero.string_of_uint d
  = HexadecimalString.NilEmpty.string_of_uint d.
Proof. destruct d; [congruence | reflexivity ..]. Qed.

(** The digits [toString(16)] prints never look like a "0x" prefix. *)
Lemma strip_hex_prefix_digits (d : Hexadecimal.uint) :
  strip_hex_prefix (HexadecimalString.NilEmpty.string_of_uint d)
  = HexadecimalString.NilEmpty.string_of_uint d.
Proof. destruct d; try reflexivity. destruct d; reflexivity. Qed.

(** [parseInt(n.toString(16), 16)] is [n], NaN included. *)
Lemma parseInt_toString16 (n : number) : parseInt (toString16 n) 16 = n.
Proof.
  destruct n as [z|]; [| reflexivity].
  unfold toString16, HexadecimalString.NilZero.string_of_int, Z.to_hex_int.
  destruct z as [|p|p]; [reflexivity | |];
    pose proof (HexadecimalPos.Unsigned.to_uint_nonnil p) as Hn;
    rewrite (hex_string_nonnil _ Hn);
    pose proof (read_digits_hex _ Hn) as Hr;
    rewrite HexadecimalPos.Unsigned.of_to in Hr;
    pose proof (strip_hex_prefix_digits (Pos.to_hex_uint p)) as Hs.
  - destruct (Pos.to_hex_uint p) eqn:E; [congruence | ..];
      unfold parseInt;
      cbn [HexadecimalString.NilEmpty.string_of_uint trimStart] in *;
      ws_norm; cbn -[read_digits strip_hex_prefix]; rewrite Hs, Hr; reflexivity.
  - unfold parseInt. cbn [trimStart]. ws_norm.
    cbn -[read_digits strip_hex_prefix]. rewrite Hs, Hr. reflexivity.
Qed.

(** The 0x-prefixed form parses back for a non-negative number. *)
Lemma parseInt_hex_prefixed (z : Z) :
  0 <= z -> parseInt ("0x" +:+ toString16 (Num z)) 16 = Num z.
Proof.
  intros Hz. unfold toString16, HexadecimalString.NilZero.string_of_int, Z.to_hex_int.
  destruct z as [|p|p]; [reflexivity | | lia].
  pose proof (HexadecimalPos.Unsigned.to_uint_nonnil p) as Hn.
  rewrite (hex_string_nonnil _ Hn).
  pose proof (read_digits_hex _ Hn) as Hr.
  rewrite HexadecimalPos.Unsigned.of_to in Hr.
  change ("0x" +:+ ?s) with (String "0" (String "x" s)).
  unfold parseInt. cbn [trimStart]. ws_norm.
  cbn -[read_digits]. rewrite Hr. reflexivity.
Qed.

Lemma toString16_inj (a b : number) : toString16 a = toString16 b -> a = b.
Proof.
  intros H. rewrite <- (parseInt_toString16 a), <- (parseInt_toString16 b). now rewrite H.
Qed.

(** ** Chain selection across reloads and through the shim *)

(** X1. After a [setChain] that succeeds, for a chain id that is a safe
    integer, on a storage that accepts the write and can be read back,
    loading the selection again restores the chain that was requested.
    (A chain id beyond the safe integers is outside the property: from
    1e21 on JavaScript stores it in exponent notation, which does not
    parse back.) *)
Theorem X1_setChain_then_reload_restores (ext : Externals) (net : NetworkId)
    (c : ChainIdOption) (b : Bridge) :
  isSafeInteger (requested_chain c) = true ->
  In (requested_chain c) (availableChainIds ext net) ->
  write_fails (localStorage b) = false ->
  read_fails (localStorage b) = false ->
  getInitialChainId ext net (localStorage (snd (setChain ext net c b)))
  = requested_chain c.
Proof.
  intros _ Hin Hw Hr. apply includes_In in Hin.
  unfold setChain. fold (requested_chain c). rewrite Hin. cbn [negb snd].
  unfold setAndPersistChainId, setItem. cbn. rewrite Hw. cbn.
  unfold getInitialChainId, getItem. cbn. rewrite Hr, lookup_insert_eq.
  now rewrite toString10_nonempty, parseInt_toString10, Hin.
Qed.

Lemma X1_witness :
  getInitialChainId scenario mainnet
    (localStorage (snd (setChain scenario mainnet (ChainIdString "0x2105")
                          (mount scenario mainnet empty_storage))))
  = Num 8453.
Proof.
  apply (X1_setChain_then_reload_restores scenario mainnet (ChainIdString "0x2105")
           (mount scenario mainnet empty_storage));
    [reflexivity | | reflexivity | reflexivity].
  right. left. reflexivity.
Defined.

(** X2. The hexadecimal chain id that [eth_chainId] returns, for a
    non-negative chain id, is read back by [setChain] as the same chain. *)
Theorem X2_eth_chainId_reads_back (ext : Externals) (p : Provider)
    (params : option (list value)) (b : Bridge) (st : ProviderState)
    (sg : ParaEthersSigner) (z : Z) :
  providerStateRef b = Some st -> signer st = Some sg ->
  chainId st = Num z -> 0 <= z ->
  exists hex,
    request ext p "eth_chainId" params b = Ok (VString hex)
    /\ requested_chain (ChainIdString hex) = Num z.
Proof.
  intros Hst Hsg Hc Hz. exists ("0x" +:+ toString16 (Num z)). split.
  - unfold request. rewrite Hst, Hsg, Hc. reflexivity.
  - cbn [requested_chain]. now apply parseInt_hex_prefixed.
Qed.

Lemma X2_witness :
  exists hex,
    request scenario {| handle := 0; closure_address := "0xA" |} "eth_chainId" None
      (started scenario mainnet empty_storage (embedded_inputs "0xA")
         [SetChain mainnet (ChainIdNumber (Num 8453));
          Render mainnet (embedded_inputs "0xA")])
    = Ok (VString hex)
    /\ requested_chain (ChainIdString hex) = Num 8453.
Proof.
  eapply (X2_eth_chainId_reads_back scenario); [| | | lia].
  - vm_compute. reflexivity.
  - reflexivity.
  - reflexivity.
Defined.

Lemma setChain_selected (ext : Externals) (net : NetworkId) (c : ChainIdOption)
    (b : Bridge) :
  selectedChainId (snd (setChain ext net c b))
  = if includes (availableChainIds ext net) (requested_chain c)
    then requested_chain c else selectedChainId b.
Proof.
  unfold setChain, setAndPersistChainId. fold (requested_chain c).
  destruct (includes _ _); cbn; [| reflexivity].
  destruct (setItem _ _ _); reflexivity.
Qed.

Lemma getInitialChainId_valid (ext : Externals) (net : NetworkId) (ls : Storage) :
  In (getInitialChainId ext net ls) (availableChainIds ext net)
  \/ getInitialChainId ext net ls = defaultChainId ext net.
Proof.
  unfold getInitialChainId.
  destruct (getItem ls (storage_key net)) as [[stored|]|]; try (now right).
  destruct (truthy_string stored); [| now right].
  destruct (includes _ _) eqn:Hin; [| now right].
  left. now apply includes_In.
Qed.

(** X3. As long as the [networkId] prop stays the one of the mount, in
    every state of a mounted bridge the Selected Chain Identifier is an
    entry of the available-chain list or the default chain: the value read
    at mount is validated, and [setChain] only ever stores entries of the
    list. *)
Theorem X3_selected_chain_available_or_default (ext : Externals) (net : NetworkId)
    (ls : Storage) (i : Inputs) (events : list Event) :
  same_network net events ->
  let b := started ext net ls i events in
  In (selectedChainId b) (availableChainIds ext net)
  \/ selectedChainId b = defaultChainId ext net.
Proof.
  intros Hsame. cbv zeta. unfold started.
  assert (H0 : In (selectedChainId (render ext net i (mount ext net ls)))
                  (availableChainIds ext net)
               \/ selectedChainId (render ext net i (mount ext net ls))
                  = defaultChainId ext net).
  { rewrite render_selectedChainId. apply getInitialChainId_valid. }
  revert H0 Hsame. generalize (render ext net i (mount ext net ls)).
  induction events as [|e rest IH]; intros b Hb Hsame; [exact Hb |].
  cbn [run fold_left]. apply IH; [| intros e' He'; apply Hsame; now right].
  specialize (Hsame e (or_introl eq_refl)).
  destruct e as [n j | n c | n l | n l | client]; cbn [step event_network] in *.
  - now rewrite render_selectedChainId.
  - destruct Hsame as [Hn | Hn]; [discriminate |]. injection Hn as ->.
    rewrite setChain_selected.
    destruct (includes _ _) eqn:Hin; [| exact Hb].
    left. now apply includes_In.
  - exact Hb.
  - unfold removeListener. destruct (eventListenersRef b !! n); exact Hb.
  - unfold disconnect.
    destruct client as [c|]; [destruct (logout c) as [[|]|] |]; exact Hb.
Qed.

Lemma X3_witness :
  let b := started scenario mainnet empty_storage (embedded_inputs "0xA")
             [SetChain mainnet (ChainIdString "0x2105");
              Render mainnet (embedded_inputs "0xA");
              SetChain mainnet (ChainIdNumber (Num 10))] in
  selectedChainId b = Num 8453
  /\ (In (selectedChainId b) (availableChainIds scenario mainnet)
      \/ selectedChainId b = defaultChainId scenario mainnet).
Proof.
  split; [reflexivity |].
  apply (X3_selected_chain_available_or_default scenario mainnet empty_storage
           (embedded_inputs "0xA")).
  intros e [<- | [<- | [<- | []]]]; right; reflexivity.
Defined.

(** When the parent re-renders the bridge with another [networkId], the
    selection of the mount stays: here chain 1 of mainnet, which testnet
    does not offer and which is not its default chain. *)
Lemma selection_survives_network_change :
  let b := started two_networks mainnet empty_storage (embedded_inputs "0xA")
             [Render testnet (embedded_inputs "0xA")] in
  selectedChainId b = Num 1
  /\ availableChainIds two_networks testnet = [Num 421614]
  /\ defaultChainId two_networks testnet = Num 421614.
Proof. repeat split; reflexivity. Qed.

(** X4. When the available-chain list starts with a usable chain id (not
    0, not NaN), the default chain is an entry of the list, whatever
    VITE_DEFAULT_CHAIN says. *)
Theorem X4_default_chain_available (ext : Externals) (net : NetworkId)
    (first : number) (rest : list number) :
  availableChainIds ext net = first :: rest ->
  truthy first = true ->
  In (defaultChainId ext net) (availableChainIds ext net).
Proof.
  intros Hav Ht. unfold defaultChainId.
  destruct (includes (availableChainIds ext net) _) eqn:Hin.
  - now apply includes_In.
  - rewrite Hav, Ht. now left.
Qed.

Lemma X4_witness :
  In (defaultChainId scenario mainnet) (availableChainIds scenario mainnet).
Proof.
  apply (X4_default_chain_available scenario mainnet (Num 1) [Num 8453]); reflexivity.
Defined.

(** X5. [setChain] always leaves the settingChain flag cleared, also when
    it throws, and by itself changes nothing the provider shim reads: every
    request is answered as before until the next render. *)
Theorem X5_setChain_leaves_shim_alone (ext : Externals) (net : NetworkId)
    (c : ChainIdOption) (b : Bridge) (p : Provider) (method : string)
    (params : option (list value)) :
  settingChain (snd (setChain ext net c b)) = false
  /\ request ext p method params (snd (setChain ext net c b))
     = request ext p method params b.
Proof.
  split.
  - unfold setChain. destruct (includes _ _); reflexivity.
  - unfold request.
    destruct (setChain_frame ext net c b) as (_ & _ & _ & _ & _ & -> & _).
    reflexivity.
Qed.

(** A wallet resolved from the embedded account is on the selected chain. *)
Lemma snapshot_chain_embedded (ext : Externals) (net : NetworkId) (i : Inputs)
    (selected : number) (address : string) :
  truthy_opt (hasEvm (account i)) = false ->
  hasSolana (account i) = None ->
  res_address (resolve i selected) = Some address ->
  truthy_string address = true ->
  chainId (snapshot ext net i (resolve i selected)) = selected.
Proof.
  intros Hevm Hsol. cbn [snapshot chainId]. unfold resolve. rewrite Hevm, Hsol.
  destruct (hasEmbedded (account i)); [| discriminate].
  destruct (embedded (account i)) as [e|]; [| discriminate].
  unfold approach3, approach2, approach1, unresolved.
  repeat match goal with
         | |- context [if ?c then _ else _] => destruct c; cbn
         | |- context [match ?x with _ => _ end] => destruct x; cbn
         end; intros; try reflexivity; try discriminate.
Qed.

(** X6. For every available chain id: after [setChain] and the render
    that follows it (whatever its [networkId]), with a wallet resolved from
    the embedded account and a signer at hand, [eth_chainId] on the shim
    returns that id in 0x-prefixed hexadecimal. *)
Theorem X6_setChain_then_eth_chainId (ext : Externals) (net net' : NetworkId)
    (c : ChainIdOption) (i : Inputs) (b : Bridge) (w : WalletState)
    (st : ProviderState) (sg : ParaEthersSigner) (params : option (list value)) :
  In (requested_chain c) (availableChainIds ext net) ->
  truthy_opt (hasEvm (account i)) = false ->
  hasSolana (account i) = None ->
  fst (walletState ext net' i (snd (setChain ext net c b))) = Some w ->
  let b' := run ext [SetChain net c; Render net' i] b in
  providerStateRef b' = Some st -> signer st = Some sg ->
  request ext (provider w) "eth_chainId" params b'
  = Ok (VString ("0x" +:+ toString16 (requested_chain c))).
Proof.
  intros Hin Hevm Hsol Hw b' Hst Hsg. subst b'. cbn [run fold_left step] in *.
  unfold render in *.
  destruct (useEffect_frame ext (snd (walletState ext net' i (snd (setChain ext net c b)))))
    as (_ & _ & _ & Hq & _).
  rewrite Hq in Hst.
  destruct (walletState ext net' i (snd (setChain ext net c b))) as [[w'|] b2] eqn:E;
    cbn [fst snd] in *; [| discriminate].
  injection Hw as ->.
  destruct (walletState_resolved ext net' i _ b2 w E)
    as (address & Ha & Ht & _ & _ & Hsnap & _).
  rewrite Hsnap in Hst. injection Hst as <-.
  unfold request. rewrite Hq, Hsnap, Hsg.
  rewrite (snapshot_chain_embedded ext net' i _ address Hevm Hsol Ha Ht).
  rewrite setChain_selected. apply includes_In in Hin. rewrite Hin. reflexivity.
Qed.

Lemma X6_witness :
  let i := embedded_inputs "0xA" in
  let b := started scenario mainnet empty_storage i [] in
  request scenario {| handle := 0; closure_address := "0xA" |} "eth_chainId" None
    (run scenario [SetChain mainnet (ChainIdNumber (Num 8453)); Render mainnet i] b)
  = Ok (VString "0x2105").
Proof.
  intros i b.
  eapply (X6_setChain_then_eth_chainId scenario mainnet mainnet (ChainIdNumber (Num 8453)) i b
            {| label := "Para Embedded"; icon := "";
               provider := {| handle := 0; closure_address := "0xA" |};
               accounts := ["0xA"]; chains := [(ChainNumber (Num 8453), evm)] |}).
  - right. left. reflexivity.
  - reflexivity.
  - reflexivity.
  - reflexivity.
  - vm_compute. reflexivity.
  - reflexivity.
Defined.

(** ** The connected chain and the namespace *)

(** X7. The [namespace] memo always equals the namespace of the
    [connectedChain] memo: both are null together. *)
Theorem X7_namespace_of_connectedChain (a : Account) (selected : number) :
  namespace a = option_map snd (connectedChain a selected).
Proof.
  unfold namespace, connectedChain.
  destruct (truthy_opt (hasEvm a)); [reflexivity |].
  destruct (hasSolana a); [reflexivity |].
  destruct (embedded a) as [e|]; [| reflexivity].
  destruct (_ && _); [| reflexivity].
  destruct (List.find _ _); reflexivity.
Qed.

(** X8. Whenever the wallet state and the connected chain are both
    non-null they name the same chain id; and a wallet resolved from an
    externally connected account always has a connected chain, equal to
    the single chain entry of the wallet state. *)
Theorem X8_connectedChain_agrees_with_wallet (ext : Externals) (net : NetworkId)
    (i : Inputs) (b b2 : Bridge) (w : WalletState) :
  walletState ext net i b = (Some w, b2) ->
  (forall c, connectedChain (account i) (selectedChainId b) = Some c ->
     List.map fst (chains w) = [fst c])
  /\ (truthy_opt (hasEvm (account i)) = true \/ is_Some (hasSolana (account i)) ->
      exists c, connectedChain (account i) (selectedChainId b) = Some c
                /\ chains w = [c]).
Proof.
  intros Hw.
  destruct (walletState_resolved ext net i b b2 w Hw)
    as (address & Ha & Ht & _ & Hch & _).
  rewrite Hch. clear Hw Hch. revert Ha.
  unfold connectedChain, resolve.
  destruct (truthy_opt (hasEvm (account i))) eqn:Hevm.
  - intros _. split.
    + now intros c [= <-].
    + intros _. eexists. split; reflexivity.
  - destruct (hasSolana (account i)) as [pk|] eqn:Hsol.
    + intros _. split.
      * now intros c [= <-].
      * intros _. eexists. split; reflexivity.
    + intros Ha. split.
      * intros c Hc.
        destruct (hasEmbedded (account i)); [| discriminate].
        destruct (embedded (account i)) as [e|]; [| discriminate].
        destruct (_ && _); [| discriminate].
        destruct (List.find _ _); [| discriminate].
        injection Hc as <-. revert Ha Ht.
        unfold approach3, approach2, approach1, unresolved.
        repeat match goal with
               | |- context [if ?c then _ else _] => destruct c; cbn
               | |- context [match ?x with _ => _ end] => destruct x; cbn
               end; intros; try reflexivity; try discriminate.
      * intros [H | [x H]]; discriminate.
Qed.

Lemma X8_witness :
  let i := external_evm_inputs "0xE" in
  let b := mount scenario mainnet empty_storage in
  exists w c,
    fst (walletState scenario mainnet i b) = Some w
    /\ connectedChain (account i) (selectedChainId b) = Some c
    /\ chains w = [c].
Proof.
  intros i b.
  assert (exists w, fst (walletState scenario mainnet i b) = Some w) as [w Hw]
    by (eexists; reflexivity).
  assert (Hr : walletState scenario mainnet i b
               = (Some w, snd (walletState scenario mainnet i b)))
    by (rewrite <- Hw; apply surjective_pairing).
  destruct (proj2 (X8_connectedChain_agrees_with_wallet scenario mainnet i b _ w Hr)
              (or_introl eq_refl)) as (c & Hc & Hch).
  exists w, c. repeat split; assumption.
Defined.

(** ** The RPC endpoint table *)

(** X9. A chain id listed in the mainnet table gets its mainnet endpoint on
    both networks (the two tables share no id, and the testnet lookup
    falls back to the mainnet table); an id in neither table gets the
    default Ethereum endpoint; the URL is never empty. *)
Theorem X9_getRpcUrl_fallbacks (net : NetworkId) (id : number) :
  (forall url, mainnetRpcUrls id = Some url -> getRpcUrl net id = url)
  /\ (mainnetRpcUrls id = None -> testnetRpcUrls id = None ->
      getRpcUrl net id = "https://ethereum-rpc.publicnode.com")
  /\ truthy_string (getRpcUrl net id) = true.
Proof.
  unfold getRpcUrl.
  assert (Hdis : forall url, mainnetRpcUrls id = Some url -> testnetRpcUrls id = None).
  { unfold mainnetRpcUrls, testnetRpcUrls.
    destruct id as [z|]; [| discriminate].
    intros url.
    repeat match goal with
           | |- context [match ?x with _ => _ end] => destruct x; try discriminate
           end; reflexivity. }
  assert (Hne1 : forall url, mainnetRpcUrls id = Some url -> truthy_string url = true).
  { unfold mainnetRpcUrls. intros url. destruct id as [z|]; [| discriminate].
    repeat match goal with
           | |- context [match ?x with _ => _ end] => destruct x; try discriminate
           end; intros [= <-]; reflexivity. }
  assert (Hne2 : forall url, testnetRpcUrls id = Some url -> truthy_string url = true).
  { unfold testnetRpcUrls. intros url. destruct id as [z|]; [| discriminate].
    repeat match goal with
           | |- context [match ?x with _ => _ end] => destruct x; try discriminate
           end; intros [= <-]; reflexivity. }
  split; [| split].
  - intros url Hm. destruct net; [now rewrite Hm |].
    now rewrite (Hdis url Hm), Hm.
  - intros Hm Ht. destruct net; now rewrite ?Ht, Hm.
  - destruct net.
    + destruct (mainnetRpcUrls id) as [url|] eqn:Hm; [now apply Hne1 | reflexivity].
    + destruct (testnetRpcUrls id) as [url|] eqn:Ht; [now apply Hne2 |].
      destruct (mainnetRpcUrls id) as [url|] eqn:Hm; [now apply Hne1 | reflexivity].
Qed.

Lemma X9_witness :
  getRpcUrl testnet (Num 8453) = "https://mainnet.base.org"
  /\ getRpcUrl testnet (Num 4242) = "https://ethereum-rpc.publicnode.com".
Proof.
  destruct (X9_getRpcUrl_fallbacks testnet (Num 8453)) as (H1 & _ & _).
  destruct (X9_getRpcUrl_fallbacks testnet (Num 4242)) as (_ & H2 & _).
  split; [apply H1; reflexivity | apply H2; reflexivity].
Defined.

(** ** The listener registry *)

Lemma registered_on (name' name : string) (l : Listener) (b : Bridge) :
  registered name' (on name l b)
  = if decide (name = name') then set_add l (registered name b)
    else registered name' b.
Proof.
  unfold registered, on. cbn [eventListenersRef set_eventListenersRef].
  rewrite lookup_alter. case_decide as Hn; [subst name' |].
  - destruct (eventListenersRef b !! name) as [ls|] eqn:E.
    + now rewrite E.
    + now rewrite lookup_insert_eq.
  - destruct (eventListenersRef b !! name) as [ls|] eqn:E; [reflexivity |].
    now rewrite lookup_insert_ne.
Qed.

Lemma registered_removeListener (name' name : string) (l : Listener) (b : Bridge) :
  registered name' (removeListener name l b)
  = if decide (name = name') then set_delete l (registered name b)
    else registered name' b.
Proof.
  unfold registered, removeListener.
  destruct (eventListenersRef b !! name) as [ls|] eqn:E.
  - cbn [eventListenersRef set_eventListenersRef]. rewrite lookup_alter.
    case_decide as Hn; [subst name'; now rewrite E | reflexivity].
  - case_decide as Hn; [subst name'; now rewrite E | reflexivity].
Qed.

Lemma set_add_NoDup (l : Listener) (s : list Listener) :
  NoDup s -> NoDup (set_add l s).
Proof.
  intros Hs. unfold set_add. case_bool_decide as Hin; [exact Hs |].
  apply NoDup_app. split; [exact Hs |]. split.
  - intros x Hx Hx'. apply list_elem_of_singleton in Hx'. now subst.
  - apply NoDup_singleton.
Qed.

Lemma set_delete_NoDup (l : Listener) (s : list Listener) :
  NoDup s -> NoDup (set_delete l s).
Proof.
  intros Hs. unfold set_delete.
  apply NoDup_ListNoDup, List.NoDup_filter, NoDup_ListNoDup, Hs.
Qed.

Lemma render_registered (ext : Externals) (net : NetworkId) (i : Inputs)
    (b : Bridge) (name : string) :
  registered name (render ext net i b) = registered name b.
Proof.
  unfold registered, render.
  destruct (useEffect_frame ext (snd (walletState ext net i b))) as (_ & -> & _).
  destruct (walletState_frame ext net i b) as (_ & -> & _). reflexivity.
Qed.

(** X10. In every state of a mounted bridge no listener is registered
    twice for an event, so one chain change calls each listener at most
    once. *)
Theorem X10_listeners_registered_once (ext : Externals) (net : NetworkId)
    (ls : Storage) (i : Inputs) (events : list Event) (name : string) :
  NoDup (registered name (started ext net ls i events)).
Proof.
  unfold started.
  assert (H0 : forall n, NoDup (registered n (render ext net i (mount ext net ls)))).
  { intros n. rewrite render_registered. unfold registered, mount. cbn.
    rewrite lookup_empty. apply NoDup_nil_2. }
  revert name. revert H0. generalize (render ext net i (mount ext net ls)).
  induction events as [|e rest IH]; intros b Hb name; [apply Hb |].
  cbn [run fold_left]. apply IH. clear name. intros n.
  destruct e as [m j | m c | k l | k l | client]; cbn [step].
  - rewrite render_registered. apply Hb.
  - unfold registered.
    destruct (setChain_frame ext m c b) as (-> & _). apply Hb.
  - rewrite registered_on. case_decide; [apply set_add_NoDup |]; apply Hb.
  - rewrite registered_removeListener.
    case_decide; [apply set_delete_NoDup |]; apply Hb.
  - unfold registered, disconnect.
    destruct client as [c|]; [destruct (logout c) as [[|]|] |]; apply Hb.
Qed.

(** X11. The registry of one event behaves as a set: [on] registers the
    listener, and does nothing when it is already registered;
    [removeListener] unregisters it and keeps every other listener; neither
    touches the listeners of another event. *)
Theorem X11_listener_registry_is_a_set (name : string) (l : Listener) (b : Bridge) :
  (l ∈ registered name (on name l b))
  /\ ((l ∈ registered name b) -> registered name (on name l b) = registered name b)
  /\ (l ∉ registered name (removeListener name l b))
  /\ (forall l', l' <> l ->
        ((l' ∈ registered name (removeListener name l b)) <-> (l' ∈ registered name b)))
  /\ (forall other, other <> name ->
        registered other (on name l b) = registered other b
        /\ registered other (removeListener name l b) = registered other b).
Proof.
  rewrite registered_on, registered_removeListener.
  rewrite !decide_True by reflexivity.
  unfold set_add, set_delete. repeat split.
  - case_bool_decide as Hin; [exact Hin |].
    apply elem_of_app. right. now apply list_elem_of_singleton.
  - intros Hin. now rewrite bool_decide_eq_true_2.
  - intros Hin. apply list_elem_of_In, List.filter_In in Hin as [_ Hne].
    apply negb_true_iff, bool_decide_eq_false_1 in Hne. now apply Hne.
  - intros Hin. apply list_elem_of_In, List.filter_In in Hin as [Hin _].
    now apply list_elem_of_In.
  - intros Hin. apply list_elem_of_In, List.filter_In. split.
    + now apply list_elem_of_In.
    + apply negb_true_iff. now apply bool_decide_eq_false_2.
  - rewrite registered_on. now rewrite decide_False by congruence.
  - rewrite registered_removeListener. now rewrite decide_False by congruence.
Qed.

(** ** The two refs of the shim *)

Lemma walletState_refs (ext : Externals) (net : NetworkId) (i : Inputs) (b : Bridge) :
  (stableProviderRef b = None <-> providerStateRef b = None) ->
  (stableProviderRef (snd (walletState ext net i b)) = None
   <-> providerStateRef (snd (walletState ext net i b)) = None).
Proof.
  intros Hb. destruct (walletState ext net i b) as [[w|] b2] eqn:Hw; cbn [snd].
  - destruct (walletState_resolved ext net i b b2 w Hw)
      as (address & _ & _ & _ & _ & Hs & Hr & _).
    rewrite Hs, Hr. split; discriminate.
  - now rewrite (walletState_null ext net i b b2 Hw).
Qed.

(** X12. In every state of a mounted bridge the provider reference and the
    snapshot reference are set together and cleared together; so the
    requests the shim answers by itself (eth_accounts, eth_requestAccounts,
    eth_chainId), made on the provider the bridge currently holds, never
    fail with 'Provider state not initialized'. *)
Theorem X12_refs_set_and_cleared_together (ext : Externals) (net : NetworkId)
    (ls : Storage) (i : Inputs) (events : list Event) :
  let b := started ext net ls i events in
  (stableProviderRef b = None <-> providerStateRef b = None)
  /\ (forall p method params,
        stableProviderRef b = Some p ->
        is_method method ["eth_accounts"; "eth_requestAccounts"; "eth_chainId"] = true ->
        request ext p method params b <> Throw "Provider state not initialized").
Proof.
  cbv zeta.
  assert (Hinv : stableProviderRef (started ext net ls i events) = None
                 <-> providerStateRef (started ext net ls i events) = None).
  { unfold started.
    assert (Hrender : forall m j b0,
              (stableProviderRef b0 = None <-> providerStateRef b0 = None) ->
              (stableProviderRef (render ext m j b0) = None
               <-> providerStateRef (render ext m j b0) = None)).
    { intros m j b0 H0. unfold render.
      destruct (useEffect_frame ext (snd (walletState ext m j b0)))
        as (_ & _ & -> & -> & _).
      now apply walletState_refs. }
    assert (H0 : stableProviderRef (render ext net i (mount ext net ls)) = None
                 <-> providerStateRef (render ext net i (mount ext net ls)) = None).
    { apply Hrender. cbn. tauto. }
    revert H0. generalize (render ext net i (mount ext net ls)).
    induction events as [|e rest IH]; intros b Hb; [exact Hb |].
    cbn [run fold_left]. apply IH.
    destruct e as [m j | m c | k l | k l | client]; cbn [step].
    - now apply Hrender.
    - destruct (setChain_frame ext m c b) as (_ & _ & _ & _ & -> & -> & _).
      exact Hb.
    - exact Hb.
    - unfold removeListener. destruct (eventListenersRef b !! k); exact Hb.
    - unfold disconnect.
      destruct client as [c|]; [destruct (logout c) as [[|]|] |]; cbn;
        first [exact Hb | tauto]. }
  split; [exact Hinv |].
  intros p method params Hp Hm.
  assert (Hne : providerStateRef (started ext net ls i events) <> None).
  { intros H. apply Hinv in H. congruence. }
  unfold request.
  destruct (providerStateRef _) as [st|]; [| congruence].
  destruct (signer st); [| discriminate].
  apply is_method_elem in Hm. cbn [In] in Hm.
  destruct Hm as [<- | [<- | [<- | []]]]; discriminate.
Qed.

Lemma X11_witness :
  let b := on "chainChanged" 7%nat (mount scenario mainnet empty_storage) in
  registered "chainChanged" (on "chainChanged" 7%nat b) = registered "chainChanged" b.
Proof.
  intros b.
  apply (proj1 (proj2 (X11_listener_registry_is_a_set "chainChanged" 7%nat b))).
  vm_compute. apply list_elem_of_here.
Defined.

Lemma X12_witness :
  request scenario {| handle := 0; closure_address := "0xA" |} "eth_chainId" None
    (started scenario mainnet empty_storage (embedded_inputs "0xA") [])
  <> Throw "Provider state not initialized".
Proof.
  apply (proj2 (X12_refs_set_and_cleared_together scenario mainnet empty_storage
                  (embedded_inputs "0xA") [])); reflexivity.
Defined.

(** A snapshot held after some events was there before them, or was
    written by the recomputation of one of their renders. *)
Lemma run_snapshot_written (ext : Externals) (events : list Event) (b : Bridge)
    (st : ProviderState) :
  providerStateRef (run ext events b) = Some st ->
  providerStateRef b = Some st
  \/ exists n j r, In (Render n j) events /\ st = snapshot ext n j r.
Proof.
  revert b. induction events as [|e rest IH]; intros b Hst; [now left |].
  change (run ext (e :: rest) b) with (run ext rest (step ext e b)) in Hst.
  destruct (IH _ Hst) as [Hnow | (n & j & r & Hin & ->)];
    [| right; exists n, j, r; split; [now right | reflexivity]].
  destruct e as [m j | m c | k l | k l | client]; cbn [step] in Hnow.
  - unfold render in Hnow.
    destruct (useEffect_frame ext (snd (walletState ext m j b))) as (_ & _ & _ & Hq & _).
    rewrite Hq in Hnow.
    destruct (walletState ext m j b) as [[w|] b2] eqn:Hw; cbn [snd] in Hnow.
    + destruct (walletState_resolved ext m j b b2 w Hw)
        as (address & _ & _ & _ & _ & Hs & _).
      rewrite Hs in Hnow. injection Hnow as <-.
      right. eexists m, j, _. split; [now left | reflexivity].
    + rewrite (walletState_null ext m j b b2 Hw) in Hnow. now left.
  - destruct (setChain_frame ext m c b) as (_ & _ & _ & _ & _ & Hq & _).
    rewrite Hq in Hnow. now left.
  - now left.
  - unfold removeListener in Hnow. destruct (eventListenersRef b !! k); now left.
  - unfold disconnect in Hnow.
    destruct client as [c|]; [destruct (logout c) as [[|]|] |]; cbn in Hnow;
      first [now left | discriminate].
Qed.

(** Every snapshot a mounted bridge holds was written by a recomputation,
    in the first render or in a later one. *)
Lemma started_snapshot_written (ext : Externals) (net : NetworkId) (ls : Storage)
    (i : Inputs) (events : list Event) (st : ProviderState) :
  providerStateRef (started ext net ls i events) = Some st ->
  exists n j r,
    (n = net \/ exists k, In (Render n k) events) /\ st = snapshot ext n j r.
Proof.
  unfold started. intros Hst.
  destruct (run_snapshot_written ext events _ st Hst)
    as [Hfirst | (n & j & r & Hin & ->)].
  - unfold render in Hfirst.
    destruct (useEffect_frame ext (snd (walletState ext net i (mount ext net ls))))
      as (_ & _ & _ & Hq & _).
    rewrite Hq in Hfirst.
    destruct (walletState ext net i (mount ext net ls)) as [[w|] b2] eqn:Hw;
      cbn [snd] in Hfirst.
    + destruct (walletState_resolved ext net i _ b2 w Hw)
        as (address & _ & _ & _ & _ & Hs & _).
      rewrite Hs in Hfirst. injection Hfirst as <-.
      eexists net, i, _. split; [now left | reflexivity].
    + rewrite (walletState_null ext net i _ b2 Hw) in Hfirst. discriminate.
  - exists n, j, r. split; [right; now exists j | reflexivity].
Qed.

(** X13. Every snapshot a mounted bridge holds is consistent: its RPC URL
    is the endpoint of its chain id, on the network of the render that
    wrote it (the network of the mount, as long as the [networkId] prop
    stays the same), its RPC client was built from that URL and chain id,
    and its signer, when there is one, is bound to that client. *)
Theorem X13_snapshot_consistent (ext : Externals) (net : NetworkId) (ls : Storage)
    (i : Inputs) (events : list Event) (st : ProviderState) :
  providerStateRef (started ext net ls i events) = Some st ->
  (same_network net events -> rpcUrl st = getRpcUrl net (chainId st))
  /\ (exists n, (n = net \/ exists k, In (Render n k) events)
                /\ rpcUrl st = getRpcUrl n (chainId st))
  /\ ethersProvider st = {| provider_url := rpcUrl st; provider_network := chainId st |}
  /\ (forall sg, signer st = Some sg -> signer_provider sg = ethersProvider st).
Proof.
  intros Hst.
  destruct (started_snapshot_written ext net ls i events st Hst) as (n & j & r & Hn & ->).
  split.
  { intros Hsame. destruct Hn as [-> | [k Hin]]; [reflexivity |].
    destruct (Hsame _ Hin) as [Hno | Hyes]; [discriminate |].
    cbn in Hyes. injection Hyes as ->. reflexivity. }
  split; [exists n; split; [exact Hn | reflexivity] |].
  split; [reflexivity |].
  intros sg. cbn. destruct (paraClient j); [| discriminate].
  destruct (_ && _); [| discriminate]. now intros [= <-].
Qed.

Lemma X13_witness :
  let events := [SetChain mainnet (ChainIdNumber (Num 8453));
                 Render mainnet (embedded_inputs "0xA")] in
  let b := started scenario mainnet empty_storage (embedded_inputs "0xA") events in
  exists st, providerStateRef b = Some st /\ rpcUrl st = "https://mainnet.base.org".
Proof.
  intros events b.
  assert (exists st, providerStateRef b = Some st) as [st Hst] by (eexists; reflexivity).
  exists st. split; [exact Hst |].
  destruct (X13_snapshot_consistent scenario mainnet empty_storage (embedded_inputs "0xA")
              events st Hst)
    as (Hurl & _).
  rewrite Hurl.
  - vm_compute in Hst. injection Hst as <-. reflexivity.
  - intros e [<- | [<- | []]]; right; reflexivity.
Defined.

(** ** Signature normalisation in general *)

Lemma low_recovery_bytes :
  forallb (fun k =>
    match padStart 2 "0" (toString16 (Num (Z.of_nat k + 27))) with
    | String e1 (String e2 EmptyString) =>
        match digit_value e1, digit_value e2 with
        | Some v1, Some v2 => 16 * v1 + v2 =? Z.of_nat k + 27
        | _, _ => false
        end
    | _ => false
    end) (seq 0 27) = true.
Proof. vm_compute. reflexivity. Qed.

(** X14. For any signature whose last two characters are hexadecimal
    digits, the normalisation keeps everything before them and the length,
    and ends in a recovery byte of at least 27: the byte plus 27 when it
    was below 27, the byte itself otherwise.  Normalising twice changes
    nothing more. *)
Theorem X14_normalize_v_shape (body : string) (c1 c2 : ascii) (d1 d2 : Z) :
  digit_value c1 = Some d1 -> digit_value c2 = Some d2 ->
  exists e1 e2 v1 v2,
    normalize_v (body +:+ String c1 (String c2 "")) = body +:+ String e1 (String e2 "")
    /\ digit_value e1 = Some v1 /\ digit_value e2 = Some v2
    /\ 27 <= 16 * v1 + v2
    /\ 16 * v1 + v2 = (if 16 * d1 + d2 <? 27 then 16 * d1 + d2 + 27 else 16 * d1 + d2)
    /\ normalize_v (body +:+ String e1 (String e2 "")) = body +:+ String e1 (String e2 "").
Proof.
  intros H1 H2.
  pose proof (parseInt_hex_pair c1 c2 d1 d2 H1 H2) as Hv.
  assert (Hr1 : 0 <= d1 < 16).
  { revert H1. unfold digit_value.
    repeat match goal with
           | |- context [if ?c then _ else _] => destruct c eqn:?
           end; intros [= <-]; lia. }
  assert (Hr2 : 0 <= d2 < 16).
  { revert H2. unfold digit_value.
    repeat match goal with
           | |- context [if ?c then _ else _] => destruct c eqn:?
           end; intros [= <-]; lia. }
  destruct (Z.ltb_spec (16 * d1 + d2) 27) as [Hlow | Hhigh].
  - rewrite (normalize_v_low body c1 c2 _ Hv Hlow).
    pose proof low_recovery_bytes as Hall. rewrite forallb_forall in Hall.
    specialize (Hall (Z.to_nat (16 * d1 + d2))).
    rewrite Z2Nat.id in Hall by lia.
    specialize (Hall ltac:(apply in_seq; lia)).
    destruct (padStart 2 "0" (toString16 (Num (16 * d1 + d2 + 27))))
      as [|e1 [|e2 [|]]]; try discriminate.
    destruct (digit_value e1) as [v1|] eqn:He1; [| discriminate].
    destruct (digit_value e2) as [v2|] eqn:He2; [| discriminate].
    apply Z.eqb_eq in Hall.
    exists e1, e2, v1, v2. repeat split; try assumption; try lia.
    apply normalize_v_high. rewrite (parseInt_hex_pair e1 e2 v1 v2 He1 He2).
    cbn [lt]. apply Z.ltb_ge. lia.
  - exists c1, c2, d1, d2.
    assert (Hhi : normalize_v (body +:+ String c1 (String c2 ""))
                  = body +:+ String c1 (String c2 "")).
    { apply normalize_v_high. rewrite Hv. cbn [lt]. now apply Z.ltb_ge. }
    repeat split; try assumption; try lia.
Qed.

Lemma X14_witness :
  exists e1 e2,
    normalize_v ("0x5e1f" +:+ "1a") = "0x5e1f" +:+ String e1 (String e2 "")
    /\ digit_value e1 = Some 3 /\ digit_value e2 = Some 5.
Proof.
  destruct (X14_normalize_v_shape "0x5e1f" "1" "a" 1 10 eq_refl eq_refl)
    as (e1 & e2 & v1 & v2 & Hn & H1 & H2 & _ & Hv & _).
  exists e1, e2. split; [exact Hn |].
  assert (Hc : normalize_v ("0x5e1f" +:+ "1a") = "0x5e1f35") by reflexivity.
  change ("0x5e1f" +:+ String "1" (String "a" "")) with ("0x5e1f" +:+ "1a") in Hn.
  rewrite Hc in Hn. injection Hn as <- <-. split; reflexivity.
Defined.

(** ** The chain registry *)

Lemma endsWith_appended (base : string) (c : ascii) :
  endsWith (base +:+ String c "") (String c "") = true.
Proof.
  unfold endsWith. rewrite string_length_app. cbn [String.length].
  replace (String.length base + 1 - 1)%nat with (String.length base) by lia.
  rewrite string_drop_app, String.eqb_refl.
  apply andb_true_iff. split; [apply Nat.leb_le; lia | reflexivity].
Qed.

Lemma slice_without_last (s : string) (c : ascii) :
  slice (s +:+ String c "") 0 (Some (-1)) = s.
Proof.
  unfold slice. rewrite string_length_app. cbn [String.length].
  cbn [Z.ltb Z.compare].
  replace (Z.of_nat (String.length s + 1) + -1) with (Z.of_nat (String.length s)) by lia.
  rewrite Z.min_l by lia. rewrite Z.max_l by lia.
  rewrite Z.sub_0_r, Nat2Z.id. cbn [Z.to_nat string_drop].
  apply string_take_app.
Qed.

(** X15. An explorer URL configured with or without one trailing slash
    gives the same links: the base, "/address/" or "/tx/", and the
    argument.  Without a configured explorer both links are "#". *)
Theorem X15_explorer_links (n : ChainRegistry.Network) (c : ChainRegistry.Chain)
    (base address txHash : string) :
  ChainRegistry.chain n = Some c ->
  (ChainRegistry.blockExplorers c = None ->
     ChainRegistry.getAddressExplorerUrl n address = "#"
     /\ ChainRegistry.getTransactionExplorerUrl n txHash = "#")
  /\ (endsWith base "/" = false -> truthy_string base = true ->
      ChainRegistry.blockExplorers c = Some {| ChainRegistry.url := base |}
      \/ ChainRegistry.blockExplorers c = Some {| ChainRegistry.url := base +:+ "/" |} ->
      ChainRegistry.getAddressExplorerUrl n address = base +:+ "/address/" +:+ address
      /\ ChainRegistry.getTransactionExplorerUrl n txHash = base +:+ "/tx/" +:+ txHash).
Proof.
  intros Hc.
  unfold ChainRegistry.getAddressExplorerUrl, ChainRegistry.getTransactionExplorerUrl,
    ChainRegistry.getBaseExplorerUrl.
  rewrite Hc. split.
  - intros ->. split; reflexivity.
  - intros Hend Hne [-> | ->]; cbn [ChainRegistry.url].
    + rewrite Hend, Hne. split; reflexivity.
    + change (base +:+ "/") with (base +:+ String "/" "").
      rewrite endsWith_appended, slice_without_last, Hne. split; reflexivity.
Qed.

Lemma X15_witness :
  let c := {| ChainRegistry.id := Num 1329; ChainRegistry.name := "Sei";
              ChainRegistry.blockExplorers :=
                Some {| ChainRegistry.url := "https://seitrace.com/" |} |} in
  let n := {| ChainRegistry.isActive := true; ChainRegistry.iconUrl := "";
              ChainRegistry.displayName := Some "Sei";
              ChainRegistry.chain := Some c |} in
  ChainRegistry.getAddressExplorerUrl n "0xA" = "https://seitrace.com/address/0xA".
Proof.
  intros c n.
  apply (proj2 (X15_explorer_links n c "https://seitrace.com" "0xA" "0xB" eq_refl));
    [reflexivity | reflexivity | right; reflexivity].
Defined.

Lemma fold_networks_Throw (networks : list ChainRegistry.Network) (e : string) :
  fold_left ChainRegistry.register networks (Throw e) = Throw e.
Proof. induction networks as [|x l IH]; [reflexivity | exact IH]. Qed.

Lemma find_last (A : Type) (f : A -> bool) (l : list A) (x : A) :
  List.find f (l ++ [x])
  = match List.find f l with
    | Some y => Some y
    | None => if f x then Some x else None
    end.
Proof.
  induction l as [|y l IH]; cbn [List.find app]; [reflexivity |].
  destruct (f y); [reflexivity | exact IH].
Qed.

(** What the fold leaves under the key of a numeric chain id. *)
Lemma fold_networks_lookup (networks : list ChainRegistry.Network)
    (m0 m : gmap string ChainRegistry.Network) (n : number) :
  fold_left ChainRegistry.register networks (Ok m0) = Ok m ->
  m !! toString10 n
  = match List.find (ChainRegistry.has_chain_id n) (rev networks) with
    | Some x => Some x
    | None => m0 !! toString10 n
    end.
Proof.
  revert m0. induction networks as [|x l IH]; intros m0; cbn [fold_left rev].
  - now intros [= <-].
  - unfold ChainRegistry.register at 2, ChainRegistry.chainId.
    destruct (ChainRegistry.chain x) as [c|] eqn:Hc.
    + intros H. rewrite (IH _ H), find_last.
      destruct (List.find _ (rev l)); [reflexivity |].
      unfold ChainRegistry.has_chain_id. rewrite Hc.
      case_bool_decide as Hid.
      * subst n. apply lookup_insert_eq.
      * apply lookup_insert_ne. intros Heq. apply Hid. now apply toString10_inj.
    + rewrite fold_networks_Throw. discriminate.
Qed.

(** The key of a number is never a property inherited from
    [Object.prototype]. *)
Lemma numeric_key_not_inherited (n : number) :
  existsb (String.eqb (toString10 n)) ChainRegistry.object_prototype_keys = false.
Proof.
  destruct (existsb _ _) eqn:E; [| reflexivity].
  apply existsb_exists in E as (k & Hin & Heq). apply String.eqb_eq in Heq.
  pose proof (parseInt_toString10 n) as Hp. rewrite Heq in Hp.
  cbn [ChainRegistry.object_prototype_keys In] in Hin.
  repeat (destruct Hin as [<- | Hin];
          [vm_compute in Hp; subst n; discriminate |]).
  destruct Hin.
Qed.

(** Lookup of a numeric chain id in a registry built from a list. *)
Lemma registry_lookup_numeric (networks : list ChainRegistry.Network)
    (m : gmap string ChainRegistry.Network) (n : number) :
  ChainRegistry.networksMap networks = Ok m ->
  ChainRegistry.getNetworkByChainId m (ChainNumber n)
  = match List.find (ChainRegistry.has_chain_id n) (rev networks) with
    | Some x => ChainRegistry.Own x
    | None => ChainRegistry.Absent
    end
  /\ exists nm,
       ChainRegistry.getChainNameByChainId m (ChainNumber n) = Ok nm
       /\ truthy_string nm = true
       /\ (List.find (ChainRegistry.has_chain_id n) (rev networks) = None ->
           nm = "Chain " +:+ toString10 n).
Proof.
  intros Hm. pose proof (fold_networks_lookup networks ∅ m n Hm) as Hl.
  rewrite lookup_empty in Hl.
  assert (Hget : ChainRegistry.getNetworkByChainId m (ChainNumber n)
                 = match List.find (ChainRegistry.has_chain_id n) (rev networks) with
                   | Some x => ChainRegistry.Own x
                   | None => ChainRegistry.Absent
                   end).
  { unfold ChainRegistry.getNetworkByChainId. cbn [ChainRegistry.property_key].
    rewrite Hl, numeric_key_not_inherited.
    destruct (List.find _ _); reflexivity. }
  split; [exact Hget |].
  unfold ChainRegistry.getChainNameByChainId. rewrite Hget.
  destruct (List.find _ _) as [x|] eqn:Hf.
  - apply List.find_some in Hf as [_ Hid].
    unfold ChainRegistry.has_chain_id in Hid. unfold ChainRegistry.getName.
    destruct (ChainRegistry.chain x) as [c|]; [| discriminate].
    destruct (ChainRegistry.displayName x) as [[|ch dn]|]; cbn.
    1,3: destruct (ChainRegistry.name c) as [|ch nm'] eqn:Hn; cbn;
         eexists; (split; [reflexivity |]); split; first [reflexivity | discriminate].
    eexists. split; [reflexivity |]. split; [reflexivity | discriminate].
  - eexists. split; [reflexivity |]. split; [reflexivity |]. reflexivity.
Qed.

(** X16. In the registry built from a list of networks, looking a numeric
    chain id up gives the last network of the list with that id, a later
    one overriding an earlier one, and nothing when no network has it;
    the chain name is then that network's name, or "Chain <id>", and is
    never empty. *)
Theorem X16_registry_lookup (networks : list ChainRegistry.Network)
    (m : gmap string ChainRegistry.Network) (n : number) :
  ChainRegistry.networksMap networks = Ok m ->
  ChainRegistry.getNetworkByChainId m (ChainNumber n)
  = match List.find (ChainRegistry.has_chain_id n) (rev networks) with
    | Some x => ChainRegistry.Own x
    | None => ChainRegistry.Absent
    end
  /\ exists nm,
       ChainRegistry.getChainNameByChainId m (ChainNumber n) = Ok nm
       /\ truthy_string nm = true
       /\ (List.find (ChainRegistry.has_chain_id n) (rev networks) = None ->
           nm = "Chain " +:+ toString10 n).
Proof. apply registry_lookup_numeric. Qed.

Lemma X16_witness :
  let sei := {| ChainRegistry.isActive := true; ChainRegistry.iconUrl := "";
                ChainRegistry.displayName := Some "Sei";
                ChainRegistry.chain :=
                  Some {| ChainRegistry.id := Num 1329; ChainRegistry.name := "Sei Network";
                          ChainRegistry.blockExplorers := None |} |} in
  let sei' := {| ChainRegistry.isActive := true; ChainRegistry.iconUrl := "";
                 ChainRegistry.displayName := None;
                 ChainRegistry.chain :=
                   Some {| ChainRegistry.id := Num 1329; ChainRegistry.name := "Sei v2";
                           ChainRegistry.blockExplorers := None |} |} in
  exists m,
    ChainRegistry.networksMap [sei; sei'] = Ok m
    /\ ChainRegistry.getNetworkByChainId m (ChainNumber (Num 1329)) = ChainRegistry.Own sei'
    /\ ChainRegistry.getChainNameByChainId m (ChainNumber (Num 56)) = Ok "Chain 56".
Proof.
  intros sei sei'.
  assert (exists m, ChainRegistry.networksMap [sei; sei'] = Ok m) as [m Hm]
    by (eexists; reflexivity).
  exists m. split; [exact Hm |].
  destruct (X16_registry_lookup [sei; sei'] m (Num 1329) Hm) as [H1 _].
  destruct (X16_registry_lookup [sei; sei'] m (Num 56) Hm) as (_ & nm & H2 & _ & H3).
  split; [exact H1 |]. rewrite H2, (H3 eq_refl). reflexivity.
Defined.

Lemma chains_of_spec (m : gmap string ChainRegistry.Network)
    (networks : list ChainRegistry.Network) (ids : list number) :
  ChainRegistry.networksMap networks = Ok m ->
  exists l,
    chains_of m ids = Ok l
    /\ List.map option_id l = List.map ChainNumber ids
    /\ List.Forall (fun o => option_namespace o = evm
                              /\ truthy_string (option_name o) = true) l.
Proof.
  intros Hm. induction ids as [|n ids (l & Hl & Hids & Hall)]; cbn [chains_of].
  - exists []. repeat split. constructor.
  - destruct (registry_lookup_numeric networks m n Hm) as (_ & nm & -> & Hne & _).
    rewrite Hl. eexists. split; [reflexivity |]. split.
    + cbn. now rewrite Hids.
    + constructor; [now split | exact Hall].
Qed.

(** X17. With a registry built from a list of networks, the [chains] the
    connector offers are, in order, exactly the available chain ids, each
    in the EVM namespace and with a non-empty name; and [setChain] with a
    numeric id succeeds exactly for the ids offered. *)
Theorem X17_offered_chains_are_selectable (ext : Externals) (net : NetworkId)
    (networks : list ChainRegistry.Network) (m : gmap string ChainRegistry.Network) :
  ChainRegistry.networksMap networks = Ok m ->
  exists l,
    availableChains ext net m = Ok l
    /\ List.map option_id l = List.map ChainNumber (availableChainIds ext net)
    /\ List.Forall (fun o => option_namespace o = evm
                              /\ truthy_string (option_name o) = true) l
    /\ (forall n b,
          In (ChainNumber n) (List.map option_id l)
          <-> exists v, fst (setChain ext net (ChainIdNumber n) b) = Ok v).
Proof.
  intros Hm.
  destruct (chains_of_spec m networks (availableChainIds ext net) Hm)
    as (l & Hl & Hids & Hall).
  exists l. split; [exact Hl |]. split; [exact Hids |]. split; [exact Hall |].
  intros n b. rewrite Hids, List.in_map_iff. unfold setChain. cbn [requested_chain].
  split.
  - intros (x & [= ->] & Hin). apply includes_In in Hin. rewrite Hin.
    eexists. reflexivity.
  - intros [v Hv]. destruct (includes (availableChainIds ext net) n) eqn:Hin.
    + exists n. split; [reflexivity | now apply includes_In].
    + discriminate.
Qed.

Lemma X17_witness :
  exists l,
    availableChains scenario mainnet ∅ = Ok l
    /\ List.map option_id l = [ChainNumber (Num 1); ChainNumber (Num 8453)].
Proof.
  destruct (X17_offered_chains_are_selectable scenario mainnet [] ∅ eq_refl)
    as (l & Hl & Hids & _).
  exists l. split; [exact Hl | exact Hids].
Defined.

(** ** The provider component *)

Lemma parse_after_blank_filter (l : list string) :
  List.filter (fun chain => negb (OrderlyProvider.isNaN chain))
    (List.map (fun id => parseInt id 10)
       (List.filter truthy_string (List.map trim l)))
  = List.filter (fun chain => negb (OrderlyProvider.isNaN chain))
      (List.map (fun id => parseInt (trim id) 10) l).
Proof.
  induction l as [|x l IH]; [reflexivity |].
  cbn [List.map List.filter].
  destruct (truthy_string (trim x)) eqn:Ht.
  - cbn [List.map List.filter]. now rewrite IH.
  - destruct (trim x); [| discriminate]. cbn. exact IH.
Qed.

(** X18. For a configured (non-empty) chain list, the chain ids handed to
    the trading framework are the connector's available chain ids without
    the entries that failed to parse: the two lists hold the same numbers
    in the same order, and the framework's list never holds NaN. *)
Theorem X18_parseChainIds_vs_available (ext : Externals) (net : NetworkId) (s : string) :
  match net with
  | mainnet => getRuntimeConfig ext "VITE_ORDERLY_MAINNET_CHAINS"
  | testnet => getRuntimeConfig ext "VITE_ORDERLY_TESTNET_CHAINS"
  end = Some s ->
  truthy_string s = true ->
  exists parsed,
    OrderlyProvider.parseChainIds (Some s) = Some parsed
    /\ parsed = List.filter (fun n => negb (OrderlyProvider.isNaN n))
                  (availableChainIds ext net)
    /\ ~ In NaN parsed
    /\ (forall z, In (Num z) parsed <-> In (Num z) (availableChainIds ext net)).
Proof.
  intros Hcfg Hs. eexists. split; [| split; [| split]].
  - unfold OrderlyProvider.parseChainIds. rewrite Hs. reflexivity.
  - rewrite parse_after_blank_filter. unfold availableChainIds.
    destruct net; rewrite Hcfg; reflexivity.
  - rewrite List.filter_In. intros [_ H]. discriminate.
  - intros z. rewrite parse_after_blank_filter, List.filter_In.
    unfold availableChainIds. destruct net; rewrite Hcfg; cbn; tauto.
Qed.

Lemma X18_witness :
  exists parsed,
    OrderlyProvider.parseChainIds (Some "1,8453,") = Some parsed
    /\ parsed = [Num 1; Num 8453].
Proof.
  destruct (X18_parseChainIds_vs_available trailing_comma mainnet "1,8453," eq_refl eq_refl)
    as (parsed & Hp & Heq & _).
  exists parsed. split; [exact Hp |]. rewrite Heq. reflexivity.
Defined.

(** X19. When exactly one network is disabled, [getNetworkId] returns the
    other one without reading the storage.  Otherwise it returns what
    [setNetworkId] stored last, when the storage can be read.  Outside a
    browser it is "mainnet" and [setNetworkId] does nothing. *)
Theorem X19_network_id_round_trip (env : OrderlyProvider.Environment)
    (n : NetworkId) (ls : Storage) :
  let disableMainnet := OrderlyProvider.getRuntimeConfigBoolean env "VITE_DISABLE_MAINNET" in
  let disableTestnet := OrderlyProvider.getRuntimeConfigBoolean env "VITE_DISABLE_TESTNET" in
  (disableMainnet = true -> disableTestnet = false ->
     OrderlyProvider.getNetworkId env (Some ls) = Ok "testnet")
  /\ (disableTestnet = true -> disableMainnet = false ->
     OrderlyProvider.getNetworkId env (Some ls) = Ok "mainnet")
  /\ (disableMainnet = disableTestnet ->
      forall ls', OrderlyProvider.setNetworkId n (Some ls) = Ok (Some ls') ->
                  read_fails ls = false ->
                  OrderlyProvider.getNetworkId env (Some ls') = Ok (networkId_name n))
  /\ (OrderlyProvider.getNetworkId env None = Ok "mainnet"
      /\ OrderlyProvider.setNetworkId n None = Ok None).
Proof.
  cbv zeta. unfold OrderlyProvider.getNetworkId, OrderlyProvider.setNetworkId.
  split; [| split; [| split]].
  - now intros -> ->.
  - now intros -> ->.
  - intros Heq ls'. unfold setItem, getItem.
    destruct (write_fails ls); [discriminate |]. intros [= <-] Hr. cbn.
    rewrite Hr, lookup_insert_eq.
    destruct (OrderlyProvider.getRuntimeConfigBoolean env "VITE_DISABLE_MAINNET"),
      (OrderlyProvider.getRuntimeConfigBoolean env "VITE_DISABLE_TESTNET");
      try discriminate; destruct n; reflexivity.
  - split; reflexivity.
Qed.

Lemma X19_witness :
  exists ls',
    OrderlyProvider.setNetworkId testnet (Some empty_storage) = Ok (Some ls')
    /\ OrderlyProvider.getNetworkId open_environment (Some ls') = Ok "testnet".
Proof.
  eexists. split; [reflexivity |].
  apply (proj1 (proj2 (proj2 (X19_network_id_round_trip open_environment testnet
                                empty_storage))) eq_refl _ eq_refl eq_refl).
Defined.

(** X20. With both networks enabled (or both disabled) and a working
    storage: when the stored network is one of the two known ones,
    [onChainChanged] leaves the network id equal to the kind of the chain
    (testnet or mainnet) and schedules a reload exactly when that id
    changed; when the stored value is anything else, it changes nothing. *)
Theorem X20_onChainChanged_follows_chain (env : OrderlyProvider.Environment)
    (isTestnet : bool) (ls : Storage) (current : string) :
  OrderlyProvider.getRuntimeConfigBoolean env "VITE_DISABLE_MAINNET"
  = OrderlyProvider.getRuntimeConfigBoolean env "VITE_DISABLE_TESTNET" ->
  read_fails ls = false -> write_fails ls = false ->
  OrderlyProvider.getNetworkId env (Some ls) = Ok current ->
  let kind := networkId_name (if isTestnet then testnet else mainnet) in
  exists ls' reload,
    OrderlyProvider.onChainChanged env isTestnet ls = Ok (ls', reload)
    /\ (current = "mainnet" \/ current = "testnet" ->
        OrderlyProvider.getNetworkId env (Some ls') = Ok kind
        /\ (reload = true <-> current <> kind))
    /\ (current <> "mainnet" -> current <> "testnet" -> ls' = ls /\ reload = false).
Proof.
  intros Hflags Hr Hw Hcur kind. subst kind.
  unfold OrderlyProvider.onChainChanged. rewrite Hcur.
  assert (Hset : forall n,
            exists ls', OrderlyProvider.setNetworkId n (Some ls) = Ok (Some ls')
                        /\ OrderlyProvider.getNetworkId env (Some ls') = Ok (networkId_name n)).
  { intros n. unfold OrderlyProvider.setNetworkId, setItem. rewrite Hw.
    eexists. split; [reflexivity |].
    unfold OrderlyProvider.getNetworkId, getItem. cbn. rewrite Hr, lookup_insert_eq.
    rewrite Hflags.
    destruct (OrderlyProvider.getRuntimeConfigBoolean env "VITE_DISABLE_TESTNET");
      destruct n; reflexivity. }
  destruct (String.eqb_spec current "mainnet") as [-> | Hm];
    [| destruct (String.eqb_spec current "testnet") as [-> | Ht]].
  - change (String.eqb "mainnet" "testnet") with false.
    destruct isTestnet; cbv [andb orb negb].
    + destruct (Hset testnet) as (ls' & -> & Hget). exists ls', true.
      split; [reflexivity |]. split; [| intros; congruence].
      intros _. split; [exact Hget |]. split; [discriminate | reflexivity].
    + exists ls, false.
      split; [reflexivity |]. split; [| intros; congruence].
      intros _. split; [exact Hcur |]. split; [discriminate | intros H; now elim H].
  - destruct isTestnet; cbv [andb orb negb].
    + exists ls, false.
      split; [reflexivity |]. split; [| intros; congruence].
      intros _. split; [exact Hcur |]. split; [discriminate | intros H; now elim H].
    + destruct (Hset mainnet) as (ls' & -> & Hget). exists ls', true.
      split; [reflexivity |]. split; [| intros; congruence].
      intros _. split; [exact Hget |]. split; [discriminate | reflexivity].
  - rewrite !andb_false_r. cbv [orb]. exists ls, false.
    split; [reflexivity |]. split; [| now split].
    intros [? | ?]; congruence.
Qed.

Lemma X20_witness :
  exists ls',
    OrderlyProvider.onChainChanged open_environment true empty_storage = Ok (ls', true)
    /\ OrderlyProvider.getNetworkId open_environment (Some ls') = Ok "testnet".
Proof.
  destruct (X20_onChainChanged_follows_chain open_environment true empty_storage "mainnet"
              eq_refl eq_refl eq_refl eq_refl)
    as (ls' & reload & Hrun & Hknown & _).
  destruct (Hknown (or_introl eq_refl)) as [Hget Hreload].
  exists ls'. split; [| exact Hget].
  rewrite Hrun. f_equal. f_equal. apply Hreload. discriminate.
Defined.

(** X21. With mainnet disabled and testnet enabled, a change to a mainnet
    chain always stores "mainnet" and schedules a reload, yet the network
    id stays "testnet": after the reload the same event does the same
    again. *)
Theorem X21_onChainChanged_disabled_network (env : OrderlyProvider.Environment)
    (ls : Storage) :
  OrderlyProvider.getRuntimeConfigBoolean env "VITE_DISABLE_MAINNET" = true ->
  OrderlyProvider.getRuntimeConfigBoolean env "VITE_DISABLE_TESTNET" = false ->
  write_fails ls = false ->
  exists ls',
    OrderlyProvider.onChainChanged env false ls = Ok (ls', true)
    /\ items ls' !! OrderlyProvider.NETWORK_ID_KEY = Some "mainnet"
    /\ OrderlyProvider.getNetworkId env (Some ls') = Ok "testnet"
    /\ exists ls'', OrderlyProvider.onChainChanged env false ls' = Ok (ls'', true).
Proof.
  intros Hm Ht Hw.
  unfold OrderlyProvider.onChainChanged, OrderlyProvider.getNetworkId,
    OrderlyProvider.setNetworkId, setItem.
  rewrite Hm, Ht. cbn.
  exists {| items := <[OrderlyProvider.NETWORK_ID_KEY := "mainnet"]> (items ls);
            read_fails := read_fails ls; write_fails := write_fails ls |}.
  cbn. rewrite Hw. split; [reflexivity |].
  split; [apply lookup_insert_eq |]. split; [reflexivity |].
  eexists. reflexivity.
Qed.

Lemma X21_witness :
  exists ls',
    OrderlyProvider.onChainChanged testnet_only_environment false empty_storage
    = Ok (ls', true)
    /\ OrderlyProvider.getNetworkId testnet_only_environment (Some ls') = Ok "testnet".
Proof.
  destruct (X21_onChainChanged_disabled_network testnet_only_environment empty_storage
              eq_refl eq_refl eq_refl) as (ls' & Hrun & _ & Hget & _).
  exists ls'. split; [exact Hrun | exact Hget].
Defined.

Lemma includes_string_In (arr : list string) (s : string) :
  OrderlyProvider.includes_string arr s = true <-> In s arr.
Proof.
  unfold OrderlyProvider.includes_string. rewrite existsb_exists. split.
  - intros (x & Hin & Heq). apply String.eqb_eq in Heq. now subst.
  - intros Hin. exists s. split; [exact Hin | apply String.eqb_refl].
Qed.

(** X22. When the configured language list has no empty entry, the default
    language is always one of the available languages, whatever the URL,
    the SEO configuration and the browser ask for; so [loadPath] has a file
    to load for it.  [loadPath] loads nothing for a language that is not
    available. *)
Theorem X22_default_language_available (env : OrderlyProvider.Environment)
    (hasWindow : bool) (langParam : option string) :
  List.Forall (fun lang => truthy_string lang = true)
    (OrderlyProvider.getRuntimeConfigArray env "VITE_AVAILABLE_LANGUAGES") ->
  In (OrderlyProvider.getDefaultLanguage env hasWindow langParam)
     (OrderlyProvider.getAvailableLanguages env)
  /\ OrderlyProvider.loadPath env (OrderlyProvider.getDefaultLanguage env hasWindow langParam)
     <> OrderlyProvider.Paths []
  /\ (forall lang, ~ In lang (OrderlyProvider.getAvailableLanguages env) ->
        OrderlyProvider.loadPath env lang = OrderlyProvider.Paths []).
Proof.
  intros Hall.
  assert (Hin : In (OrderlyProvider.getDefaultLanguage env hasWindow langParam)
                   (OrderlyProvider.getAvailableLanguages env)).
  { unfold OrderlyProvider.getDefaultLanguage.
    destruct (hasWindow && truthy_opt langParam && _) eqn:H1.
    { apply andb_prop in H1 as [_ H1]. now apply includes_string_In. }
    destruct (truthy_opt (OrderlyProvider.seoConfig_language env) && _) eqn:H2.
    { apply andb_prop in H2 as [_ H2]. now apply includes_string_In. }
    destruct (OrderlyProvider.includes_string _ (OrderlyProvider.getUserLanguage env)) eqn:H3.
    { now apply includes_string_In. }
    unfold OrderlyProvider.getAvailableLanguages in *.
    destruct (OrderlyProvider.getRuntimeConfigArray env "VITE_AVAILABLE_LANGUAGES")
      as [|first rest]; cbn.
    - now left.
    - inversion Hall as [|? ? Hfirst _]; subst. rewrite Hfirst. now left. }
  split; [exact Hin |]. split.
  - unfold OrderlyProvider.loadPath.
    apply includes_string_In in Hin. rewrite Hin. cbn [negb].
    destruct (String.eqb _ "en"); discriminate.
  - intros lang Hout. unfold OrderlyProvider.loadPath.
    destruct (OrderlyProvider.includes_string _ lang) eqn:E; [| reflexivity].
    apply includes_string_In in E. contradiction.
Qed.

Lemma X22_witness :
  OrderlyProvider.getDefaultLanguage open_environment true (Some "it") = "fr"
  /\ In "fr" (OrderlyProvider.getAvailableLanguages open_environment).
Proof.
  split; [reflexivity |].
  apply (proj1 (X22_default_language_available open_environment true (Some "it")
                  ltac:(repeat constructor))).
Defined.

Lemma provider_found_is_valid (window : option GateWallet.Window) (p : GateWallet.Injected) :
  GateWallet.getGateWalletProvider window = Some p ->
  GateWallet.isValidProvider p = true
  /\ GateWallet.isGateWalletInstalled window = true
  /\ (forall w, window = Some w -> GateWallet.gatewallet w = None ->
        GateWallet.isGateWallet p = true).
Proof.
  destruct window as [w|]; [| discriminate].
  unfold GateWallet.getGateWalletProvider, GateWallet.isGateWalletInstalled,
    GateWallet.getWindowEthereum.
  destruct (GateWallet.gatewallet w) as [g|] eqn:Hg.
  - intros H.
    assert (Hvalid : GateWallet.isValidProvider p = true).
    { destruct (GateWallet.isValidProvider (GateWallet.gatewallet_self g)) eqn:H1;
        [now inversion H; subst |].
      destruct (GateWallet.gatewallet_ethereum g) as [e|];
        [destruct (GateWallet.isValidProvider e) eqn:H2; [now inversion H; subst |] |].
      all: destruct (GateWallet.ethereum w) as [e'|]; try discriminate.
      all: destruct (GateWallet.isGateWallet (GateWallet.ethereum_self e')
                     && GateWallet.isValidProvider (GateWallet.ethereum_self e')) eqn:H3;
        [inversion H; subst; now apply andb_prop in H3 |].
      all: destruct (GateWallet.providers e') as [ps|]; try discriminate.
      all: apply find_some in H as [_ H]; now apply andb_prop in H. }
    split; [exact Hvalid |]. split; [reflexivity |].
    intros w' Hw' Hnone. inversion Hw'; subst. congruence.
  - destruct (GateWallet.ethereum w) as [e|]; [| discriminate].
    destruct (GateWallet.isGateWallet (GateWallet.ethereum_self e)
              && GateWallet.isValidProvider (GateWallet.ethereum_self e)) eqn:H3.
    + intros H. inversion H; subst. apply andb_prop in H3 as [Hflag Hvalid].
      split; [exact Hvalid |]. split; [| intros; exact Hflag].
      cbn. now rewrite Hflag.
    + destruct (GateWallet.providers e) as [ps|]; [| discriminate].
      intros H. apply find_some in H as [Hin H]. apply andb_prop in H as [Hflag Hvalid].
      split; [exact Hvalid |]. split; [| intros; exact Hflag].
      cbn. rewrite orb_true_iff. right. apply existsb_exists. now exists p.
Qed.

(** X23. Whatever [getGateWalletProvider] returns is an EIP-1193 provider
    (an object with a [request] function), and then [isGateWalletInstalled]
    holds; when the page has no [window.gatewallet], the provider is one
    that carries the [isGateWallet] flag. *)
Theorem X23_gate_provider_is_valid (window : option GateWallet.Window)
    (p : GateWallet.Injected) :
  GateWallet.getGateWalletProvider window = Some p ->
  GateWallet.isValidProvider p = true
  /\ GateWallet.isGateWalletInstalled window = true
  /\ (forall w, window = Some w -> GateWallet.gatewallet w = None ->
        GateWallet.isGateWallet p = true).
Proof.
  apply provider_found_is_valid.
Qed.

Lemma X23_witness :
  GateWallet.getGateWalletProvider (Some multi_wallet_window) = Some (gate_provider 2)
  /\ GateWallet.isValidProvider (gate_provider 2) = true
  /\ GateWallet.isGateWalletInstalled (Some multi_wallet_window) = true.
Proof.
  split; [reflexivity |].
  destruct (X23_gate_provider_is_valid (Some multi_wallet_window) (gate_provider 2) eq_refl)
    as (Hvalid & Hinstalled & _).
  split; [exact Hvalid | exact Hinstalled].
Defined.

(** X24. [getInterface] resolves exactly when [getGateWalletProvider] finds
    a provider: it then resolves to that provider, which is a valid one,
    and opens no page, however the provider's [eth_chainId] request
    settles.  Otherwise it rejects and has opened the install page, once. *)
Theorem X24_getInterface_outcome (w : GateWallet.Window) :
  match GateWallet.getInterface w with
  | (Ok p, pages) =>
      GateWallet.getGateWalletProvider (Some w) = Some p
      /\ GateWallet.isValidProvider p = true
      /\ pages = []
  | (Throw _, pages) =>
      GateWallet.getGateWalletProvider (Some w) = None
      /\ pages = [GateWallet.GATE_WALLET_INSTALL_URL]
  end.
Proof.
  unfold GateWallet.getInterface.
  destruct (GateWallet.getGateWalletProvider (Some w)) as [p|] eqn:Hp.
  - destruct (provider_found_is_valid _ _ Hp) as (Hvalid & Hinstalled & _).
    rewrite Hinstalled. cbn [negb].
    destruct (GateWallet.eth_chainId_settles p); auto.
  - destruct (negb _); auto.
Qed.

Lemma tryAutoClick_run (page : OrderlyProvider.Page) (maxAttempts fuel : nat) :
  forall (attempts : nat) (now : Z),
    (maxAttempts - attempts < fuel)%nat ->
    exists r,
      OrderlyProvider.tryAutoClick_fuel fuel page now attempts maxAttempts = Some r
      /\ match OrderlyProvider.clicked r with
         | Some k =>
             (attempts <= k < maxAttempts)%nat
             /\ OrderlyProvider.is_connect_button (page k) = true
             /\ (forall j, (attempts <= j < k)%nat ->
                   OrderlyProvider.is_connect_button (page j) = false)
             /\ OrderlyProvider.polls r = (k - attempts + 1)%nat
             /\ OrderlyProvider.cleared_at r = now + 200 * Z.of_nat (k - attempts) + 100
         | None =>
             (forall j, (attempts <= j < maxAttempts)%nat ->
                OrderlyProvider.is_connect_button (page j) = false)
             /\ OrderlyProvider.polls r = (maxAttempts - attempts)%nat
             /\ OrderlyProvider.cleared_at r = now + 200 * Z.of_nat (maxAttempts - attempts)
         end.
Proof.
  induction fuel as [|fuel IH]; intros attempts now Hfuel; [lia |].
  cbn [OrderlyProvider.tryAutoClick_fuel].
  destruct (Nat.leb_spec maxAttempts attempts) as [Hdone | Hmore].
  - eexists. split; [reflexivity |]. cbn.
    split; [intros; lia |]. split; [lia |].
    replace (maxAttempts - attempts)%nat with 0%nat by lia. lia.
  - destruct (OrderlyProvider.is_connect_button (page attempts)) eqn:Hbtn.
    + eexists. split; [reflexivity |]. cbn.
      split; [lia |]. split; [exact Hbtn |]. split; [intros; lia |].
      split; [lia |]. replace (attempts - attempts)%nat with 0%nat by lia. lia.
    + destruct (IH (S attempts) (now + 200) ltac:(lia)) as (r & -> & Hr).
      eexists. split; [reflexivity |]. cbn.
      destruct (OrderlyProvider.clicked r) as [k|].
      * destruct Hr as (Hk & Hfound & Hbefore & Hpolls & Hat).
        split; [lia |]. split; [exact Hfound |]. split.
        { intros j Hj. destruct (Nat.eq_dec j attempts) as [-> | Hne];
            [exact Hbtn | apply Hbefore; lia]. }
        split; [lia |]. rewrite Hat. lia.
      * destruct Hr as (Hnone & Hpolls & Hat).
        split.
        { intros j Hj. destruct (Nat.eq_dec j attempts) as [-> | Hne];
            [exact Hbtn | apply Hnone; lia]. }
        split; [lia |]. rewrite Hat. lia.
Qed.

(** X25. The automatic click started by [handleProviderSelect] always
    ends, after at most 20 queries of the page and 20 retry timers, with
    [isAutoClicking] reset: when the connect button shows up at one of the
    first 20 polls, it is clicked at the first such poll [k] and the flag
    is reset 600 + 200 k ms after the choice; otherwise nothing is clicked
    and the flag is reset after 4500 ms. *)
Theorem X25_auto_click_ends (page : OrderlyProvider.Page) (type : string) (steps : nat) :
  (20 < steps)%nat ->
  exists r,
    snd (OrderlyProvider.handleProviderSelect steps page type) = Some r
    /\ (OrderlyProvider.polls r <= 20)%nat
    /\ match OrderlyProvider.clicked r with
       | Some k =>
           (k < 20)%nat
           /\ OrderlyProvider.is_connect_button (page k) = true
           /\ (forall j, (j < k)%nat -> OrderlyProvider.is_connect_button (page j) = false)
           /\ OrderlyProvider.polls r = S k
           /\ OrderlyProvider.cleared_at r = 600 + 200 * Z.of_nat k
       | None =>
           (forall j, (j < 20)%nat -> OrderlyProvider.is_connect_button (page j) = false)
           /\ OrderlyProvider.polls r = 20%nat
           /\ OrderlyProvider.cleared_at r = 4500
       end.
Proof.
  intros Hsteps. unfold OrderlyProvider.handleProviderSelect. cbn [snd].
  destruct (tryAutoClick_run page 20 steps 0 500 ltac:(lia)) as (r & Hrun & Hr).
  exists r. split; [exact Hrun |].
  destruct (OrderlyProvider.clicked r) as [k|].
  - destruct Hr as (Hk & Hfound & Hbefore & Hpolls & Hat).
    split; [lia |]. split; [lia |]. split; [exact Hfound |].
    split; [intros j Hj; apply Hbefore; lia |]. split; [lia |].
    rewrite Hat. lia.
  - destruct Hr as (Hnone & Hpolls & Hat).
    split; [lia |]. split; [intros j Hj; apply Hnone; lia |]. split; [lia |].
    rewrite Hat. lia.
Qed.

Lemma X25_witness :
  exists r,
    snd (OrderlyProvider.handleProviderSelect 21 late_button_page "para") = Some r
    /\ (OrderlyProvider.polls r <= 20)%nat.
Proof.
  destruct (X25_auto_click_ends late_button_page "para" 21 ltac:(lia)) as (r & Hrun & Hpolls & _).
  exists r. split; [exact Hrun | exact Hpolls].
Defined.
